(** * pdf-data-extraction-cli: a shallow embedding of [main.py]

    The development follows the layout of the program: Python strings and
    the few [str] methods the program calls, JSON values and insertion
    ordered dictionaries, the [json.loads] decoder, the response clean-up of
    [process_file], the per-document state machine with its calls to the
    outside world, the CSV flattening and the driver [main].

    Strings are Python [str] values held as their UTF-8 encoding: every
    [ascii] is one byte.  All the markers the program looks for (the fence
    back-quotes, braces, the path separator, the [.pdf] suffix) are ASCII,
    and an ASCII byte never occurs inside a multi-byte UTF-8 sequence, so
    searching and replacing bytes is searching and replacing characters;
    lexicographic order on UTF-8 bytes is code-point order.

    Paths follow [posixpath].  Interpreter resource limits (recursion depth,
    the digit limit of [int]) are outside the model. *)

From Stdlib Require Import List String Ascii ZArith NArith Bool Lia DecimalString.
From Stdlib Require Import Sorting.Sorted Sorting.Permutation Structures.OrderedTypeEx.
Import ListNotations.

Local Open Scope string_scope.
Local Open Scope list_scope.

(** ** Python strings *)

Module PyStr.

Definition byte (n : N) : ascii := ascii_of_N n.

Definition code (c : ascii) : N := N_of_ascii c.

(** [s == ''] is false, the truth value of a string. *)
Definition nonempty (s : string) : bool :=
  match s with EmptyString => false | String _ _ => true end.

Fixpoint rev_onto (s acc : string) : string :=
  match s with
  | EmptyString => acc
  | String c s' => rev_onto s' (String c acc)
  end.

Definition rev (s : string) : string := rev_onto s EmptyString.

(** The one-byte characters for which [str.isspace] holds:
    U+0009..U+000D, U+001C..U+001F and the space. *)
Definition is_space1 (c : ascii) : bool :=
  let n := code c in
  ((9 <=? n) && (n <=? 13) || (28 <=? n) && (n <=? 32))%N.

(** Second byte after 0xC2: U+0085 and U+00A0. *)
Definition is_space2 (c : ascii) : bool :=
  let n := code c in ((n =? 133) || (n =? 160))%N.

(** The two bytes after a first byte [c1] of a three-byte whitespace
    character: U+1680, U+2000..U+200A, U+2028, U+2029, U+202F, U+205F and
    U+3000. *)
Definition is_space3 (c1 c2 c3 : ascii) : bool :=
  let a := code c1 in
  let b := code c2 in
  let c := code c3 in
  ((a =? 225) && (b =? 154) && (c =? 128)
   || (a =? 226) && (b =? 128)
      && ((128 <=? c) && (c <=? 138) || (c =? 168) || (c =? 169) || (c =? 175))
   || (a =? 226) && (b =? 129) && (c =? 159)
   || (a =? 227) && (b =? 128) && (c =? 128))%N.

(** [str.lstrip()]. *)
Fixpoint lstrip (s : string) : string :=
  match s with
  | EmptyString => EmptyString
  | String c1 s1 =>
      if is_space1 c1 then lstrip s1
      else
        match s1 with
        | String c2 s2 =>
            if ((code c1 =? 194)%N && is_space2 c2)%bool then lstrip s2
            else
              match s2 with
              | String c3 s3 => if is_space3 c1 c2 c3 then lstrip s3 else s
              | EmptyString => s
              end
        | EmptyString => s
        end
  end.

(** [lstrip] on the reversed string: the multi-byte characters are met
    last byte first. *)
Fixpoint lstrip_rev (s : string) : string :=
  match s with
  | EmptyString => EmptyString
  | String c1 s1 =>
      if is_space1 c1 then lstrip_rev s1
      else
        match s1 with
        | String c2 s2 =>
            if ((code c2 =? 194)%N && is_space2 c1)%bool then lstrip_rev s2
            else
              match s2 with
              | String c3 s3 => if is_space3 c3 c2 c1 then lstrip_rev s3 else s
              | EmptyString => s
              end
        | EmptyString => s
        end
  end.

(** [str.rstrip()]. *)
Definition rstrip (s : string) : string := rev (lstrip_rev (rev s)).

(** [str.strip()]. *)
Definition strip (s : string) : string := rstrip (lstrip s).

(** [s.startswith(pat)]. *)
Fixpoint startswith (s pat : string) {struct pat} : bool :=
  match pat with
  | EmptyString => true
  | String a pat' =>
      match s with
      | EmptyString => false
      | String b s' => (a =? b)%char && startswith s' pat'
      end
  end.

(** [t] starts with no non-empty suffix of [pat]: an occurrence of [pat]
    cannot begin before [t] and end inside it. *)
Fixpoint no_suffix_starts (pat t : string) : bool :=
  match pat with
  | EmptyString => true
  | String _ pat' => negb (startswith t pat) && no_suffix_starts pat' t
  end.

(** [s.replace(pat, '')] for a non-empty [pat]: the occurrences of [pat]
    are found from the left and do not overlap.  [skip] counts the bytes
    of the occurrence under deletion that are still to be dropped. *)
Fixpoint remove_from (pat s : string) (skip : nat) : string :=
  match s with
  | EmptyString => EmptyString
  | String c s' =>
      match skip with
      | S k => remove_from pat s' k
      | O =>
          if startswith s pat then remove_from pat s' (String.length pat - 1)
          else String c (remove_from pat s' 0)
      end
  end.

Definition remove_all (pat s : string) : string :=
  match pat with
  | EmptyString => s
  | String _ _ => remove_from pat s 0
  end.

(** [s.endswith(pat)]. *)
Definition endswith (s pat : string) : bool := startswith (rev s) (rev pat).

(** [str.lower()] on the ASCII letters.  No other character lowers to a
    string that ends in an ASCII letter or a dot, so for the suffix test
    of [main] this is [str.lower()]. *)
Definition lower_ascii (c : ascii) : ascii :=
  let n := code c in
  if ((65 <=? n) && (n <=? 90))%N then byte (n + 32) else c.

Fixpoint lower (s : string) : string :=
  match s with
  | EmptyString => EmptyString
  | String c s' => String (lower_ascii c) (lower s')
  end.

Fixpoint contains_char (c : ascii) (s : string) : bool :=
  match s with
  | EmptyString => false
  | String c' s' => (c' =? c)%char || contains_char c s'
  end.

(** [sep.join(parts)]. *)
Definition join (sep : string) (parts : list string) : string :=
  String.concat sep parts.

End PyStr.

(** ** [os.path] (posixpath) *)

Module OsPath.

Definition sep : ascii := "/"%char.

(** [os.path.basename(p)]: [p[p.rfind('/') + 1:]]. *)
Fixpoint basename (p : string) : string :=
  match p with
  | EmptyString => EmptyString
  | String c rest =>
      if PyStr.contains_char sep rest then basename rest
      else if (c =? sep)%char then rest
      else p
  end.

(** [os.path.join(a, b)]. *)
Definition join (a b : string) : string :=
  if PyStr.startswith b "/" then b
  else if negb (PyStr.nonempty a) || PyStr.endswith a "/" then (a ++ b)%string
  else (a ++ "/" ++ b)%string.

Definition isabs (p : string) : bool := PyStr.startswith p "/".

(** The components of a path between separators, in reverse order, with
    the component under construction [cur]. *)
Fixpoint split_onto (p cur : string) (acc : list string) : list string :=
  match p with
  | EmptyString => PyStr.rev cur :: acc
  | String c rest =>
      if (c =? sep)%char then split_onto rest EmptyString (PyStr.rev cur :: acc)
      else split_onto rest (String c cur) acc
  end.

Definition components (p : string) : list string :=
  List.rev (split_onto p EmptyString []).

(** One step of the kernel's path walk: empty components and [.] stay,
    [..] climbs (the root is its own parent), a name descends. *)
Definition walk_step (dir : list string) (name : string) : list string :=
  if (name =? "")%string || (name =? ".")%string then dir
  else if (name =? "..")%string then List.removelast dir
  else dir ++ [name].

Definition walk_from (dir : list string) (p : string) : list string :=
  fold_left walk_step (components p) dir.

(** The file a path names for a process whose working directory is
    [cwd]: the list of names from the root (symbolic links apart). *)
Definition resolve (cwd p : string) : list string :=
  if isabs p then walk_from [] p else walk_from (walk_from [] cwd) p.

(** The names of [dir] are the first names of [path]. *)
Fixpoint is_prefix (dir path : list string) : bool :=
  match dir, path with
  | [], _ => true
  | d :: dir', p :: path' => (d =? p)%string && is_prefix dir' path'
  | _ :: _, [] => false
  end.

(** The file [file] lies under the directory [dir]: in it or in one of the
    directories below it. *)
Definition under (dir file : list string) : bool :=
  is_prefix dir file && negb (List.length file =? List.length dir)%nat.

End OsPath.

(** ** JSON values and Python dictionaries *)

Unset Elimination Schemes.

(** The values [json.loads] builds.  A [float] is kept as the lexeme it was
    read from ([NaN], [Infinity] and [-Infinity] included). *)
Inductive json : Type :=
| JNull
| JBool (b : bool)
| JInt (n : Z)
| JFloat (lexeme : string)
| JStr (s : string)
| JList (items : list json)
| JDict (entries : list (string * json)).

Set Elimination Schemes.

(** A [dict] with [str] keys in insertion order. *)
Definition dict : Type := list (string * json).

Definition is_dict (v : json) : bool :=
  match v with JDict _ => true | _ => false end.

Definition is_list (v : json) : bool :=
  match v with JList _ => true | _ => false end.

(** Neither a dict nor a list. *)
Definition is_scalar (v : json) : bool := negb (is_dict v || is_list v).

Module Dict.

Definition keys (d : dict) : list string := map fst d.

(** [d.get(k)]. *)
Fixpoint get (d : dict) (k : string) : option json :=
  match d with
  | [] => None
  | (k', v) :: rest => if (k' =? k)%string then Some v else get rest k
  end.

(** [d.get(k, default)]. *)
Definition get_default (d : dict) (k : string) (default : json) : json :=
  match get d k with Some v => v | None => default end.

Definition mem (d : dict) (k : string) : bool :=
  match get d k with Some _ => true | None => false end.

(** [d[k] = v]: an existing key keeps its place, a new one goes last. *)
Fixpoint set (d : dict) (k : string) (v : json) : dict :=
  match d with
  | [] => [(k, v)]
  | (k', v') :: rest =>
      if (k' =? k)%string then (k, v) :: rest else (k', v') :: set rest k v
  end.

(** [d.update(other)]. *)
Definition update (d other : dict) : dict :=
  fold_left (fun acc kv => set acc (fst kv) (snd kv)) other d.

(** [dict(items)]. *)
Definition of_items (items : list (string * json)) : dict :=
  update [] items.

End Dict.

(** ** [json.loads]

    The decoder of the standard library, as the scanner of [json.scanner]
    and [json.decoder] runs it with the default hooks and [strict=True]. *)

Module JsonDecoder.

Import PyStr.

(** The decoder's own whitespace: space, tab, line feed, carriage
    return.  It is a proper subset of what [str.strip] removes. *)
Definition is_ws (c : ascii) : bool :=
  let n := code c in ((n =? 32) || (n =? 9) || (n =? 10) || (n =? 13))%N.

Fixpoint skip_ws (s : string) : string :=
  match s with
  | EmptyString => EmptyString
  | String c s' => if is_ws c then skip_ws s' else s
  end.

(** Strings of decoder whitespace. *)
Fixpoint all_ws (s : string) : bool :=
  match s with
  | EmptyString => true
  | String c s' => is_ws c && all_ws s'
  end.

(** No character of [pat] is whitespace. *)
Fixpoint no_ws (pat : string) : bool :=
  match pat with
  | EmptyString => true
  | String c pat' => negb (is_ws c) && no_ws pat'
  end.

(** A scanner result whose input is followed by [t]. *)
Definition extend {A : Type} (t : string) (res : option (A * string))
  : option (A * string) :=
  match res with
  | Some (v, r) => Some (v, (r ++ t)%string)
  | None => None
  end.

Definition is_digit (c : ascii) : bool :=
  let n := code c in ((48 <=? n) && (n <=? 57))%N.

(** The longest prefix of digits (held reversed) and what follows it. *)
Fixpoint span_digits (s acc : string) : string * string :=
  match s with
  | EmptyString => (rev acc, EmptyString)
  | String c s' =>
      if is_digit c then span_digits s' (String c acc) else (rev acc, s)
  end.

Fixpoint decimal_onto (s : string) (acc : Z) : Z :=
  match s with
  | EmptyString => acc
  | String c s' => decimal_onto s' (10 * acc + Z.of_N (code c - 48))%Z
  end.

(** [s[len(pat):]] when [s] starts with [pat]. *)
Fixpoint drop_prefix (pat s : string) : option string :=
  match pat with
  | EmptyString => Some s
  | String a pat' =>
      match s with
      | EmptyString => None
      | String b s' => if (a =? b)%char then drop_prefix pat' s' else None
      end
  end.

(** [NUMBER_RE], group by group.  The sign: an optional minus. *)
Definition scan_sign (s : string) : string * string :=
  match s with
  | String c r => if (c =? "-")%char then ("-", r) else ("", s)
  | EmptyString => ("", s)
  end.

(** The integer part: a single 0, or digits that do not start with 0. *)
Definition scan_int (s : string) : option (string * string) :=
  match s with
  | EmptyString => None
  | String c r =>
      if is_digit c then
        Some (if (c =? "0")%char then ("0", r) else span_digits s "")
      else None
  end.

(** The fraction, if there is one: a dot and one digit or more. *)
Definition scan_frac (s : string) : string * string :=
  match s with
  | String c r =>
      if (c =? ".")%char then
        let '(ds, r') := span_digits r "" in
        if nonempty ds then (String c ds, r') else ("", s)
      else ("", s)
  | EmptyString => ("", s)
  end.

(** The sign of an exponent. *)
Definition scan_exp_sign (s : string) : string * string :=
  match s with
  | String c r => if ((c =? "+")%char || (c =? "-")%char)%bool then (String c "", r) else ("", s)
  | EmptyString => ("", s)
  end.

(** The exponent, if there is one: e or E, an optional sign and one digit
    or more. *)
Definition scan_exp (s : string) : string * string :=
  match s with
  | String e r =>
      if ((e =? "e")%char || (e =? "E")%char)%bool then
        let '(esign, r1) := scan_exp_sign r in
        let '(ds, r2) := span_digits r1 "" in
        if nonempty ds then (String e (esign ++ ds), r2)%string else ("", s)
      else ("", s)
  | EmptyString => ("", s)
  end.

(** [match_number] and the conversion that follows it: an integer
    literal becomes an [int], one with a fraction or an exponent a
    [float]. *)
Definition scan_number (s : string) : option (json * string) :=
  let '(sign, s1) := scan_sign s in
  match scan_int s1 with
  | None => None
  | Some (int_digits, rest) =>
      let '(frac, rest1) := scan_frac rest in
      let '(exp, rest2) := scan_exp rest1 in
      if (nonempty frac || nonempty exp)%bool
      then Some (JFloat (sign ++ int_digits ++ frac ++ exp)%string, rest2)
      else
        let n := decimal_onto int_digits 0 in
        Some (JInt (if nonempty sign then (- n)%Z else n), rest2)
  end.

Definition hex_digit (c : ascii) : option N :=
  let n := code c in
  if ((48 <=? n) && (n <=? 57))%N then Some (n - 48)%N
  else if ((97 <=? n) && (n <=? 102))%N then Some (n - 87)%N
  else if ((65 <=? n) && (n <=? 70))%N then Some (n - 55)%N
  else None.

(** The UTF-8 bytes of a code point, pushed on a reversed string. *)
Definition push_utf8 (cp : N) (acc : string) : string :=
  if (cp <? 128)%N then String (byte cp) acc
  else if (cp <? 2048)%N then
    String (byte (128 + cp mod 64)) (String (byte (192 + cp / 64)) acc)
  else if (cp <? 65536)%N then
    String (byte (128 + cp mod 64))
      (String (byte (128 + (cp / 64) mod 64))
         (String (byte (224 + cp / 4096)) acc))
  else
    String (byte (128 + cp mod 64))
      (String (byte (128 + (cp / 64) mod 64))
         (String (byte (128 + (cp / 4096) mod 64))
            (String (byte (240 + cp / 262144)) acc))).

(** [BACKSLASH]: the one-letter escapes. *)
Definition unescape (c : ascii) : option ascii :=
  if (c =? "034")%char then Some "034"%char
  else if (c =? "\")%char then Some "\"%char
  else if (c =? "/")%char then Some "/"%char
  else if (c =? "b")%char then Some (byte 8)
  else if (c =? "f")%char then Some (byte 12)
  else if (c =? "n")%char then Some (byte 10)
  else if (c =? "r")%char then Some (byte 13)
  else if (c =? "t")%char then Some (byte 9)
  else None.

Definition is_high_surrogate (u : N) : bool := ((55296 <=? u) && (u <=? 56319))%N.

Definition is_low_surrogate (u : N) : bool := ((56320 <=? u) && (u <=? 57343))%N.

(** Where [scanstring] is between two characters: in plain text, after a
    backslash, or inside the four hex digits of a [\u] escape with [todo]
    digits to read and the value [v] of those read. *)
Inductive mode : Type :=
| Plain
| Escape
| Hex (todo : nat) (v : N).

(** A high surrogate read from an escape waits in [pending] for the
    escape of a low surrogate; anything else writes it out alone. *)
Definition flush (pending : option N) (acc : string) : string :=
  match pending with
  | Some u => push_utf8 u acc
  | None => acc
  end.

(** A [\u] escape of value [v] is complete. *)
Definition complete (pending : option N) (v : N) (acc : string) : option N * string :=
  match pending with
  | Some u =>
      if is_low_surrogate v
      then (None, push_utf8 (65536 + (u - 55296) * 1024 + (v - 56320)) acc)
      else if is_high_surrogate v then (Some v, push_utf8 u acc)
      else (None, push_utf8 v (push_utf8 u acc))
  | None =>
      if is_high_surrogate v then (Some v, acc) else (None, push_utf8 v acc)
  end.

(** [scanstring]: the text after an opening quote, up to the closing
    one, read a character at a time.  Control characters are refused
    ([strict]); the hex digits of an escape must be four; a high surrogate
    escape followed by a low one is one character. *)
Fixpoint scan_string (s : string) (pending : option N) (m : mode) (acc : string)
  : option (string * string) :=
  match s with
  | EmptyString => None
  | String c rest =>
      match m with
      | Plain =>
          if (c =? "\")%char then scan_string rest pending Escape acc
          else if (c =? "034")%char then Some (rev (flush pending acc), rest)
          else if (code c <? 32)%N then None
          else scan_string rest None Plain (String c (flush pending acc))
      | Escape =>
          if (c =? "u")%char then scan_string rest pending (Hex 4 0) acc
          else
            match unescape c with
            | Some ch => scan_string rest None Plain (String ch (flush pending acc))
            | None => None
            end
      | Hex todo v =>
          match hex_digit c with
          | None => None
          | Some d =>
              let v' := (v * 16 + d)%N in
              match todo with
              | S (S todo') => scan_string rest pending (Hex (S todo') v') acc
              | _ =>
                  let '(pending', acc') := complete pending v' acc in
                  scan_string rest pending' Plain acc'
              end
          end
      end
  end.

(** [scan_once] with the loops of [JSONArray] and [JSONObject].  Every
    call made with [fuel] left has consumed input since the call two
    levels up, so [2 * len(s) + 2] is never used up. *)
Fixpoint scan_once (fuel : nat) (s : string) {struct fuel} : option (json * string) :=
  match fuel with
  | O => None
  | S fuel' =>
      match s with
      | EmptyString => None
      | String c rest =>
          if (c =? "034")%char then
            match scan_string rest None Plain "" with
            | Some (str, r) => Some (JStr str, r)
            | None => None
            end
          else if (c =? "{")%char then
            match skip_ws rest with
            | EmptyString => None
            | String c' r =>
                if (c' =? "}")%char then Some (JDict [], r)
                else if (c' =? "034")%char then scan_members fuel' r []
                else None
            end
          else if (c =? "[")%char then
            match skip_ws rest with
            | EmptyString => None
            | String c' r =>
                if (c' =? "]")%char then Some (JList [], r)
                else scan_items fuel' (String c' r) []
            end
          else
            match drop_prefix "null" s, drop_prefix "true" s, drop_prefix "false" s with
            | Some r, _, _ => Some (JNull, r)
            | None, Some r, _ => Some (JBool true, r)
            | None, None, Some r => Some (JBool false, r)
            | None, None, None =>
                match scan_number s with
                | Some res => Some res
                | None =>
                    match drop_prefix "NaN" s, drop_prefix "Infinity" s,
                          drop_prefix "-Infinity" s with
                    | Some r, _, _ => Some (JFloat "NaN", r)
                    | None, Some r, _ => Some (JFloat "Infinity", r)
                    | None, None, Some r => Some (JFloat "-Infinity", r)
                    | None, None, None => None
                    end
                end
            end
      end
  end

(** The loop of [JSONArray], entered at a value; [acc] holds the values
    read so far, last first. *)
with scan_items (fuel : nat) (s : string) (acc : list json) {struct fuel}
  : option (json * string) :=
  match fuel with
  | O => None
  | S fuel' =>
      match scan_once fuel' s with
      | None => None
      | Some (v, r) =>
          match skip_ws r with
          | EmptyString => None
          | String c r1 =>
              if (c =? "]")%char then Some (JList (List.rev (v :: acc)), r1)
              else if (c =? ",")%char then scan_items fuel' (skip_ws r1) (v :: acc)
              else None
          end
      end
  end

(** The loop of [JSONObject], entered after the opening quote of a key;
    the pairs go through [dict], so a repeated key keeps its first place
    and its last value. *)
with scan_members (fuel : nat) (s : string) (acc : list (string * json)) {struct fuel}
  : option (json * string) :=
  match fuel with
  | O => None
  | S fuel' =>
      match scan_string s None Plain "" with
      | None => None
      | Some (key, r) =>
          match skip_ws r with
          | EmptyString => None
          | String c r1 =>
              if (c =? ":")%char then
                match scan_once fuel' (skip_ws r1) with
                | None => None
                | Some (v, r2) =>
                    match skip_ws r2 with
                    | EmptyString => None
                    | String c' r3 =>
                        if (c' =? "}")%char then
                          Some (JDict (Dict.of_items (List.rev ((key, v) :: acc))), r3)
                        else if (c' =? ",")%char then
                          match skip_ws r3 with
                          | EmptyString => None
                          | String c'' r4 =>
                              if (c'' =? "034")%char
                              then scan_members fuel' r4 ((key, v) :: acc)
                              else None
                          end
                        else None
                    end
                end
              else None
          end
      end
  end.

(** [json.loads(s)]: [None] stands for [JSONDecodeError]. *)
Definition json_loads (s : string) : option json :=
  match scan_once (2 * String.length s + 2) (skip_ws s) with
  | Some (v, rest) =>
      match skip_ws rest with
      | EmptyString => Some v
      | String _ _ => None
      end
  | None => None
  end.

End JsonDecoder.

(** ** The response clean-up and recovery of [process_file] *)

Module ResponseParser.

Import PyStr.

(** The suffix of [s] that starts at the first [c]. *)
Fixpoint from_first (c : ascii) (s : string) : option string :=
  match s with
  | EmptyString => None
  | String c' s' => if (c' =? c)%char then Some s else from_first c s'
  end.

(** The prefix of [s] that ends at the last [c]. *)
Definition upto_last (c : ascii) (s : string) : option string :=
  match from_first c (rev s) with
  | Some r => Some (rev r)
  | None => None
  end.

(** [re.search(r'\{.*\}', s, re.DOTALL)]: the match starts at the first
    opening brace that has a closing brace after it and, the star being
    greedy and the dot matching newlines, ends at the last closing brace.
    That is the first opening brace or nothing. *)
Definition search_braces (s : string) : option string :=
  match from_first "{" s with
  | Some (String open rest) =>
      match upto_last "}" rest with
      | Some body => Some (String open body)
      | None => None
      end
  | _ => None
  end.

(** Line 179: [text.strip().replace("```json", "").replace("```", "")]. *)
Definition clean_response (text : string) : string :=
  remove_all "```" (remove_all "```json" (strip text)).

(** The three ways lines 182 to 213 give up. *)
Inductive failure : Type :=
| DecodeFailed   (* the brace block is not JSON either *)
| NoJsonFound    (* no brace block *)
| InvalidType.   (* the value is not a dict *)

(** Lines 182 to 199: decode as it is, else decode the brace block. *)
Definition decode (cleaned : string) : failure + json :=
  match JsonDecoder.json_loads cleaned with
  | Some v => inr v
  | None =>
      match search_braces cleaned with
      | Some block =>
          match JsonDecoder.json_loads block with
          | Some v => inr v
          | None => inl DecodeFailed
          end
      | None => inl NoJsonFound
      end
  end.

(** Lines 201 to 208: a list stands for its first item, an empty list
    for an empty dict. *)
Definition unwrap_list (v : json) : json :=
  match v with
  | JList (first :: _) => first
  | JList [] => JDict []
  | _ => v
  end.

(** Lines 210 to 213. *)
Definition expect_dict (v : json) : failure + dict :=
  match v with
  | JDict d => inr d
  | _ => inl InvalidType
  end.

(** Lines 179 to 213, from [response.text] to the dict that receives the
    metadata. *)
Definition parse (text : string) : failure + dict :=
  match decode (clean_response text) with
  | inl f => inl f
  | inr v => expect_dict (unwrap_list v)
  end.

(** A response inside a json fence. *)
Definition fenced (content : string) : string :=
  ("```json" ++ content ++ "```")%string.

(** What [str.strip] removes from [content] is whitespace for the JSON
    decoder too: spaces, tabs, line feeds and carriage returns. *)
Definition edges_are_json_ws (content : string) : Prop :=
  exists lead trail,
    JsonDecoder.all_ws lead = true /\
    JsonDecoder.all_ws trail = true /\
    content = (lead ++ strip content ++ trail)%string.

End ResponseParser.

(** ** The outside world and the trace of a run *)

(** [GEMINI_MAX_FILE_SIZE_MB] and [GEMINI_MAX_FILE_SIZE_BYTES]. *)
Definition GEMINI_MAX_FILE_SIZE_MB : Z := 50.
Definition GEMINI_MAX_FILE_SIZE_BYTES : Z := GEMINI_MAX_FILE_SIZE_MB * 1024 * 1024.

Definition DEFAULT_ADDITIONAL_CONTEXT : string := "No specific context provided.".

(** A prompt: the template and the arguments of its [format] call
    ([fields] is the value [json.dumps] renders).  [LLM_PROMPT] is the
    template of the prototype in [ceeol_main.py]. *)
Inductive prompt : Type :=
| FILE_MODE_PROMPT (additional_context fields : json)
| TEXT_MODE_PROMPT (document_content : string) (additional_context fields : json)
| LLM_PROMPT (pdf_text_content subject_tree : string).

(** What [pymupdf.open] gives: the page count and, page by page, what
    [get_text] returns ([None] when it raises). *)
Record document : Type := mkDocument {
  page_count : Z;
  page_texts : list (option string)
}.

(** The result of reading a file as UTF-8 text; [ReadFailed text] is an
    exception other than [FileNotFoundError], whose [str] is [text]. *)
Inductive file_read : Type :=
| FileNotFound
| ReadFailed (text : string)
| FileText (content : string).

(** Everything the program asks of its environment and of the libraries
    it calls.  [None] (or [false]) is the call raising an exception; the
    [_error] fields give the [str] of the exception that a failing call on
    a path raises, which the program prints.  [console_markup_error] is
    [rich.markup.render] on the markup of a line: [None] when the line
    renders, [Some text] when it raises [MarkupError(text)], as it does for
    a closing tag that matches no open one. *)
Record World : Type := mkWorld {
  (* os *)
  os_getcwd : string;
  env_GEMINI_API_KEY : option string;
  os_path_isdir : string -> bool;
  os_listdir : string -> option (list string);
  os_walk : string -> list (string * list string * list string);
  os_path_getsize : string -> option Z;
  getsize_error : string -> string;
  read_text : string -> file_read;
  write_file : string -> bool;
  write_error : string -> string;
  (* google.generativeai *)
  genai_configure : string -> bool;
  genai_upload_file : string -> option string;
  generate_content : prompt -> option string -> option (option string);
  genai_delete_file : string -> bool;
  (* pymupdf *)
  pymupdf_open : string -> option document;
  pymupdf_error : string -> string;
  (* rich *)
  console_markup_error : string -> option string
}.

(** The lines the console prints. *)
Inductive message : Type :=
| MsgBanner
| MsgNoApiKey
| MsgSetApiKey
| MsgConfigureFailed
| MsgInputDirNotFound (dir : string)
| MsgSchemaNotFound (path : string)
| MsgSchemaInvalidJson
| MsgSchemaReadError
| MsgNoFields
| MsgNoPdfFound (dir : string)
| MsgFound (count : nat) (dir : string)
| MsgTooLarge (filename : string)
| MsgUploadFailed (filename : string)
| MsgOpenFailed (filename : string)
| MsgSkipEmpty (filename : string)
| MsgDecodeFailed (filename : string)
| MsgNoJsonFound (filename : string)
| MsgRawResponse
| MsgInvalidType (filename : string)
| MsgProcessingError (filename : string)
| MsgSuccess (filename : string)
| MsgFailed (filename : string)
| MsgNoResults
| MsgDone (output : string)
| MsgCsvNoData
| MsgCsvSaved (output : string)
| MsgSaveError.

(** What a run does, in order. *)
Inductive event : Type :=
| Print (m : message)
| GetSize (path : string)
| UploadFile (path : string)
| GenerateContent (p : prompt) (file : option string)
| DeleteFile (name : string)
| OpenPdf (path : string)
| WriteJson (path : string) (results : list dict)
| WriteCsv (path : string) (header : list string) (rows : list (list json)).

(** ** Control flow: a trace, early [return] and exceptions *)

(** [JSONDecodeError] carries [response.text], the local of the [try]
    body that its handlers print.  [OSError text] is the error of a call
    on a path and [MarkupError text] the error of [console.print]; [text]
    is their [str].  [OtherException] is an exception whose text is not
    modelled: those of the Google client and of MuPDF on a page, and the
    [AttributeError] and [TypeError] of the interpreter. *)
Inductive exn : Type :=
| JSONDecodeError (response_text : string)
| OtherException
| OSError (text : string)
| MarkupError (text : string).

Inductive signal (A : Type) : Type :=
| Next (a : A)                   (* go on with the next statement *)
| Returned (r : option dict)     (* a [return] statement was run *)
| Raised (e : exn).              (* an exception is in flight *)

Arguments Next {A} a.
Arguments Returned {A} r.
Arguments Raised {A} e.

Definition M (A : Type) : Type := list event -> signal A * list event.

Definition ret {A : Type} (a : A) : M A := fun tr => (Next a, tr).

Definition bind {A B : Type} (m : M A) (k : A -> M B) : M B :=
  fun tr =>
    match m tr with
    | (Next a, tr') => k a tr'
    | (Returned r, tr') => (Returned r, tr')
    | (Raised e, tr') => (Raised e, tr')
    end.

Definition emit (e : event) : M unit := fun tr => (Next tt, tr ++ [e]).

(** [console.print] of a line whose f-string takes, beside its literal
    text, only base names, names of a directory listing, sizes, counts and
    type names, or the text of an exception that [exn_text] leaves out.
    Rich raises on a closing tag, which begins with a bracket and a slash;
    such a name holds no slash, and after it the templates have an opening
    bracket before any closing one, so no tag can end inside the literal
    text: these lines render.  The message of a [json.JSONDecodeError]
    (line 77) is one of the decoder's texts followed by a line, a column
    and an offset, and holds no tag.  The lines with the text of an
    exception of the Google client (lines 95 and 139, and line 225 after
    a failed call of the model), of MuPDF on a page or of the interpreter
    (line 225) are taken to render as well. *)
Definition print (m : message) : M unit := emit (Print m).

Definition return_ {A : Type} (r : option dict) : M A := fun tr => (Returned r, tr).

Definition raise {A : Type} (e : exn) : M A := fun tr => (Raised e, tr).

(** [try: body except Exception: handler]. *)
Definition try_except {A : Type} (body : M A) (handler : exn -> M A) : M A :=
  fun tr =>
    match body tr with
    | (Raised e, tr') => handler e tr'
    | other => other
    end.

(** A call of a function whose body is [body]: the value of the call is
    what the body returned, [None] when it ran to its end. *)
Definition call {A : Type} (body : M A) : M (option dict) :=
  fun tr =>
    match body tr with
    | (Next _, tr') => (Next None, tr')
    | (Returned r, tr') => (Next r, tr')
    | (Raised e, tr') => (Raised e, tr')
    end.

(** An external call that may raise. *)
Definition external {A : Type} (e : event) (result : option A) : M A :=
  bind (emit e) (fun _ => match result with Some a => ret a | None => raise OtherException end).

(** A call on a path; when it raises, [text] is the [str] of the error. *)
Definition external_os {A : Type} (e : event) (result : option A) (text : string) : M A :=
  bind (emit e)
    (fun _ => match result with Some a => ret a | None => raise (OSError text) end).

Declare Scope py_scope.
Delimit Scope py_scope with py.
Notation "x <- m ;; k" := (bind m (fun x => k))
  (at level 61, m at next level, right associativity) : py_scope.
Notation "m ;; k" := (bind m (fun _ => k))
  (at level 61, right associativity) : py_scope.
Local Open Scope py_scope.

(** ** The console *)

(** [console.print(markup)] of a line that takes text from outside the
    program: the reply of the model, a path of the command line, or the
    text of an exception.  Rich parses the markup before anything is
    shown, and raises when it refuses it. *)
Definition console_print (w : World) (markup : string) (m : message) : M unit :=
  fun tr =>
    match console_markup_error w markup with
    | None => (Next tt, tr ++ [Print m])
    | Some text => (Raised (MarkupError text), tr)
    end.

(** [str(e)], where the model has it. *)
Definition exn_text (e : exn) : option string :=
  match e with
  | OSError text | MarkupError text => Some text
  | JSONDecodeError _ | OtherException => None
  end.

(** [console.print] of a line that ends in [str(e)]. *)
Definition print_error (w : World) (markup : string -> string) (e : exn) (m : message)
  : M unit :=
  match exn_text e with
  | Some text => console_print w (markup text) m
  | None => print m
  end.

(** The markup of the lines that go through [console_print]: the
    f-strings of the source. *)
Module Markup.

(** A byte that continues a UTF-8 sequence. *)
Definition is_continuation (c : ascii) : bool :=
  ((128 <=? PyStr.code c) && (PyStr.code c <=? 191))%N.

(** [s[:n]]: the first [n] characters. *)
Fixpoint take_chars (n : nat) (s : string) : string :=
  match s with
  | EmptyString => EmptyString
  | String c rest =>
      if is_continuation c then String c (take_chars n rest)
      else
        match n with
        | O => EmptyString
        | S k => String c (take_chars k rest)
        end
  end.

Definition newline : string := String "010" "".

(** U+2713, the check mark. *)
Definition check_mark : string := String "226" (String "156" (String "147" "")).

(** [str(n)]. *)
Definition decimal (n : nat) : string := NilEmpty.string_of_uint (Nat.to_uint n).

(** Lines 194 and 198 ([n] is 500), line 222 and line 118 of the
    prototype ([n] is 200). *)
Definition raw_response (n : nat) (text : string) : string :=
  "  [dim]LLM raw response: " ++ take_chars n text ++ "...[/dim]".

(** Line 139. *)
Definition upload_failed (filename e : string) : string :=
  "  [yellow]Warning: File upload failed for " ++ filename ++ ": " ++ e ++ "[/yellow]".

(** Line 147, and line 85 of the prototype. *)
Definition open_failed (filename e : string) : string :=
  "  [red]Error: trying to open PDF - " ++ filename ++ " (" ++ e ++ ")[/red]".

(** Line 225. *)
Definition processing_error (filename e : string) : string :=
  "  [red]An error occurred while processing " ++ filename ++ ": " ++ e ++ "[/red]".

(** Line 121 of the prototype. *)
Definition api_error (filename e : string) : string :=
  "  [red]An error occurred while calling the Gemini API for " ++ filename ++ ": " ++ e
  ++ "[/red]".

(** Line 74. *)
Definition schema_not_found (path : string) : string :=
  "[bold red]Error: Extraction schema file not found: " ++ path ++ "[/bold red]".

(** Line 80. *)
Definition schema_read_error (e : string) : string :=
  "[bold red]Error reading extraction schema file: " ++ e ++ "[/bold red]".

(** Line 344, and line 164 of the prototype. *)
Definition input_dir_not_found (dir : string) : string :=
  "[bold red]Error: Input directory not found: " ++ dir ++ "[/bold red]".

(** Line 365, and line 170 of the prototype. *)
Definition no_pdf_found (dir : string) : string :=
  "[yellow]No PDF files found in: " ++ dir ++ "[/yellow]".

(** Line 368, and line 173 of the prototype, which ends at the
    directory. *)
Definition found (count : nat) (dir : string) : string :=
  "Found [cyan]" ++ decimal count ++ "[/cyan] PDF file(s) to process in [blue]" ++ dir
  ++ "[/blue] and subdirectories.".

Definition found_prototype (count : nat) (dir : string) : string :=
  "Found [cyan]" ++ decimal count ++ "[/cyan] PDF file(s) to process in [blue]" ++ dir
  ++ "[/blue].".

(** Line 403, and line 207 of the prototype. *)
Definition done (output : string) : string :=
  newline ++ "[bold green]" ++ check_mark ++ " Done! All data saved to [cyan]" ++ output
  ++ "[/cyan][/bold green]".

(** Line 274. *)
Definition csv_saved (output_file : string) : string :=
  "Data saved to CSV: " ++ output_file.

(** Line 407, and line 209 of the prototype. *)
Definition save_error (e : string) : string :=
  newline ++ "[bold red]Error saving results to file: " ++ e ++ "[/bold red]".

End Markup.

(** ** [process_file] *)

Definition file_metadata (filename mode : string) : dict :=
  [("filename", JStr filename); ("processing_mode", JStr mode)].

(** Lines 153 and 154: the text of the pages, joined. *)
Fixpoint get_all_text (pages : list (option string)) (text : string) : M string :=
  match pages with
  | [] => ret text
  | Some page_text :: rest => get_all_text rest (text ++ page_text)%string
  | None :: _ => raise OtherException
  end.

(** Lines 110 to 140, file mode up to the response and the metadata. *)
Definition file_mode (w : World) (file_path filename : string)
    (additional_context fields : json) : M (option string * dict) :=
  file_size <- external_os (GetSize file_path) (os_path_getsize w file_path)
                 (getsize_error w file_path) ;;
  if (file_size >? GEMINI_MAX_FILE_SIZE_BYTES)%Z then
    print (MsgTooLarge filename) ;;
    return_ None
  else
    try_except
      (uploaded_file <- external (UploadFile file_path) (genai_upload_file w file_path) ;;
       let prompt := FILE_MODE_PROMPT additional_context fields in
       response <- external (GenerateContent prompt (Some uploaded_file))
                     (generate_content w prompt (Some uploaded_file)) ;;
       external (DeleteFile uploaded_file)
         (if genai_delete_file w uploaded_file then Some tt else None) ;;
       ret (response, file_metadata filename "file"))
      (fun e =>
         print_error w (Markup.upload_failed filename) e (MsgUploadFailed filename) ;;
         return_ None).

(** Lines 142 to 176, text mode up to the response and the metadata. *)
Definition text_mode_ (w : World) (file_path filename : string)
    (additional_context fields : json) : M (option string * dict) :=
  doc <- try_except
           (external_os (OpenPdf file_path) (pymupdf_open w file_path)
              (pymupdf_error w file_path))
           (fun e =>
              print_error w (Markup.open_failed filename) e (MsgOpenFailed filename) ;;
              return_ None) ;;
  let page_count := page_count doc in
  pdf_text_content <- get_all_text (page_texts doc) "" ;;
  if negb (PyStr.nonempty (PyStr.strip pdf_text_content)) then
    print (MsgSkipEmpty filename) ;;
    return_ None
  else
    let prompt := TEXT_MODE_PROMPT pdf_text_content additional_context fields in
    response <- external (GenerateContent prompt None) (generate_content w prompt None) ;;
    ret (response, file_metadata filename "text").

(** Lines 178 to 218: from the response to the returned dict. *)
Definition finish (w : World) (filename : string) (response : option string)
    (metadata : dict) : M unit :=
  text <- match response with Some t => ret t | None => raise OtherException end ;;
  match ResponseParser.parse text with
  | inl ResponseParser.DecodeFailed =>
      print (MsgDecodeFailed filename) ;;
      console_print w (Markup.raw_response 500 text) MsgRawResponse ;;
      return_ None
  | inl ResponseParser.NoJsonFound =>
      print (MsgNoJsonFound filename) ;;
      console_print w (Markup.raw_response 500 text) MsgRawResponse ;;
      return_ None
  | inl ResponseParser.InvalidType =>
      print (MsgInvalidType filename) ;;
      return_ None
  | inr extracted_data =>
      return_ (Some (Dict.update extracted_data metadata))
  end.

(** [process_file(file_path, model, extraction_schema, text_mode)].  The
    model object is the [generate_content] of the world. *)
Definition process_file (w : World) (file_path : string) (extraction_schema : dict)
    (text_mode : bool) : M (option dict) :=
  call (A := unit)
    (let filename := OsPath.basename file_path in
     let additional_context :=
       Dict.get_default extraction_schema "additional_context"
         (JStr DEFAULT_ADDITIONAL_CONTEXT) in
     let fields := Dict.get_default extraction_schema "fields" (JList []) in
     try_except
       (* [if not text_mode: ...] and then [if text_mode: ...] *)
       (rm <- (if negb text_mode
               then file_mode w file_path filename additional_context fields
               else text_mode_ w file_path filename additional_context fields) ;;
        finish w filename (fst rm) (snd rm))
       (fun e =>
          match e with
          | JSONDecodeError text =>
              print (MsgDecodeFailed filename) ;;
              console_print w (Markup.raw_response 200 text) MsgRawResponse ;;
              return_ None
          | _ =>
              print_error w (Markup.processing_error filename) e
                (MsgProcessingError filename) ;;
              return_ None
          end)).

(** One document on an empty trace: the result and what was done. *)
Definition run_process_file (w : World) (file_path : string) (extraction_schema : dict)
    (text_mode : bool) : option dict * list event :=
  match process_file w file_path extraction_schema text_mode [] with
  | (Next r, tr) => (r, tr)
  | (_, tr) => (None, tr)
  end.

(** ** The prototype [ceeol_main.py] *)

Module Ceeol.

(** [process_pdf(file_path, model)]; [subject_tree] is the text read from
    [subject_tree.md] when the module is loaded. *)
Definition process_pdf (w : World) (subject_tree file_path : string) : M (option dict) :=
  call (A := unit)
    (let filename := OsPath.basename file_path in
     doc <- try_except
              (external_os (OpenPdf file_path) (pymupdf_open w file_path)
                 (pymupdf_error w file_path))
              (fun e =>
                 print_error w (Markup.open_failed filename) e (MsgOpenFailed filename) ;;
                 return_ None) ;;
     let page_count := page_count doc in
     pdf_text_content <- get_all_text (page_texts doc) "" ;;
     if negb (PyStr.nonempty (PyStr.strip pdf_text_content)) then
       print (MsgSkipEmpty filename) ;;
       return_ None
     else
       let prompt := LLM_PROMPT pdf_text_content subject_tree in
       try_except
         (response <- external (GenerateContent prompt None)
                        (generate_content w prompt None) ;;
          text <- match response with Some t => ret t | None => raise OtherException end ;;
          match JsonDecoder.json_loads (ResponseParser.clean_response text) with
          | None => raise (JSONDecodeError text)
          | Some (JDict extracted_data) =>
              return_
                (Some (Dict.set (Dict.set extracted_data "filename" (JStr filename))
                         "page_count" (JInt page_count)))
          | Some _ => raise OtherException   (* no item assignment by a [str] key *)
          end)
         (fun e =>
            match e with
            | JSONDecodeError text =>
                print (MsgDecodeFailed filename) ;;
                console_print w (Markup.raw_response 200 text) MsgRawResponse ;;
                return_ None
            | _ =>
                print_error w (Markup.api_error filename) e (MsgProcessingError filename) ;;
                return_ None
            end)).

Definition run_process_pdf (w : World) (subject_tree file_path : string)
  : option dict * list event :=
  match process_pdf w subject_tree file_path [] with
  | (Next r, tr) => (r, tr)
  | (_, tr) => (None, tr)
  end.

End Ceeol.

(** ** Truth values *)

Module Truth.

Import PyStr JsonDecoder.

(** Whether the [float] read from a lexeme of [scan_number] is zero.  The
    lexeme is [m * 10^e] for the integer [m] of its digits; [float] rounds
    to nearest, ties to even, so the result is zero exactly when
    [m * 10^e <= 2^-1075]. *)
Definition float_is_zero (lexeme : string) : bool :=
  let unsigned := snd (scan_sign lexeme) in
  let '(int_digits, rest) := span_digits unsigned "" in
  let '(frac_digits, rest1) :=
    match rest with
    | String c r => if (c =? ".")%char then span_digits r "" else ("", rest)
    | EmptyString => ("", rest)
    end in
  let exponent :=
    match rest1 with
    | String _ r =>
        let '(esign, ds) := scan_exp_sign r in
        if (esign =? "-")%string then (- decimal_onto ds 0)%Z else decimal_onto ds 0
    | EmptyString => 0%Z
    end in
  let m := decimal_onto (int_digits ++ frac_digits)%string 0 in
  let e := (exponent - Z.of_nat (String.length frac_digits))%Z in
  if nonempty int_digits then
    ((m =? 0) || (e <? 0) && (m * 2 ^ 1075 <=? 10 ^ (- e)))%Z
  else false.

(** [bool(v)]. *)
Definition truthy (v : json) : bool :=
  match v with
  | JNull => false
  | JBool b => b
  | JInt n => negb (n =? 0)%Z
  | JFloat lexeme => negb (float_is_zero lexeme)
  | JStr s => nonempty s
  | JList items => match items with [] => false | _ :: _ => true end
  | JDict entries => match entries with [] => false | _ :: _ => true end
  end.

End Truth.

(** ** Sorting column names *)

Module PySort.

(** [a < b] on [str]: code point by code point. *)
Definition lt (a b : string) : Prop := (a <? b)%string = true.

(** [sorted] on strings. *)
Fixpoint insert (x : string) (l : list string) : list string :=
  match l with
  | [] => [x]
  | y :: rest => if (x <=? y)%string then x :: l else y :: insert x rest
  end.

Fixpoint sorted (l : list string) : list string :=
  match l with
  | [] => []
  | x :: rest => insert x (sorted rest)
  end.

End PySort.

(** A [set] of strings, as the list of its members. *)
Module StrSet.

Fixpoint mem (x : string) (s : list string) : bool :=
  match s with
  | [] => false
  | y :: rest => (y =? x)%string || mem x rest
  end.

Definition add (s : list string) (x : string) : list string :=
  if mem x s then s else s ++ [x].

(** [s.update(xs)]. *)
Definition update (s xs : list string) : list string := fold_left add xs s.

End StrSet.

Section Program.

(** The builtin [str] on the members of a list value; the rendering of
    floats and of nested containers is the interpreter's. *)
Variable str : json -> string.

(** ** [flatten_json_to_csv] *)

(** The items one entry [(k, v)] of [data] contributes. *)
Fixpoint flatten_entry (parent_key sep k : string) (v : json) {struct v}
  : list (string * json) :=
  let new_key :=
    if PyStr.nonempty parent_key then (parent_key ++ sep ++ k)%string else k in
  match v with
  | JDict d =>
      Dict.of_items
        (flat_map (fun kv => flatten_entry new_key sep (fst kv) (snd kv)) d)
  | JList l => [(new_key, JStr (PyStr.join "; " (map str l)))]
  | _ => [(new_key, v)]
  end.

(** [flatten_json_to_csv(data, parent_key, sep)]. *)
Definition flatten_json_to_csv (data : dict) (parent_key sep : string) : dict :=
  Dict.of_items
    (flat_map (fun kv => flatten_entry parent_key sep (fst kv) (snd kv)) data).

(** The call with the default arguments, [flatten_json_to_csv(data)]. *)
Definition flatten (data : dict) : dict := flatten_json_to_csv data "" "_".

(** ** [save_to_csv] *)

(** Lines 258 to 261. *)
Definition all_columns (flattened_data : list dict) : list string :=
  fold_left (fun acc item => StrSet.update acc (Dict.keys item)) flattened_data [].

(** Line 264. *)
Definition csv_columns (flattened_data : list dict) : list string :=
  PySort.sorted (all_columns flattened_data).

(** Line 271, and the values [DictWriter.writerow] takes from it in the
    order of the field names. *)
Definition csv_row (columns : list string) (item : dict) : list json :=
  map (fun col => Dict.get_default item col (JStr "")) columns.

(** [save_to_csv(data, output_file)]. *)
Definition save_to_csv (w : World) (data : list dict) (output_file : string) : M unit :=
  match data with
  | [] =>
      print MsgCsvNoData ;;
      return_ None
  | _ :: _ =>
      let flattened_data := map flatten data in
      let columns := csv_columns flattened_data in
      external_os (WriteCsv output_file columns (map (csv_row columns) flattened_data))
        (if write_file w output_file then Some tt else None)
        (write_error w output_file) ;;
      console_print w (Markup.csv_saved output_file) (MsgCsvSaved output_file)
  end.

(** ** [main] *)

Inductive format : Type := FormatJson | FormatCsv.

(** The parsed command line (the model name and the temperature only
    configure the remote model). *)
Record Args : Type := mkArgs {
  arg_output : string;
  arg_input_dir : string;
  arg_recursive : bool;
  arg_schema : string;
  arg_text_mode : bool;
  arg_format : format
}.

(** [configure_gemini()]. *)
Definition configure_gemini (w : World) : M bool :=
  match env_GEMINI_API_KEY w with
  | Some (String c key) =>
      if genai_configure w (String c key) then ret true
      else print MsgConfigureFailed ;; ret false
  | _ =>
      print MsgNoApiKey ;;
      print MsgSetApiKey ;;
      ret false
  end.

(** [load_extraction_schema(path)]: the parsed schema or [None]. *)
Definition load_extraction_schema (w : World) (path : string) : M (option json) :=
  match read_text w path with
  | FileText content =>
      match JsonDecoder.json_loads content with
      | Some schema_data => ret (Some schema_data)
      | None => print MsgSchemaInvalidJson ;; ret None
      end
  | FileNotFound =>
      console_print w (Markup.schema_not_found path) (MsgSchemaNotFound path) ;; ret None
  | ReadFailed text =>
      console_print w (Markup.schema_read_error text) MsgSchemaReadError ;; ret None
  end.

(** Line 359 and line 362: the test on a file name. *)
Definition is_pdf (name : string) : bool :=
  PyStr.endswith (PyStr.lower name) ".pdf".

(** Lines 354 to 362: the paths handed to [process_file]. *)
Definition pdf_files (w : World) (args : Args) : M (list string) :=
  if arg_recursive args then
    ret (flat_map
           (fun entry =>
              let '(root, _, files) := entry in
              map (OsPath.join root) (filter is_pdf files))
           (os_walk w (arg_input_dir args)))
  else
    match os_listdir w (arg_input_dir args) with
    | Some names => ret (filter is_pdf names)
    | None => raise OtherException
    end.

(** Lines 382 to 393: the loop over the documents. *)
Fixpoint process_all (w : World) (extraction_schema : dict) (text_mode : bool)
    (files : list string) (all_results : list dict) : M (list dict) :=
  match files with
  | [] => ret all_results
  | file_path :: rest =>
      let filename := OsPath.basename file_path in
      result <- process_file w file_path extraction_schema text_mode ;;
      all_results' <-
        match result with
        | Some (entry :: entries) =>           (* [if result:] *)
            print (MsgSuccess filename) ;;
            ret (all_results ++ [entry :: entries])
        | _ =>
            print (MsgFailed filename) ;;
            ret all_results
        end ;;
      process_all w extraction_schema text_mode rest all_results'
  end.

(** [main()], after the command line is parsed. *)
Definition main (w : World) (args : Args) : M unit :=
  print MsgBanner ;;
  configured <- configure_gemini w ;;
  if negb configured then return_ None else
  let input_directory := arg_input_dir args in
  if negb (os_path_isdir w input_directory) then
    console_print w (Markup.input_dir_not_found input_directory)
      (MsgInputDirNotFound input_directory) ;;
    return_ None
  else
  extraction_schema <- load_extraction_schema w (arg_schema args) ;;
  match extraction_schema with
  | None => return_ None
  | Some schema =>
      if negb (Truth.truthy schema) then return_ None else
      match schema with
      | JDict schema_dict =>
          if negb (Truth.truthy (Dict.get_default schema_dict "fields" JNull)) then
            print MsgNoFields ;;
            return_ None
          else
          files <- pdf_files w args ;;
          match files with
          | [] =>
              console_print w (Markup.no_pdf_found input_directory)
                (MsgNoPdfFound input_directory) ;;
              return_ None
          | _ :: _ =>
              console_print w (Markup.found (List.length files) input_directory)
                (MsgFound (List.length files) input_directory) ;;
              all_results <- process_all w schema_dict (arg_text_mode args) files [] ;;
              match all_results with
              | [] =>
                  print MsgNoResults ;;
                  return_ None
              | _ :: _ =>
                  try_except
                    (match arg_format args with
                     | FormatJson =>
                         external_os (WriteJson (arg_output args) all_results)
                           (if write_file w (arg_output args) then Some tt else None)
                           (write_error w (arg_output args)) ;;
                         console_print w (Markup.done (arg_output args))
                           (MsgDone (arg_output args))
                     | FormatCsv =>
                         _ <- call (save_to_csv w all_results (arg_output args)) ;;
                         ret tt
                     end)
                    (fun e => print_error w Markup.save_error e MsgSaveError)
              end
          end
      | _ => raise OtherException   (* no [get] on a value that is not a dict *)
      end
  end.

End Program.

(** A run of the program: the trace, and whether it ended by an exception
    nobody caught. *)
Definition run_main (str : json -> string) (w : World) (args : Args) : list event * bool :=
  match main str w args [] with
  | (Raised _, tr) => (tr, true)
  | (_, tr) => (tr, false)
  end.

(** The events that send a document or a prompt out, or read it locally. *)
Definition touches_document (e : event) : bool :=
  match e with
  | UploadFile _ | GenerateContent _ _ | DeleteFile _ | OpenPdf _ => true
  | _ => false
  end.

(** ** Rich markup on the lines of the concrete runs *)

(** [rich.markup.render] as far as it can raise on the lines of the runs
    below: the tags that [RE_TAGS] finds and the stack of open tags.  Style
    names are compared after [strip] and [lower], which is what
    [Style.normalize] does to a name that is not a style definition and
    leaves the style names of the templates as they are.  [Style.normalize]
    gives a style definition its canonical form, so that [b] stands for
    [bold]: the tags [bold red], [red] and [blue] that are open where the
    runs below close [b] are as different from [bold] as from [b].  A
    handler tag ([@]) is an open tag like another, and the lines of the
    runs hold no emoji code, which [render] would replace first. *)
Module Rich.

(** [[a-z#/@]], the first character of a tag. *)
Definition tag_start (c : ascii) : bool :=
  let n := PyStr.code c in
  ((97 <=? n) && (n <=? 122) || (n =? 35) || (n =? 47) || (n =? 64))%N.

(** The number of backslashes at the head of [s]. *)
Fixpoint leading_backslashes (s : string) : nat :=
  match s with
  | String c rest => if (c =? "\")%char then S (leading_backslashes rest) else O
  | EmptyString => O
  end.

(** The matches of [RE_TAGS] in [s], from the character of index [pos]
    on: for each the index of its bracket, the number of backslashes
    before the bracket and the text between the brackets.  [escapes]
    counts the backslashes just read; [pending] holds, after an opening
    bracket, its index, its backslashes and the text read since, last
    character first. *)
Fixpoint scan_tags (s : string) (pos escapes : nat) (pending : option (nat * nat * string))
  : list (nat * nat * string) :=
  match s with
  | EmptyString => []
  | String c rest =>
      let next := if Markup.is_continuation c then pos else S pos in
      let plain :=
        if (c =? "\")%char then scan_tags rest next (S escapes) None
        else if (c =? "[")%char then scan_tags rest next O (Some (pos, escapes, ""))
        else scan_tags rest next O None in
      match pending with
      | None => plain
      | Some (start, before, EmptyString) =>
          if tag_start c then scan_tags rest next O (Some (start, before, String c ""))
          else if (c =? "\")%char then scan_tags rest next 1 None
          else if (c =? "[")%char then scan_tags rest next O (Some (pos, O, ""))
          else scan_tags rest next O None
      | Some (start, before, read) =>
          if (c =? "]")%char then (start, before, PyStr.rev read) :: scan_tags rest next O None
          else if (c =? "[")%char
          then scan_tags rest next O (Some (pos, leading_backslashes read, ""))
          else scan_tags rest next O (Some (start, before, String c read))
      end
  end.

(** [tag_text.partition("=")[0]]. *)
Fixpoint tag_name (tag_text : string) : string :=
  match tag_text with
  | EmptyString => EmptyString
  | String c rest => if (c =? "=")%char then EmptyString else String c (tag_name rest)
  end.

Definition normalize (style : string) : string := PyStr.lower (PyStr.strip style).

(** [pop_style]: the stack without the last opened tag of that name. *)
Fixpoint pop_style (style_name : string) (stack : list string) : option (list string) :=
  match stack with
  | [] => None
  | name :: below =>
      if (name =? style_name)%string then Some below
      else
        match pop_style style_name below with
        | Some below' => Some (name :: below')
        | None => None
        end
  end.

(** The loop of [render] over the tags; the last opened tag is the head
    of [stack]. *)
Fixpoint render_tags (tags : list (nat * nat * string)) (stack : list string)
  : option string :=
  match tags with
  | [] => None
  | (position, escapes, tag_text) :: more =>
      if Nat.odd escapes then render_tags more stack
      else
        match tag_name tag_text with
        | String "/" closing =>
            if PyStr.nonempty (PyStr.strip closing) then
              match pop_style (normalize (PyStr.strip closing)) stack with
              | Some stack' => render_tags more stack'
              | None =>
                  Some ("closing tag '[" ++ tag_text ++ "]' at position "
                        ++ Markup.decimal position ++ " doesn't match any open tag")%string
              end
            else
              match stack with
              | _ :: stack' => render_tags more stack'
              | [] =>
                  Some ("closing tag '[/]' at position " ++ Markup.decimal position
                        ++ " has nothing to close")%string
              end
        | name => render_tags more (normalize name :: stack)
        end
  end.

(** The text of the [MarkupError] that [render] raises on [markup]. *)
Definition markup_error (markup : string) : option string :=
  render_tags (scan_tags markup 0 0 None) [].

End Rich.

(** ** Concrete runs *)

Module Scenario.

(** The double quote, to write JSON text. *)
Definition Q : string := String "034"%char "".

(** The form feed U+000C: white space for [str.strip], not for the
    decoder. *)
Definition FF : string := String "012"%char "".

(** [str] of the [FileNotFoundError] and of the [PermissionError] of a
    call on [path]; the paths of the runs need no escape in the quotes. *)
Definition no_such_file (path : string) : string :=
  "[Errno 2] No such file or directory: '" ++ path ++ "'".

Definition permission_denied (path : string) : string :=
  "[Errno 13] Permission denied: '" ++ path ++ "'".

(** A world with one document behind every path: its size, what
    uploading it, asking the model and deleting the staged file do, and
    what [pymupdf] reads from it; the schema file holds [schema_text] and
    the input directory lists [names]. *)
Definition world (size : Z) (upload : option string) (reply : option (option string))
    (delete_ok : bool) (doc : option document) (schema_text : string)
    (names : list string) : World :=
  {| os_getcwd := "/home/user";
     env_GEMINI_API_KEY := Some "key";
     os_path_isdir := fun _ => true;
     os_listdir := fun _ => Some names;
     os_walk := fun dir => [(dir, [], names)];
     os_path_getsize := fun _ => Some size;
     getsize_error := no_such_file;
     read_text := fun _ => FileText schema_text;
     write_file := fun _ => true;
     write_error := permission_denied;
     genai_configure := fun _ => true;
     genai_upload_file := fun _ => upload;
     generate_content := fun _ _ => reply;
     genai_delete_file := fun _ => delete_ok;
     pymupdf_open := fun _ => doc;
     pymupdf_error := fun path => ("no such file: '" ++ path ++ "'")%string;
     console_markup_error := Rich.markup_error |}.

(** The JSON text of a schema with one field. *)
Definition schema_text : string :=
  ("{" ++ Q ++ "fields" ++ Q ++ ": [{" ++ Q ++ "name" ++ Q ++ ": " ++ Q ++ "title" ++ Q
   ++ "}]}")%string.

Definition schema : dict := [("fields", JList [JDict [("name", JStr "title")]])].

(** The reply [{"title": "T"}]. *)
Definition title_reply : string :=
  ("{" ++ Q ++ "title" ++ Q ++ ": " ++ Q ++ "T" ++ Q ++ "}")%string.

(** The reply [{"filename": "guess.pdf"}]. *)
Definition filename_reply : string :=
  ("{" ++ Q ++ "filename" ++ Q ++ ": " ++ Q ++ "guess.pdf" ++ Q ++ "}")%string.

(** The reply [[{"a":1}]]. *)
Definition list_reply : string := ("[{" ++ Q ++ "a" ++ Q ++ ":1}]")%string.

(** The results [{"x": 1}] and [{"y": 2}]. *)
Definition disjoint_results : list dict := [[("x", JInt 1)]; [("y", JInt 2)]].

(** The result [{"a": {"b": 1}, "c": [1, 2]}]. *)
Definition nested_result : dict :=
  [("a", JDict [("b", JInt 1)]); ("c", JList [JInt 1; JInt 2])].

Definition two_pages : document := mkDocument 2 [Some "Title "; Some "and text"].

(** Upload and generation succeed, the deletion of the staged file
    raises. *)
Definition deletion_fails : World :=
  world 1024 (Some "files/abc") (Some (Some title_reply)) false None schema_text
    ["report.pdf"].

(** A two-page document with text, read in text mode. *)
Definition text_mode_ok : World :=
  world 1024 None (Some (Some title_reply)) true (Some two_pages) schema_text
    ["article.pdf"].

(** The model guesses a file name of its own. *)
Definition model_guesses_filename : World :=
  world 1024 (Some "files/abc") (Some (Some filename_reply)) true None schema_text
    ["paper.pdf"].


(** The model replies a form feed and [[]], bare or inside a json fence. *)
Definition form_feed_reply (in_fence : bool) : World :=
  let content := (FF ++ "[]")%string in
  world 1024 None
    (Some (Some (if in_fence then ResponseParser.fenced content else content)))
    true (Some two_pages) schema_text ["article.pdf"].

(** The schema file holds [{}]. *)
Definition empty_schema_file : World :=
  world 1024 (Some "files/abc") (Some (Some title_reply)) true (Some two_pages) "{}"
    ["report.pdf"].

Definition args (recursive text_mode : bool) : Args :=
  mkArgs "extraction_results.json" "/data/pdfs" recursive "extraction_schema.json"
    text_mode FormatJson.

(** [str] on [None], booleans, integers and strings.  The runs below
    join no other values; a float is shown by its lexeme. *)
Definition str (v : json) : string :=
  match v with
  | JNull => "None"
  | JBool true => "True"
  | JBool false => "False"
  | JInt n => NilEmpty.string_of_int (Z.to_int n)
  | JFloat lexeme => lexeme
  | JStr s => s
  | JList _ => "[...]"
  | JDict _ => "{...}"
  end.

End Scenario.

(** ** Well-formed values *)

Fixpoint distinct (l : list string) : bool :=
  match l with
  | [] => true
  | x :: rest => negb (StrSet.mem x rest) && distinct rest
  end.

(** A value as Python holds it: at every level the keys of a dict are
    distinct. *)
Fixpoint well_formed (v : json) : bool :=
  match v with
  | JList items => forallb well_formed items
  | JDict entries =>
      distinct (map fst entries) && forallb (fun kv => well_formed (snd kv)) entries
  | _ => true
  end.

(** ** Substrings *)

(** [pat in s]. *)
Fixpoint contains (s pat : string) : bool :=
  PyStr.startswith s pat
  || match s with
     | EmptyString => false
     | String _ rest => contains rest pat
     end.

(** ** Reading a trace *)

Definition is_upload (e : event) : bool :=
  match e with UploadFile _ => true | _ => false end.

Definition is_generate (e : event) : bool :=
  match e with GenerateContent _ _ => true | _ => false end.

Definition is_delete (e : event) : bool :=
  match e with DeleteFile _ => true | _ => false end.

(** The events of file mode only, and the event of text mode only. *)
Definition is_file_mode_event (e : event) : bool :=
  match e with GetSize _ | UploadFile _ | DeleteFile _ => true | _ => false end.

Definition is_text_mode_event (e : event) : bool :=
  match e with OpenPdf _ => true | _ => false end.

(** The events that write the output file. *)
Definition is_write (e : event) : bool :=
  match e with WriteJson _ _ | WriteCsv _ _ _ => true | _ => false end.

(** The path of a document an event asks the system for. *)
Definition document_path (e : event) : option string :=
  match e with
  | GetSize path | UploadFile path | OpenPdf path => Some path
  | _ => None
  end.

Definition count (f : event -> bool) (tr : list event) : nat :=
  List.length (filter f tr).

(** A computation that only adds to the trace, and whose outcome and
    events do not depend on what the trace held before. *)
Definition framed {A : Type} (m : M A) : Prop :=
  forall tr, m tr = (fst (m []), tr ++ snd (m [])).

(** ** The loop of [main], document by document *)



(** The lines that close the work on one document. *)
Definition is_success (e : event) : bool :=
  match e with Print (MsgSuccess _) => true | _ => false end.

Definition is_failed (e : event) : bool :=
  match e with Print (MsgFailed _) => true | _ => false end.

Definition is_print (e : event) : bool :=
  match e with Print _ => true | _ => false end.

(** ** A run of [main], stage by stage *)

(** Lines 330 to 366 let the run through to the loop, with the schema
    [schema_dict] and the paths [files]. *)
Definition starts (w : World) (args : Args) (schema_dict : dict) (files : list string)
  : Prop :=
  fst (configure_gemini w []) = Next true /\
  os_path_isdir w (arg_input_dir args) = true /\
  fst (load_extraction_schema w (arg_schema args) []) = Next (Some (JDict schema_dict)) /\
  Truth.truthy (Dict.get_default schema_dict "fields" JNull) = true /\
  fst (pdf_files w args []) = Next files /\
  files <> [].



(** ** The driver of the prototype *)

Module CeeolDriver.

(** Lines 187 to 198 of [ceeol_main.py]: the loop over the file names,
    each joined with the input directory. *)
Fixpoint process_all (w : World) (subject_tree input_directory : string)
    (pdf_files : list string) (all_results : list dict) : M (list dict) :=
  match pdf_files with
  | [] => ret all_results
  | filename :: rest =>
      let file_path := OsPath.join input_directory filename in
      result <- Ceeol.process_pdf w subject_tree file_path ;;
      all_results' <-
        match result with
        | Some (entry :: entries) =>           (* [if result:] *)
            print (MsgSuccess filename) ;;
            ret (all_results ++ [entry :: entries])
        | _ =>
            print (MsgFailed filename) ;;
            ret all_results
        end ;;
      process_all w subject_tree input_directory rest all_results'
  end.

(** [main()] of [ceeol_main.py], after the command line is parsed; only
    the output name and the input directory are options there.  Its
    [configure_gemini] (lines 59 to 72) has the control flow of the one of
    [main.py]; the lines it prints are named by the messages of
    [main.py] that stand at the same place. *)
Definition main (w : World) (subject_tree : string) (args : Args) : M unit :=
  print MsgBanner ;;
  configured <- configure_gemini w ;;
  if negb configured then return_ None else
  let input_directory := arg_input_dir args in
  if negb (os_path_isdir w input_directory) then
    console_print w (Markup.input_dir_not_found input_directory)
      (MsgInputDirNotFound input_directory) ;;
    return_ None
  else
  names <- match os_listdir w input_directory with
           | Some names => ret names
           | None => raise OtherException
           end ;;
  let pdf_files := filter is_pdf names in
  match pdf_files with
  | [] =>
      console_print w (Markup.no_pdf_found input_directory)
        (MsgNoPdfFound input_directory) ;;
      return_ None
  | _ :: _ =>
      console_print w (Markup.found_prototype (List.length pdf_files) input_directory)
        (MsgFound (List.length pdf_files) input_directory) ;;
      all_results <- process_all w subject_tree input_directory pdf_files [] ;;
      match all_results with
      | [] =>
          print MsgNoResults ;;
          return_ None
      | _ :: _ =>
          try_except
            (external_os (WriteJson (arg_output args) all_results)
               (if write_file w (arg_output args) then Some tt else None)
               (write_error w (arg_output args)) ;;
             console_print w (Markup.done (arg_output args)) (MsgDone (arg_output args)))
            (fun e => print_error w Markup.save_error e MsgSaveError)
      end
  end.

(** The script: the subject tree is read when the module is loaded, before
    [main] runs. *)
Definition run (w : World) (args : Args) : list event * bool :=
  match read_text w "subject_tree.md" with
  | FileText subject_tree =>
      match main w subject_tree args [] with
      | (Raised _, tr) => (tr, true)
      | (_, tr) => (tr, false)
      end
  | _ => ([], true)
  end.

End CeeolDriver.

(** ** More concrete runs *)

Module Cases.




(** A document of exactly 50 MB. *)
Definition at_the_limit : World :=
  Scenario.world 52428800 (Some "files/abc") (Some (Some Scenario.title_reply)) true None
    Scenario.schema_text ["big.pdf"].

(** [os.path.getsize] raises: there is no such file. *)
Definition missing_file : World :=
  {| os_getcwd := "/home/user";
     env_GEMINI_API_KEY := Some "key";
     os_path_isdir := fun _ => true;
     os_listdir := fun _ => Some ["report.pdf"];
     os_walk := fun dir => [(dir, [], ["report.pdf"])];
     os_path_getsize := fun _ => None;
     getsize_error := Scenario.no_such_file;
     read_text := fun _ => FileText Scenario.schema_text;
     write_file := fun _ => true;
     write_error := Scenario.permission_denied;
     genai_configure := fun _ => true;
     genai_upload_file := fun _ => Some "files/abc";
     generate_content := fun _ _ => Some (Some Scenario.title_reply);
     genai_delete_file := fun _ => true;
     pymupdf_open := fun _ => None;
     pymupdf_error := fun path => ("no such file: '" ++ path ++ "'")%string;
     console_markup_error := Rich.markup_error |}.

(** The model answers prose that holds a closing tag. *)
Definition stray_closing_tag : World :=
  Scenario.world 1024 (Some "files/abc") (Some (Some "no json [/x]")) true
    (Some Scenario.two_pages) Scenario.schema_text ["article.pdf"].

(** There is no schema file. *)
Definition no_schema_file : World :=
  {| os_getcwd := "/home/user";
     env_GEMINI_API_KEY := Some "key";
     os_path_isdir := fun _ => true;
     os_listdir := fun _ => Some ["report.pdf"];
     os_walk := fun dir => [(dir, [], ["report.pdf"])];
     os_path_getsize := fun _ => Some 1024%Z;
     getsize_error := Scenario.no_such_file;
     read_text := fun _ => FileNotFound;
     write_file := fun _ => true;
     write_error := Scenario.permission_denied;
     genai_configure := fun _ => true;
     genai_upload_file := fun _ => Some "files/abc";
     generate_content := fun _ _ => Some (Some Scenario.title_reply);
     genai_delete_file := fun _ => true;
     pymupdf_open := fun _ => None;
     pymupdf_error := fun path => ("no such file: '" ++ path ++ "'")%string;
     console_markup_error := Rich.markup_error |}.

(** The program is started in [/home/user/work], a directory below the
    one that holds the documents. *)
Definition started_below_input : World :=
  {| os_getcwd := "/home/user/work";
     env_GEMINI_API_KEY := Some "key";
     os_path_isdir := fun _ => true;
     os_listdir := fun _ => Some ["a.pdf"];
     os_walk := fun dir => [(dir, [], ["a.pdf"])];
     os_path_getsize := fun _ => Some 1024%Z;
     getsize_error := Scenario.no_such_file;
     read_text := fun _ => FileText Scenario.schema_text;
     write_file := fun _ => true;
     write_error := Scenario.permission_denied;
     genai_configure := fun _ => true;
     genai_upload_file := fun _ => Some "files/abc";
     generate_content := fun _ _ => Some (Some Scenario.title_reply);
     genai_delete_file := fun _ => true;
     pymupdf_open := fun _ => None;
     pymupdf_error := fun path => ("no such file: '" ++ path ++ "'")%string;
     console_markup_error := Rich.markup_error |}.

(** The command line [-i ..]. *)
Definition parent_directory : Args :=
  mkArgs "extraction_results.json" ".." false "extraction_schema.json" false FormatJson.

End Cases.

(** * Properties *)

#[local] Arguments Markup.raw_response : simpl never.
#[local] Arguments Markup.upload_failed : simpl never.
#[local] Arguments Markup.open_failed : simpl never.
#[local] Arguments Markup.processing_error : simpl never.
#[local] Arguments Markup.api_error : simpl never.
#[local] Arguments Markup.schema_not_found : simpl never.
#[local] Arguments Markup.schema_read_error : simpl never.
#[local] Arguments Markup.input_dir_not_found : simpl never.
#[local] Arguments Markup.no_pdf_found : simpl never.
#[local] Arguments Markup.found : simpl never.
#[local] Arguments Markup.found_prototype : simpl never.
#[local] Arguments Markup.done : simpl never.
#[local] Arguments Markup.csv_saved : simpl never.
#[local] Arguments Markup.save_error : simpl never.

(** ** The model on small inputs *)

Example strip_removes_form_feed :
  PyStr.strip (Scenario.FF ++ " [] " ++ String "010" "")%string = "[]".
Proof. reflexivity. Qed.

Example strip_removes_no_break_space :
  PyStr.strip (String "194" (String "160" "x y") ++ String "226" (String "128" (String "137" "")))
    = "x y".
Proof. reflexivity. Qed.

Example replace_is_leftmost :
  PyStr.remove_all "```" "ab````c``````" = "ab`c".
Proof. reflexivity. Qed.

Example clean_fenced_reply :
  ResponseParser.clean_response
    ("  ```json" ++ String "010" "" ++ Scenario.title_reply ++ String "010" "" ++ "```  ")
    = (String "010" "" ++ Scenario.title_reply ++ String "010" "")%string.
Proof. reflexivity. Qed.

Example basename_of_path : OsPath.basename "/data/pdfs/report.pdf" = "report.pdf".
Proof. reflexivity. Qed.

Example basename_of_directory : OsPath.basename "/data/pdfs/" = "".
Proof. reflexivity. Qed.

Example join_paths :
  OsPath.join "/data" "a.pdf" = "/data/a.pdf" /\
  OsPath.join "/data/" "a.pdf" = "/data/a.pdf" /\
  OsPath.join "" "a.pdf" = "a.pdf" /\
  OsPath.join "/data" "/tmp/a.pdf" = "/tmp/a.pdf".
Proof. repeat split. Qed.

Example resolve_relative :
  OsPath.resolve "/home/user" "../other/./a.pdf" = ["home"; "other"; "a.pdf"].
Proof. reflexivity. Qed.

Example is_pdf_ignores_case :
  is_pdf "Report.PDF" = true /\ is_pdf "report.pdf.txt" = false /\ is_pdf ".pdf" = true.
Proof. repeat split. Qed.

Example loads_object :
  JsonDecoder.json_loads
    ("{" ++ Scenario.Q ++ "a" ++ Scenario.Q ++ ": [1, -2.5e3, true, null], "
     ++ Scenario.Q ++ "b" ++ Scenario.Q ++ ": {}}")%string
    = Some (JDict [("a", JList [JInt 1; JFloat "-2.5e3"; JBool true; JNull]);
                   ("b", JDict [])]).
Proof. reflexivity. Qed.

Example loads_repeated_key :
  JsonDecoder.json_loads
    ("{" ++ Scenario.Q ++ "a" ++ Scenario.Q ++ ":1," ++ Scenario.Q ++ "b" ++ Scenario.Q
     ++ ":2," ++ Scenario.Q ++ "a" ++ Scenario.Q ++ ":3}")%string
    = Some (JDict [("a", JInt 3); ("b", JInt 2)]).
Proof. reflexivity. Qed.

Example loads_escapes :
  JsonDecoder.json_loads
    (Scenario.Q ++ "é\n😀" ++ Scenario.Q)%string
    = Some (JStr (String "195" (String "169" (String "010"
              (String "240" (String "159" (String "152" (String "128" "")))))))).
Proof. reflexivity. Qed.

Example loads_refuses :
  JsonDecoder.json_loads "[1,]" = None /\
  JsonDecoder.json_loads "01" = None /\
  JsonDecoder.json_loads "{}x" = None /\
  JsonDecoder.json_loads "" = None /\
  JsonDecoder.json_loads (Scenario.FF ++ "{}")%string = None.
Proof. repeat split. Qed.

Example brace_block_is_greedy :
  ResponseParser.search_braces "Here: {a} and {b}." = Some "{a} and {b}" /\
  ResponseParser.search_braces "} {" = None.
Proof. split; reflexivity. Qed.

Example parse_recovers_from_prose :
  ResponseParser.parse ("Here is the JSON you requested: " ++ Scenario.title_reply)%string
    = inr [("title", JStr "T")].
Proof. reflexivity. Qed.

Example parse_refuses_scalar :
  ResponseParser.parse "42" = inl ResponseParser.InvalidType /\
  ResponseParser.parse "[1]" = inl ResponseParser.InvalidType /\
  ResponseParser.parse "no json here" = inl ResponseParser.NoJsonFound /\
  ResponseParser.parse "{oops}" = inl ResponseParser.DecodeFailed.
Proof. repeat split. Qed.

Example zero_floats_are_false :
  Truth.truthy (JFloat "0.0") = false /\
  Truth.truthy (JFloat "1e-400") = false /\
  Truth.truthy (JFloat "5e-324") = true /\
  Truth.truthy (JFloat "NaN") = true.
Proof. repeat split. Qed.

Example flatten_joins_keys :
  flatten Scenario.str
    [("a", JDict [("b", JDict [("c", JInt 1)]); ("d", JList [JStr "x"; JInt 2; JNull])])]
    = [("a_b_c", JInt 1); ("a_d", JStr "x; 2; None")].
Proof. reflexivity. Qed.

Example flatten_collision_keeps_last :
  flatten Scenario.str [("a_b", JInt 1); ("a", JDict [("b", JInt 2)])] = [("a_b", JInt 2)].
Proof. reflexivity. Qed.

Example sorted_is_by_code_point :
  PySort.sorted ["b"; "a_b"; "Z"; "a"] = ["Z"; "a"; "a_b"; "b"].
Proof. reflexivity. Qed.

(** ** Dictionaries *)

Lemma get_set_same (d : dict) (k : string) (v : json) :
  Dict.get (Dict.set d k v) k = Some v.
Proof.
  induction d as [|[k' v'] d IH]; simpl.
  - now rewrite String.eqb_refl.
  - destruct (k' =? k)%string eqn:E; simpl.
    + now rewrite String.eqb_refl.
    + now rewrite E.
Qed.

Lemma get_set_other (d : dict) (k k' : string) (v : json) :
  k <> k' -> Dict.get (Dict.set d k v) k' = Dict.get d k'.
Proof.
  intros Hne. induction d as [|[k0 v0] d IH]; simpl.
  - apply String.eqb_neq in Hne. now rewrite Hne.
  - destruct (k0 =? k)%string eqn:E; simpl.
    + apply String.eqb_eq in E. subst k0.
      apply String.eqb_neq in Hne. now rewrite Hne.
    + destruct (k0 =? k')%string; [reflexivity | exact IH].
Qed.

Lemma update_cons (d : dict) (k : string) (v : json) (other : dict) :
  Dict.update d ((k, v) :: other) = Dict.update (Dict.set d k v) other.
Proof. reflexivity. Qed.

Lemma get_update_absent (other d : dict) (k : string) :
  ~ In k (Dict.keys other) -> Dict.get (Dict.update d other) k = Dict.get d k.
Proof.
  revert d. induction other as [|[k' v'] other IH]; intros d Hnot; [reflexivity|].
  rewrite update_cons, IH.
  - apply get_set_other. intros ->. apply Hnot. now left.
  - intros Hin. apply Hnot. now right.
Qed.

Lemma get_update_present (other d : dict) (k : string) (v : json) :
  NoDup (Dict.keys other) ->
  Dict.get other k = Some v ->
  Dict.get (Dict.update d other) k = Some v.
Proof.
  revert d. induction other as [|[k' v'] other IH]; intros d Hnd Hget; [discriminate|].
  simpl in Hnd. inversion Hnd as [|? ? Hnot Hnd']; subst.
  rewrite update_cons. simpl in Hget.
  destruct (k' =? k)%string eqn:E.
  - apply String.eqb_eq in E. subst k'. injection Hget as <-.
    rewrite get_update_absent by exact Hnot. apply get_set_same.
  - now apply IH.
Qed.

(** ** Running one document *)

Ltac run_step :=
  match goal with
  | H : (_, _) = (_, _) |- _ => injection H as ? ?; subst
  | H : Next _ = Next _ |- _ => injection H as ?; subst
  | H : Some _ = Some _ |- _ => injection H as ?; subst
  | H : context [match ?x with _ => _ end] |- _ => destruct x eqn:?; simpl in H
  | H : context [if ?x then _ else _] |- _ => destruct x eqn:?; simpl in H
  end; try discriminate.

Lemma get_all_text_signal (pages : list (option string)) (text : string)
    (tr : list event) :
  (exists t, get_all_text pages text tr = (Next t, tr)) \/
  get_all_text pages text tr = (Raised OtherException, tr).
Proof.
  revert text. induction pages as [|[page|] pages IH]; intros text; simpl.
  - left. now exists text.
  - apply IH.
  - now right.
Qed.

(** A document that succeeds returns what was parsed from the response,
    updated with the metadata of its mode. *)
Lemma process_file_success (w : World) (file_path : string) (schema : dict)
    (text_mode : bool) (r : dict) (tr : list event) :
  run_process_file w file_path schema text_mode = (Some r, tr) ->
  exists text extracted,
    ResponseParser.parse text = inr extracted /\
    r = Dict.update extracted
          (file_metadata (OsPath.basename file_path) (if text_mode then "text" else "file")).
Proof.
  unfold run_process_file, process_file, call, try_except, bind.
  intros H.
  destruct text_mode; simpl in H.
  - unfold text_mode_, finish, bind, try_except, external, external_os, bind, emit, ret,
      raise, return_, print_error, console_print, print, emit in H. simpl in H.
    destruct (pymupdf_open w file_path) as [doc|]; simpl in H; [|repeat run_step].
    destruct (get_all_text_signal (page_texts doc) "" [OpenPdf file_path])
      as [[t Ht]|Ht]; rewrite Ht in H; simpl in H; [|discriminate].
    repeat run_step.
    all: eauto.
  - unfold file_mode, finish, bind, try_except, external, external_os, bind, emit, ret,
      raise, return_, print_error, console_print, print, emit in H. simpl in H.
    repeat run_step.
    all: eauto.
Qed.

(** ** Metadata *)

(** C3: the metadata keys overwrite same-named keys of the extracted
    fields, whatever the model answered; the [filename] of every returned
    result is the basename of the processed path. *)
Theorem metadata_overwrites_model_keys :
  (forall (fields metadata : dict) (k : string) (v : json),
      NoDup (Dict.keys metadata) ->
      Dict.get metadata k = Some v ->
      Dict.get (Dict.update fields metadata) k = Some v) /\
  (forall (w : World) (file_path : string) (schema : dict) (text_mode : bool)
          (r : dict) (tr : list event),
      run_process_file w file_path schema text_mode = (Some r, tr) ->
      Dict.get r "filename" = Some (JStr (OsPath.basename file_path)) /\
      Dict.get r "processing_mode" = Some (JStr (if text_mode then "text" else "file"))).
Proof.
  split.
  - intros fields metadata k v Hnd Hget. now apply get_update_present.
  - intros w file_path schema text_mode r tr Hrun.
    apply process_file_success in Hrun as (text & extracted & _ & ->).
    split; apply get_update_present; try reflexivity.
    all: repeat constructor; simpl; intuition discriminate.
Qed.

(** The model answers [{"filename": "guess.pdf"}] for [docs/paper.pdf]: the
    result says [paper.pdf]. *)
Lemma metadata_overwrites_model_keys_witness :
  ResponseParser.parse Scenario.filename_reply = inr [("filename", JStr "guess.pdf")] /\
  Dict.get (Dict.update [("filename", JStr "guess.pdf")] (file_metadata "paper.pdf" "file"))
    "filename" = Some (JStr "paper.pdf") /\
  exists r tr,
    run_process_file Scenario.model_guesses_filename "docs/paper.pdf" Scenario.schema false
      = (Some r, tr) /\
    Dict.get r "filename" = Some (JStr "paper.pdf").
Proof.
  split; [vm_compute; reflexivity|]. split.
  - apply (proj1 metadata_overwrites_model_keys).
    + repeat constructor; simpl; intuition discriminate.
    + reflexivity.
  - eexists. eexists. split.
    + vm_compute. reflexivity.
    + apply (proj2 metadata_overwrites_model_keys Scenario.model_guesses_filename
               "docs/paper.pdf" Scenario.schema false _
               (snd (run_process_file Scenario.model_guesses_filename "docs/paper.pdf"
                       Scenario.schema false))).
      vm_compute. reflexivity.
Defined.

(** ** File mode *)

Ltac unfold_run :=
  unfold run_process_file, process_file, file_mode, text_mode_, finish, call,
    try_except, external, external_os, print_error, console_print, bind, print, emit,
    ret, raise, return_; simpl.

Ltac run_cases :=
  repeat
    (match goal with
     | |- context [get_all_text ?pages ?t ?tr] =>
         let H := fresh "Htext" in
         destruct (get_all_text_signal pages t tr) as [[? H]|H]; rewrite H
     | |- context [pymupdf_open ?w ?p] => destruct (pymupdf_open w p) eqn:?
     | |- context [os_path_getsize ?w ?p] => destruct (os_path_getsize w p) eqn:?
     | |- context [genai_upload_file ?w ?p] => destruct (genai_upload_file w p) eqn:?
     | |- context [generate_content ?w ?p ?f] => destruct (generate_content w p f) as [[?|]|] eqn:?
     | |- context [genai_delete_file ?w ?n] => destruct (genai_delete_file w n) eqn:?
     | |- context [ResponseParser.parse ?t] => destruct (ResponseParser.parse t) as [[]|?] eqn:?
     | |- context [(?a >? ?b)%Z] => destruct (a >? b)%Z eqn:?
     | |- context [negb ?b] => destruct b eqn:?
     | |- context [console_markup_error ?w ?m] => destruct (console_markup_error w m) eqn:?
     end; simpl).







(** ** Text mode *)

(** C1, at a two-page document read in text mode: the result holds what
    the model answered, [filename] and [processing_mode], and no page
    count, although [process_file] reads it from the document; the
    prototype [process_pdf] stores it under [page_count]. *)
Theorem text_mode_result_lacks_page_count :
  page_count Scenario.two_pages = 2%Z /\
  run_process_file Scenario.text_mode_ok "papers/article.pdf" Scenario.schema true =
    (Some [("title", JStr "T"); ("filename", JStr "article.pdf");
           ("processing_mode", JStr "text")],
     [OpenPdf "papers/article.pdf";
      GenerateContent
        (TEXT_MODE_PROMPT "Title and text" (JStr DEFAULT_ADDITIONAL_CONTEXT)
           (JList [JDict [("name", JStr "title")]]))
        None]) /\
  Dict.get
    (Dict.update [("title", JStr "T")] (file_metadata "article.pdf" "text"))
    "page_count" = None /\
  fst (Ceeol.run_process_pdf Scenario.text_mode_ok "tree" "papers/article.pdf") =
    Some [("title", JStr "T"); ("filename", JStr "article.pdf"); ("page_count", JInt 2)].
Proof. vm_compute. repeat split. Qed.

(** In text mode the page count never reaches the result: two documents
    that differ in their page count only give the same result, the model
    and the console being the same. *)
Lemma text_mode_ignores_page_count (w : World) (file_path : string) (schema : dict)
    (n : Z) (doc : document) :
  pymupdf_open w file_path = Some doc ->
  forall w' : World,
    pymupdf_open w' file_path = Some (mkDocument n (page_texts doc)) ->
    generate_content w' = generate_content w ->
    console_markup_error w' = console_markup_error w ->
    run_process_file w' file_path schema true = run_process_file w file_path schema true.
Proof.
  intros Hdoc w' Hdoc' Hgen Hconsole. unfold_run. rewrite Hdoc, Hdoc', Hgen, Hconsole.
  reflexivity.
Qed.

(** In either mode a key other than [filename] and [processing_mode] is
    in the result only if the model supplied it; [page_count] is such a
    key. *)
Lemma page_count_comes_from_model (w : World) (file_path : string) (schema : dict)
    (text_mode : bool) (r : dict) (tr : list event) :
  run_process_file w file_path schema text_mode = (Some r, tr) ->
  exists text extracted,
    ResponseParser.parse text = inr extracted /\
    Dict.get r "page_count" = Dict.get extracted "page_count".
Proof.
  intros Hrun. apply process_file_success in Hrun as (text & extracted & Hparse & ->).
  exists text, extracted. split; [exact Hparse|].
  apply get_update_absent. simpl. intuition discriminate.
Qed.

(** ** The response parser *)

(** C5: when the decoded value is a list, the parser goes on with its
    first item, or with an empty dict when the list is empty; the reply
    [[{"a":1}]] parses to [{"a": 1}] and the reply [[]] to [{}]. *)
Theorem list_response_takes_first_item :
  (forall (text : string) (items : list json),
      ResponseParser.decode (ResponseParser.clean_response text) = inr (JList items) ->
      ResponseParser.parse text =
        match items with
        | first :: _ => ResponseParser.expect_dict first
        | [] => inr []
        end) /\
  ResponseParser.parse Scenario.list_reply = inr [("a", JInt 1)] /\
  ResponseParser.parse "[]" = inr [].
Proof.
  split; [|split; vm_compute; reflexivity].
  intros text items Hdec. unfold ResponseParser.parse. rewrite Hdec.
  destruct items; reflexivity.
Qed.

Lemma list_response_takes_first_item_witness :
  ResponseParser.parse Scenario.list_reply =
    ResponseParser.expect_dict (JDict [("a", JInt 1)]).
Proof.
  apply (proj1 list_response_takes_first_item Scenario.list_reply [JDict [("a", JInt 1)]]).
  vm_compute. reflexivity.
Defined.

(** ** The schema check of [main] *)

(** C8, at the schema file [{}]: the schema loads, its [fields] entry is
    absent, and [main] returns after the banner without any message: the
    emptiness test on the schema itself comes first and prints nothing. *)
Theorem empty_schema_object_exits_silently :
  JsonDecoder.json_loads "{}" = Some (JDict []) /\
  Dict.get [] "fields" = None /\
  run_main Scenario.str Scenario.empty_schema_file (Scenario.args false false) =
    ([Print MsgBanner], false) /\
  ~ In (Print MsgNoFields)
      (fst (run_main Scenario.str Scenario.empty_schema_file (Scenario.args false false))).
Proof. vm_compute. repeat split. intros [H|[]]. discriminate. Qed.

(** A schema that is a non-empty object without fields is reported: the
    run prints the error and ends before any document is touched. *)
Lemma missing_fields_are_reported (str : json -> string) (w : World) (args : Args)
    (key content : string) (entry : string * json) (entries : dict) :
  env_GEMINI_API_KEY w = Some key ->
  PyStr.nonempty key = true ->
  genai_configure w key = true ->
  os_path_isdir w (arg_input_dir args) = true ->
  read_text w (arg_schema args) = FileText content ->
  JsonDecoder.json_loads content = Some (JDict (entry :: entries)) ->
  Dict.get (entry :: entries) "fields" = None \/
  Dict.get (entry :: entries) "fields" = Some (JList []) ->
  run_main str w args = ([Print MsgBanner; Print MsgNoFields], false).
Proof.
  intros Hkey Hne Hconf Hdir Hread Hload Hfields.
  unfold run_main, main, configure_gemini, load_extraction_schema, bind, print, emit,
    ret, return_.
  simpl. rewrite Hkey. destruct key as [|c key]; [discriminate|].
  rewrite Hconf. simpl. rewrite Hdir. simpl. rewrite Hread, Hload. simpl.
  unfold Dict.get_default.
  destruct Hfields as [-> | ->]; reflexivity.
Qed.

(** Whatever the schema object, without fields no document is touched. *)
Lemma no_fields_no_extraction (str : json -> string) (w : World) (args : Args)
    (content : string) (schema : dict) :
  read_text w (arg_schema args) = FileText content ->
  JsonDecoder.json_loads content = Some (JDict schema) ->
  Dict.get schema "fields" = None \/ Dict.get schema "fields" = Some (JList []) ->
  forallb (fun e => negb (touches_document e)) (fst (run_main str w args)) = true.
Proof.
  intros Hread Hload Hfields.
  unfold run_main, main, configure_gemini, load_extraction_schema, bind, print, emit,
    ret, return_.
  simpl. destruct (env_GEMINI_API_KEY w) as [[|c key]|]; simpl; try reflexivity.
  destruct (genai_configure w (String c key)); simpl; [|reflexivity].
  destruct (os_path_isdir w (arg_input_dir args)); simpl;
    [|unfold console_print; destruct (console_markup_error w _); reflexivity].
  rewrite Hread, Hload. simpl.
  destruct schema as [|entry schema]; simpl; [reflexivity|].
  unfold Dict.get_default.
  destruct Hfields as [-> | ->]; reflexivity.
Qed.

(** ** Induction on JSON values *)

Lemma json_ind (P : json -> Prop) :
  P JNull ->
  (forall b, P (JBool b)) ->
  (forall n, P (JInt n)) ->
  (forall lexeme, P (JFloat lexeme)) ->
  (forall s, P (JStr s)) ->
  (forall items, Forall P items -> P (JList items)) ->
  (forall entries, Forall (fun kv => P (snd kv)) entries -> P (JDict entries)) ->
  forall v, P v.
Proof.
  intros HNull HBool HInt HFloat HStr HList HDict.
  fix IH 1. intros [ |b|n|lexeme|s|items|entries].
  - exact HNull.
  - apply HBool.
  - apply HInt.
  - apply HFloat.
  - apply HStr.
  - apply HList.
    refine ((fix go (l : list json) : Forall P l :=
               match l with
               | [] => Forall_nil _
               | x :: l' => Forall_cons _ (IH x) (go l')
               end) items).
  - apply HDict.
    refine ((fix go (l : list (string * json)) : Forall (fun kv => P (snd kv)) l :=
               match l with
               | [] => Forall_nil _
               | kv :: l' => Forall_cons _ (IH (snd kv)) (go l')
               end) entries).
Qed.

(** ** [dict(items)] *)

Lemma in_set (d : dict) (k : string) (v : json) (kv : string * json) :
  In kv (Dict.set d k v) -> In kv d \/ kv = (k, v).
Proof.
  induction d as [|[k' v'] d IH]; simpl.
  - intros [<-|[]]. now right.
  - destruct (k' =? k)%string; simpl.
    + intros [<-|H]; [now right | left; now right].
    + intros [<-|H]; [left; now left|].
      destruct (IH H) as [H'|H']; [left; now right | now right].
Qed.

Lemma in_update (other d : dict) (kv : string * json) :
  In kv (Dict.update d other) -> In kv d \/ In kv other.
Proof.
  revert d. induction other as [|[k v] other IH]; intros d; [now left|].
  rewrite update_cons. intros H.
  destruct (IH _ H) as [H'|H']; [|right; now right].
  destruct (in_set _ _ _ _ H') as [H''| ->]; [now left | right; now left].
Qed.

Lemma keys_set (d : dict) (k : string) (v : json) :
  Dict.keys (Dict.set d k v) =
    if Dict.mem d k then Dict.keys d else Dict.keys d ++ [k].
Proof.
  unfold Dict.mem.
  induction d as [|[k' v'] d IH]; simpl; [reflexivity|].
  destruct (k' =? k)%string eqn:E; simpl.
  - apply String.eqb_eq in E. now subst.
  - rewrite IH. now destruct (Dict.get d k).
Qed.

Lemma get_none_keys (d : dict) (k : string) :
  Dict.get d k = None <-> ~ In k (Dict.keys d).
Proof.
  induction d as [|[k' v'] d IH]; simpl; [tauto|].
  destruct (k' =? k)%string eqn:E.
  - apply String.eqb_eq in E. split; [discriminate | intros H; exfalso; apply H; now left].
  - apply String.eqb_neq in E. rewrite IH. tauto.
Qed.

Lemma set_absent (d : dict) (k : string) (v : json) :
  ~ In k (Dict.keys d) -> Dict.set d k v = d ++ [(k, v)].
Proof.
  induction d as [|[k' v'] d IH]; simpl; intros H; [reflexivity|].
  destruct (k' =? k)%string eqn:E.
  - apply String.eqb_eq in E. exfalso. apply H. now left.
  - rewrite IH; [reflexivity | tauto].
Qed.

Lemma NoDup_keys_set (d : dict) (k : string) (v : json) :
  NoDup (Dict.keys d) -> NoDup (Dict.keys (Dict.set d k v)).
Proof.
  intros Hnd. rewrite keys_set. unfold Dict.mem.
  destruct (Dict.get d k) eqn:E; [exact Hnd|].
  apply get_none_keys in E.
  apply NoDup_app; [exact Hnd | repeat constructor; intros [] |].
  intros x Hx [<-|[]]. contradiction.
Qed.

Lemma NoDup_keys_update (other d : dict) :
  NoDup (Dict.keys d) -> NoDup (Dict.keys (Dict.update d other)).
Proof.
  revert d. induction other as [|[k v] other IH]; intros d Hnd; [exact Hnd|].
  rewrite update_cons. apply IH. now apply NoDup_keys_set.
Qed.

Lemma update_fresh (other d : dict) :
  NoDup (Dict.keys d ++ Dict.keys other) -> Dict.update d other = d ++ other.
Proof.
  revert d. induction other as [|[k v] other IH]; intros d Hnd.
  - now rewrite app_nil_r.
  - rewrite update_cons. simpl in Hnd.
    assert (Hk : ~ In k (Dict.keys d)).
    { intros Hin. apply NoDup_remove_2 in Hnd. apply Hnd. apply in_or_app. now left. }
    rewrite set_absent by exact Hk.
    rewrite IH.
    + now rewrite <- app_assoc.
    + unfold Dict.keys in *. rewrite map_app. simpl. now rewrite <- app_assoc.
Qed.

Lemma of_items_NoDup (items : list (string * json)) :
  NoDup (Dict.keys items) -> Dict.of_items items = items.
Proof. intros H. unfold Dict.of_items. now rewrite update_fresh. Qed.

(** ** Flattening *)

Section Flatten.

Variable str : json -> string.

Lemma flatten_entry_dict (parent_key sep k : string) (d : dict) :
  flatten_entry str parent_key sep k (JDict d) =
    flatten_json_to_csv str d
      (if PyStr.nonempty parent_key then (parent_key ++ sep ++ k)%string else k) sep.
Proof. reflexivity. Qed.

Lemma flatten_entry_scalar (sep k : string) (v : json) :
  is_scalar v = true -> flatten_entry str "" sep k v = [(k, v)].
Proof. destruct v; simpl; intros H; try reflexivity; discriminate. Qed.

(** What flattening produces holds no dict and no list. *)
Lemma flatten_entry_values (v : json) :
  forall parent_key sep k,
    Forall (fun kv => is_scalar (snd kv) = true) (flatten_entry str parent_key sep k v).
Proof.
  induction v as [ |b|n|lexeme|s|items _|entries IH] using json_ind;
    intros parent_key sep k; try (repeat constructor; fail).
  rewrite flatten_entry_dict. unfold flatten_json_to_csv, Dict.of_items.
  set (new_key := if PyStr.nonempty parent_key then _ else _). clearbody new_key.
  apply Forall_forall. intros kv Hin.
  apply in_update in Hin as [[]|Hin].
  apply in_flat_map in Hin as (entry & Hentry & Hin).
  rewrite Forall_forall in IH.
  specialize (IH entry Hentry new_key sep (fst entry)).
  rewrite Forall_forall in IH. now apply IH.
Qed.

Lemma flatten_values (d : dict) (parent_key sep : string) :
  Forall (fun kv => is_scalar (snd kv) = true) (flatten_json_to_csv str d parent_key sep).
Proof.
  pose proof (flatten_entry_values (JDict d) "" sep parent_key) as H.
  rewrite flatten_entry_dict in H. exact H.
Qed.

Lemma flatten_keys_NoDup (d : dict) (parent_key sep : string) :
  NoDup (Dict.keys (flatten_json_to_csv str d parent_key sep)).
Proof. apply NoDup_keys_update. constructor. Qed.

Lemma flat_map_scalar (sep : string) (d : dict) :
  Forall (fun kv => is_scalar (snd kv) = true) d ->
  flat_map (fun kv => flatten_entry str "" sep (fst kv) (snd kv)) d = d.
Proof.
  induction 1 as [|[k v] d Hv _ IH]; [reflexivity|].
  simpl. rewrite flatten_entry_scalar by exact Hv. simpl. now rewrite IH.
Qed.

(** On a dict without nested values, flattening changes nothing. *)
Lemma flatten_flat (d : dict) :
  NoDup (Dict.keys d) ->
  Forall (fun kv => is_scalar (snd kv) = true) d ->
  flatten str d = d.
Proof.
  intros Hnd Hflat. unfold flatten, flatten_json_to_csv.
  rewrite flat_map_scalar by exact Hflat. now apply of_items_NoDup.
Qed.

End Flatten.

(** C10: flattening is idempotent, and it is the identity on every dict
    whose values are neither dicts nor lists. *)
Theorem flatten_idempotent (str : json -> string) :
  (forall d : dict, flatten str (flatten str d) = flatten str d) /\
  (forall d : dict,
      NoDup (Dict.keys d) ->
      forallb (fun kv => is_scalar (snd kv)) d = true ->
      flatten str d = d).
Proof.
  split.
  - intros d. apply flatten_flat.
    + apply flatten_keys_NoDup.
    + apply flatten_values.
  - intros d Hnd Hflat. apply flatten_flat; [exact Hnd|].
    apply Forall_forall. intros kv Hin.
    rewrite forallb_forall in Hflat. now apply Hflat.
Qed.

Lemma flatten_idempotent_witness :
  flatten Scenario.str [("title", JStr "T"); ("pages", JInt 2); ("doi", JNull)] =
    [("title", JStr "T"); ("pages", JInt 2); ("doi", JNull)].
Proof.
  apply (proj2 (flatten_idempotent Scenario.str)).
  - repeat constructor; simpl; intuition discriminate.
  - reflexivity.
Defined.

(** ** Sorting *)

Lemma lt_trans (a b c : string) : PySort.lt a b -> PySort.lt b c -> PySort.lt a c.
Proof.
  unfold PySort.lt, String.ltb. intros Hab Hbc.
  destruct (a ?= b)%string eqn:Eab; try discriminate.
  destruct (b ?= c)%string eqn:Ebc; try discriminate.
  apply OrderedTypeEx.String_as_OT.cmp_lt in Eab, Ebc.
  pose proof (OrderedTypeEx.String_as_OT.lt_trans _ _ _ Eab Ebc) as Hac.
  apply OrderedTypeEx.String_as_OT.cmp_lt in Hac.
  unfold OrderedTypeEx.String_as_OT.cmp in Hac. now rewrite Hac.
Qed.

Lemma leb_false_lt (a b : string) : (a <=? b)%string = false -> PySort.lt b a.
Proof.
  unfold PySort.lt, String.leb, String.ltb. rewrite (String.compare_antisym b a).
  destruct (a ?= b)%string; simpl; congruence.
Qed.

Lemma leb_true_cases (a b : string) : (a <=? b)%string = true -> a = b \/ PySort.lt a b.
Proof.
  unfold PySort.lt, String.leb, String.ltb.
  destruct (a ?= b)%string eqn:E; try discriminate; intros _.
  - left. now apply String.compare_eq_iff.
  - now right.
Qed.

Lemma insert_perm (x : string) (l : list string) : Permutation (x :: l) (PySort.insert x l).
Proof.
  induction l as [|y l IH]; simpl; [reflexivity|].
  destruct (x <=? y)%string; [reflexivity|].
  rewrite perm_swap. now constructor.
Qed.

Lemma sorted_perm (l : list string) : Permutation l (PySort.sorted l).
Proof.
  induction l as [|x l IH]; simpl; [constructor|].
  rewrite <- insert_perm. now constructor.
Qed.

Lemma insert_sorted (x : string) (l : list string) :
  ~ In x l ->
  StronglySorted PySort.lt l ->
  StronglySorted PySort.lt (PySort.insert x l).
Proof.
  intros Hnot Hs. induction Hs as [|y l Hs IH Hall]; simpl.
  - repeat constructor.
  - destruct (x <=? y)%string eqn:E.
    + apply leb_true_cases in E as [->|Hlt]; [exfalso; apply Hnot; now left|].
      constructor; [now constructor|].
      constructor; [exact Hlt|].
      eapply Forall_impl; [|exact Hall]. intros z Hz. eapply lt_trans; eassumption.
    + apply leb_false_lt in E.
      constructor; [apply IH; intros Hin; apply Hnot; now right|].
      apply Forall_forall. intros z Hz.
      apply (Permutation_in _ (Permutation_sym (insert_perm x l))) in Hz.
      destruct Hz as [<-|Hz]; [exact E|].
      rewrite Forall_forall in Hall. now apply Hall.
Qed.

(** Sorting distinct strings gives a strictly increasing list. *)
Lemma sorted_increasing (l : list string) :
  NoDup l -> StronglySorted PySort.lt (PySort.sorted l).
Proof.
  induction 1 as [|x l Hnot Hnd IH]; simpl; [constructor|].
  apply insert_sorted; [|exact IH].
  intros Hin. apply Hnot. eapply Permutation_in; [|exact Hin].
  apply Permutation_sym, sorted_perm.
Qed.

(** ** The set of column names *)

Lemma mem_in (x : string) (s : list string) : StrSet.mem x s = true <-> In x s.
Proof.
  induction s as [|y s IH]; simpl; [split; [discriminate | tauto]|].
  rewrite orb_true_iff, IH, String.eqb_eq. tauto.
Qed.

Lemma in_add (s : list string) (x y : string) : In y (StrSet.add s x) <-> In y s \/ y = x.
Proof.
  unfold StrSet.add. destruct (StrSet.mem x s) eqn:E.
  - apply mem_in in E. split; [tauto | intros [H| ->]; assumption].
  - rewrite in_app_iff. simpl. intuition.
Qed.

Lemma NoDup_add (s : list string) (x : string) : NoDup s -> NoDup (StrSet.add s x).
Proof.
  intros Hnd. unfold StrSet.add. destruct (StrSet.mem x s) eqn:E; [exact Hnd|].
  apply NoDup_app; [exact Hnd | repeat constructor; intros [] |].
  intros y Hy [<-|[]].
  apply mem_in in Hy. congruence.
Qed.

Lemma in_set_update (xs s : list string) (y : string) :
  In y (StrSet.update s xs) <-> In y s \/ In y xs.
Proof.
  unfold StrSet.update. revert s.
  induction xs as [|x xs IH]; intros s; simpl; [tauto|].
  rewrite IH, in_add. intuition.
Qed.

Lemma NoDup_set_update (xs s : list string) : NoDup s -> NoDup (StrSet.update s xs).
Proof.
  unfold StrSet.update. revert s.
  induction xs as [|x xs IH]; intros s Hnd; simpl; [exact Hnd|].
  apply IH. now apply NoDup_add.
Qed.

Lemma all_columns_spec (flattened : list dict) :
  NoDup (all_columns flattened) /\
  forall k, In k (all_columns flattened) <->
            exists item, In item flattened /\ In k (Dict.keys item).
Proof.
  unfold all_columns.
  assert (H : forall acc, NoDup acc ->
            NoDup (fold_left (fun acc item => StrSet.update acc (Dict.keys item))
                     flattened acc) /\
            forall k,
              In k (fold_left (fun acc item => StrSet.update acc (Dict.keys item))
                      flattened acc) <->
              In k acc \/ exists item, In item flattened /\ In k (Dict.keys item)).
  { induction flattened as [|item flattened IH]; intros acc Hnd; simpl.
    - split; [exact Hnd|]. intros k. split; [tauto|]. intros [H|(item & [] & _)]. exact H.
    - destruct (IH (StrSet.update acc (Dict.keys item))) as [Hnd' Hin].
      { now apply NoDup_set_update. }
      split; [exact Hnd'|]. intros k. rewrite Hin, in_set_update. split.
      + intros [[H|H]|(item' & H1 & H2)]; [now left | right; exists item; tauto |].
        right. exists item'. tauto.
      + intros [H|(item' & [<-|H1] & H2)]; [tauto | tauto |].
        right. exists item'. tauto. }
  destruct (H [] (NoDup_nil _)) as [Hnd Hin]. split; [exact Hnd|].
  intros k. rewrite Hin. simpl. tauto.
Qed.

(** ** CSV output *)

Lemma get_default_absent (d : dict) (k : string) (default : json) :
  ~ In k (Dict.keys d) -> Dict.get_default d k default = default.
Proof.
  intros H. apply get_none_keys in H. unfold Dict.get_default. now rewrite H.
Qed.

Lemma flatten_nested_example :
  flatten Scenario.str Scenario.nested_result = [("a_b", JInt 1); ("c", JStr "1; 2")].
Proof. reflexivity. Qed.

(** A row, cell by cell: under each column the value of the flattened
    result, the empty string when it has no such key. *)
Lemma csv_row_spec (columns : list string) (item : dict) :
  Forall2
    (fun col cell =>
       cell = match Dict.get item col with Some v => v | None => JStr "" end)
    columns (csv_row columns item).
Proof.
  unfold csv_row, Dict.get_default.
  induction columns as [|col columns IH]; simpl; constructor; [reflexivity | exact IH].
Qed.

Lemma csv_rows_spec (str : json -> string) (columns : list string) (data : list dict) :
  Forall2
    (fun item row =>
       Forall2
         (fun col cell =>
            cell = match Dict.get (flatten str item) col with
                   | Some v => v
                   | None => JStr ""
                   end)
         columns row)
    data (map (csv_row columns) (map (flatten str) data)).
Proof.
  induction data as [|item data IH]; simpl; constructor; [apply csv_row_spec | exact IH].
Qed.

(** C7: for a non-empty result set the first thing [save_to_csv] does is
    to hand the CSV writer a header and one row per result, whether or not
    the write then succeeds.  The header is strictly increasing in the
    order of [str] and its members are exactly the keys of the flattened
    results.  Every row gives, column by column, the value of its flattened
    result, and the empty string in each column that its result does not
    have.  When the write succeeds and the closing line renders, nothing
    else happens.  For the results [{"x": 1}] and [{"y": 2}] the header is
    [x, y] and the rows are [1, ''] and ['', 2]. *)
Theorem csv_header_is_sorted_union (str : json -> string) (w : World)
    (data : list dict) (output : string) :
  data <> [] ->
  let flattened := map (flatten str) data in
  let header := csv_columns flattened in
  (exists rows outcome after,
      save_to_csv str w data output [] = (outcome, WriteCsv output header rows :: after) /\
      Forall2
        (fun item row =>
           Forall2
             (fun col cell =>
                cell = match Dict.get (flatten str item) col with
                       | Some v => v
                       | None => JStr ""
                       end)
             header row)
        data rows /\
      (write_file w output = true ->
       console_markup_error w (Markup.csv_saved output) = None ->
       outcome = Next tt /\ after = [Print (MsgCsvSaved output)])) /\
  StronglySorted PySort.lt header /\
  (forall k, In k header <->
             exists item, In item data /\ In k (Dict.keys (flatten str item))) /\
  csv_columns (map (flatten str) Scenario.disjoint_results) = ["x"; "y"] /\
  map (csv_row ["x"; "y"]) (map (flatten str) Scenario.disjoint_results) =
    [[JInt 1; JStr ""]; [JStr ""; JInt 2]].
Proof.
  intros Hne flattened header.
  destruct (all_columns_spec flattened) as [Hnd Hin].
  split; [|split; [|split; [|split]]].
  - exists (map (csv_row header) flattened).
    assert (Hrows :
      Forall2
        (fun item row =>
           Forall2
             (fun col cell =>
                cell = match Dict.get (flatten str item) col with
                       | Some v => v
                       | None => JStr ""
                       end)
             header row)
        data (map (csv_row header) flattened)).
    { apply csv_rows_spec. }
    destruct data as [|item data]; [contradiction|].
    unfold save_to_csv, external_os, console_print, bind, emit, ret, raise.
    fold flattened. fold header. cbn [app].
    destruct (write_file w output).
    + destruct (console_markup_error w (Markup.csv_saved output)) as [text|] eqn:Hline.
      * eexists. eexists. split; [reflexivity|]. split; [exact Hrows|]. discriminate.
      * eexists. eexists. split; [reflexivity|]. split; [exact Hrows|]. now split.
    + eexists. eexists. split; [reflexivity|]. split; [exact Hrows|]. discriminate.
  - now apply sorted_increasing.
  - intros k. unfold header, csv_columns. split.
    + intros H. apply (Permutation_in _ (Permutation_sym (sorted_perm _))) in H.
      apply Hin in H as (fitem & Hf & Hk).
      apply in_map_iff in Hf as (item & <- & Hitem). now exists item.
    + intros (item & Hitem & Hk).
      apply (Permutation_in _ (sorted_perm _)). apply Hin.
      exists (flatten str item). split; [now apply in_map | exact Hk].
  - reflexivity.
  - reflexivity.
Qed.

(** The results [{"x": 1}] and [{"y": 2}], written to [out.csv]. *)
Lemma csv_header_is_sorted_union_witness :
  let flattened := map (flatten Scenario.str) Scenario.disjoint_results in
  let header := csv_columns flattened in
  (exists rows outcome after,
      save_to_csv Scenario.str Scenario.text_mode_ok Scenario.disjoint_results "out.csv" []
        = (outcome, WriteCsv "out.csv" header rows :: after) /\
      Forall2
        (fun item row =>
           Forall2
             (fun col cell =>
                cell = match Dict.get (flatten Scenario.str item) col with
                       | Some v => v
                       | None => JStr ""
                       end)
             header row)
        Scenario.disjoint_results rows /\
      (write_file Scenario.text_mode_ok "out.csv" = true ->
       console_markup_error Scenario.text_mode_ok (Markup.csv_saved "out.csv") = None ->
       outcome = Next tt /\ after = [Print (MsgCsvSaved "out.csv")])) /\
  StronglySorted PySort.lt header /\
  (forall k, In k header <->
             exists item, In item Scenario.disjoint_results /\
                          In k (Dict.keys (flatten Scenario.str item))) /\
  csv_columns (map (flatten Scenario.str) Scenario.disjoint_results) = ["x"; "y"] /\
  map (csv_row ["x"; "y"]) (map (flatten Scenario.str) Scenario.disjoint_results) =
    [[JInt 1; JStr ""]; [JStr ""; JInt 2]].
Proof.
  apply (csv_header_is_sorted_union Scenario.str Scenario.text_mode_ok
           Scenario.disjoint_results "out.csv").
  discriminate.
Defined.

(** The same run, computed: the write and the closing line. *)
Example csv_of_disjoint_results :
  save_to_csv Scenario.str Scenario.text_mode_ok Scenario.disjoint_results "out.csv" [] =
    (Next tt,
     [WriteCsv "out.csv" ["x"; "y"] [[JInt 1; JStr ""]; [JStr ""; JInt 2]];
      Print (MsgCsvSaved "out.csv")]).
Proof. vm_compute. reflexivity. Qed.

(** ** Strings *)

#[local] Arguments Ascii.eqb !a !b.

Lemma append_nil_r (s : string) : (s ++ "")%string = s.
Proof. induction s; simpl; congruence. Qed.

Lemma append_assoc (a b c : string) : ((a ++ b) ++ c)%string = (a ++ b ++ c)%string.
Proof. induction a; simpl; congruence. Qed.

Lemma append_length (a b : string) :
  String.length (a ++ b) = String.length a + String.length b.
Proof. induction a; simpl; congruence. Qed.

Lemma rev_onto_append (s acc : string) :
  PyStr.rev_onto s acc = (PyStr.rev s ++ acc)%string.
Proof.
  unfold PyStr.rev. revert acc.
  induction s as [|c s IH]; intros acc; simpl; [reflexivity|].
  rewrite IH, (IH (String c "")), append_assoc. reflexivity.
Qed.

Lemma rev_cons (c : ascii) (s : string) :
  PyStr.rev (String c s) = (PyStr.rev s ++ String c "")%string.
Proof. unfold PyStr.rev at 1. simpl. apply rev_onto_append. Qed.

Lemma rev_append (a b : string) :
  PyStr.rev (a ++ b) = (PyStr.rev b ++ PyStr.rev a)%string.
Proof.
  induction a as [|c a IH]; simpl.
  - now rewrite append_nil_r.
  - now rewrite !rev_cons, IH, append_assoc.
Qed.

Lemma rev_involutive (s : string) : PyStr.rev (PyStr.rev s) = s.
Proof.
  induction s as [|c s IH]; [reflexivity|].
  now rewrite rev_cons, rev_append, IH.
Qed.

Lemma rev_length (s : string) : String.length (PyStr.rev s) = String.length s.
Proof.
  induction s as [|c s IH]; [reflexivity|].
  rewrite rev_cons, append_length, IH. simpl. lia.
Qed.

(** ** Paths *)

Lemma split_onto_acc (p cur : string) (acc : list string) :
  OsPath.split_onto p cur acc = OsPath.split_onto p cur [] ++ acc.
Proof.
  revert cur acc. induction p as [|c p IH]; intros cur acc; simpl; [reflexivity|].
  destruct (c =? OsPath.sep)%char.
  - rewrite IH, (IH _ [_]), <- app_assoc. reflexivity.
  - apply IH.
Qed.

Lemma split_onto_slash (a b cur : string) (acc : list string) :
  OsPath.split_onto (a ++ String OsPath.sep b) cur acc =
    OsPath.split_onto b "" (OsPath.split_onto a cur acc).
Proof.
  revert cur acc. induction a as [|c a IH]; intros cur acc; simpl.
  - reflexivity.
  - destruct (c =? OsPath.sep)%char; apply IH.
Qed.

Lemma components_slash (a b : string) :
  OsPath.components (a ++ String OsPath.sep b) = OsPath.components a ++ OsPath.components b.
Proof.
  unfold OsPath.components.
  rewrite split_onto_slash, split_onto_acc, rev_app_distr. reflexivity.
Qed.

Lemma split_onto_name (name cur : string) (acc : list string) :
  PyStr.contains_char OsPath.sep name = false ->
  OsPath.split_onto name cur acc = PyStr.rev (PyStr.rev_onto name cur) :: acc.
Proof.
  revert cur. induction name as [|c name IH]; intros cur H; simpl in *; [reflexivity|].
  apply orb_false_iff in H as [Hc Hname]. rewrite Hc. now apply IH.
Qed.

Lemma components_name (name : string) :
  PyStr.contains_char OsPath.sep name = false -> OsPath.components name = [name].
Proof.
  intros H. unfold OsPath.components. rewrite split_onto_name by exact H.
  simpl. fold (PyStr.rev name). now rewrite rev_involutive.
Qed.

(** A file name with the suffix [.pdf] is none of the special names. *)
Lemma walk_step_pdf (dir : list string) (name : string) :
  is_pdf name = true -> OsPath.walk_step dir name = dir ++ [name].
Proof.
  intros H. unfold OsPath.walk_step.
  destruct (name =? "")%string eqn:E1; [apply String.eqb_eq in E1; now subst|].
  destruct (name =? ".")%string eqn:E2; [apply String.eqb_eq in E2; now subst|].
  destruct (name =? "..")%string eqn:E3; [apply String.eqb_eq in E3; now subst|].
  reflexivity.
Qed.

Lemma walk_from_slash_name (dir : list string) (a name : string) :
  PyStr.contains_char OsPath.sep name = false ->
  is_pdf name = true ->
  OsPath.walk_from dir (a ++ String OsPath.sep name) = OsPath.walk_from dir a ++ [name].
Proof.
  intros Hbare Hpdf. unfold OsPath.walk_from.
  rewrite components_slash, (components_name name) by exact Hbare.
  rewrite fold_left_app. simpl. now apply walk_step_pdf.
Qed.

Lemma walk_from_trailing_slash (dir : list string) (a : string) :
  OsPath.walk_from dir (a ++ "/") = OsPath.walk_from dir a.
Proof.
  unfold OsPath.walk_from.
  change (a ++ "/")%string with (a ++ String OsPath.sep "")%string.
  rewrite components_slash, fold_left_app. reflexivity.
Qed.

Lemma endswith_slash (a : string) :
  PyStr.endswith a "/" = true -> exists a', a = (a' ++ "/")%string.
Proof.
  unfold PyStr.endswith. intros H.
  destruct (PyStr.rev a) as [|c r] eqn:E; [discriminate|].
  simpl in H. destruct r; rewrite andb_true_r in H; apply Ascii.eqb_eq in H; subst c.
  all: rewrite <- (rev_involutive a), E; eexists; apply rev_cons.
Qed.

Lemma bare_name_relative (name : string) :
  PyStr.contains_char OsPath.sep name = false -> PyStr.startswith name "/" = false.
Proof.
  destruct name as [|c name]; [reflexivity|]. simpl. intros H.
  apply orb_false_iff in H as [Hc _]. rewrite Ascii.eqb_sym in Hc.
  unfold OsPath.sep in Hc. now rewrite Hc.
Qed.

(** Where a joined path leads: one step below the directory. *)
Lemma walk_from_join (dir : list string) (a name : string) :
  PyStr.contains_char OsPath.sep name = false ->
  is_pdf name = true ->
  OsPath.walk_from dir (OsPath.join a name) = OsPath.walk_from dir a ++ [name].
Proof.
  intros Hbare Hpdf. unfold OsPath.join.
  pose proof (bare_name_relative name Hbare) as Hrel.
  rewrite Hrel.
  destruct a as [|c a]; simpl negb; cbv iota.
  - simpl. unfold OsPath.walk_from. rewrite components_name by exact Hbare.
    simpl. now apply walk_step_pdf.
  - simpl orb. destruct (PyStr.endswith (String c a) "/") eqn:E.
    + apply endswith_slash in E as [a' ->].
      rewrite append_assoc. simpl append at 2.
      rewrite walk_from_slash_name, walk_from_trailing_slash by assumption. reflexivity.
    + now apply walk_from_slash_name.
Qed.

Lemma isabs_join (a name : string) :
  PyStr.contains_char OsPath.sep name = false ->
  a <> "" ->
  OsPath.isabs (OsPath.join a name) = OsPath.isabs a.
Proof.
  intros Hbare Hne. unfold OsPath.join, OsPath.isabs.
  pose proof (bare_name_relative name Hbare) as Hrel.
  rewrite Hrel. destruct a as [|c a]; [contradiction|].
  destruct (negb _ || _); simpl; reflexivity.
Qed.

Lemma resolve_join (cwd a name : string) :
  PyStr.contains_char OsPath.sep name = false ->
  is_pdf name = true ->
  OsPath.resolve cwd (OsPath.join a name) = OsPath.resolve cwd a ++ [name].
Proof.
  intros Hbare Hpdf. unfold OsPath.resolve.
  destruct a as [|c a].
  - pose proof (bare_name_relative name Hbare) as Hrel. fold (OsPath.isabs name) in Hrel.
    change (OsPath.join "" name) with (if PyStr.startswith name "/" then name else name).
    destruct (PyStr.startswith name "/"); rewrite Hrel; simpl OsPath.isabs; cbv iota;
      unfold OsPath.walk_from at 1; rewrite components_name by exact Hbare; simpl;
      now apply walk_step_pdf.
  - rewrite isabs_join by (exact Hbare || discriminate).
    destruct (OsPath.isabs (String c a)); now apply walk_from_join.
Qed.

(** ** The paths handed to [process_file] *)

(** The first thing [process_file] does is to ask for the path it was
    given, as it was given. *)
Lemma process_file_first_event (w : World) (path : string) (schema : dict)
    (text_mode : bool) :
  hd_error (snd (run_process_file w path schema text_mode)) =
    Some (if text_mode then OpenPdf path else GetSize path).
Proof.
  destruct text_mode; unfold_run; run_cases; reflexivity.
Qed.

Lemma is_prefix_same_length (dir path : list string) :
  OsPath.is_prefix dir path = true -> List.length path = List.length dir -> dir = path.
Proof.
  revert path. induction dir as [|d dir IH]; intros [|p path]; simpl; try discriminate.
  - reflexivity.
  - intros H Hlen. apply andb_true_iff in H as [Hd H]. apply String.eqb_eq in Hd.
    subst p. f_equal. apply IH; [exact H | lia].
Qed.

(** A file in a directory lies under the directories that lead to it and
    under that directory. *)
Lemma under_file_in (dir parent : list string) (name : string) :
  OsPath.under dir (parent ++ [name]) = OsPath.is_prefix dir parent.
Proof.
  unfold OsPath.under. revert parent.
  induction dir as [|d dir IH]; intros [|p parent]; simpl; try reflexivity.
  - destruct dir; simpl; [now rewrite andb_false_r | now rewrite andb_false_r].
  - rewrite <- andb_assoc. f_equal. apply IH.
Qed.

(** The run [-i ..] started in [/home/user/work]: the input directory
    [/home/user] is not the working directory, the run opens [a.pdf],
    which is [/home/user/work/a.pdf], and that file is under the input
    directory. *)
Lemma started_below_input_directory :
  let w := Cases.started_below_input in
  let args := Cases.parent_directory in
  arg_recursive args = false /\
  OsPath.resolve (os_getcwd w) (arg_input_dir args) = ["home"; "user"] /\
  OsPath.resolve (os_getcwd w) "." = ["home"; "user"; "work"] /\
  OsPath.resolve (os_getcwd w) (arg_input_dir args) <> OsPath.resolve (os_getcwd w) "." /\
  pdf_files w args [] = (Next ["a.pdf"], []) /\
  In (GetSize "a.pdf") (fst (run_main Scenario.str w args)) /\
  OsPath.resolve (os_getcwd w) "a.pdf" = ["home"; "user"; "work"; "a.pdf"] /\
  OsPath.under (OsPath.resolve (os_getcwd w) (arg_input_dir args))
    (OsPath.resolve (os_getcwd w) "a.pdf") = true.
Proof.
  vm_compute. repeat split; try discriminate. tauto.
Qed.

(** C9: without [--recursive] the paths handed to [process_file] are the
    names [os.listdir] returned, filtered and not joined with the input
    directory; with [--recursive] every path is a file name joined with the
    directory [os.walk] found it in.  [process_file] opens the path as it is
    given, so a bare name is looked up in the working directory: when the
    input directory is another directory, the file opened is not the entry
    that was listed, and it lies under the input directory exactly when
    the working directory does. *)
Theorem nonrecursive_paths_are_bare_names (w : World) (args : Args) :
  (arg_recursive args = false ->
   forall names tr,
     os_listdir w (arg_input_dir args) = Some names ->
     pdf_files w args tr = (Next (filter is_pdf names), tr) /\
     forall path, In path (filter is_pdf names) -> In path names) /\
  (arg_recursive args = true ->
   exists paths,
     (forall tr, pdf_files w args tr = (Next paths, tr)) /\
     forall path,
       In path paths <->
       exists root dirs files name,
         In (root, dirs, files) (os_walk w (arg_input_dir args)) /\
         In name files /\ is_pdf name = true /\ path = OsPath.join root name) /\
  (forall path schema text_mode,
     hd_error (snd (run_process_file w path schema text_mode)) =
       Some (if text_mode then OpenPdf path else GetSize path)) /\
  (forall name,
     PyStr.contains_char OsPath.sep name = false ->
     is_pdf name = true ->
     OsPath.resolve (os_getcwd w) (arg_input_dir args) <> OsPath.resolve (os_getcwd w) "." ->
     OsPath.resolve (os_getcwd w) name = OsPath.resolve (os_getcwd w) "." ++ [name] /\
     OsPath.resolve (os_getcwd w) (OsPath.join (arg_input_dir args) name) =
       OsPath.resolve (os_getcwd w) (arg_input_dir args) ++ [name] /\
     OsPath.resolve (os_getcwd w) name <>
       OsPath.resolve (os_getcwd w) (OsPath.join (arg_input_dir args) name) /\
     (OsPath.under (OsPath.resolve (os_getcwd w) (arg_input_dir args))
        (OsPath.resolve (os_getcwd w) name) = true <->
      OsPath.under (OsPath.resolve (os_getcwd w) (arg_input_dir args))
        (OsPath.resolve (os_getcwd w) ".") = true)).
Proof.
  split; [|split; [|split]].
  - intros Hrec names tr Hlist. unfold pdf_files. rewrite Hrec, Hlist. split; [reflexivity|].
    intros path Hin. now apply filter_In in Hin.
  - intros Hrec. eexists. split.
    + intros tr. unfold pdf_files. rewrite Hrec. reflexivity.
    + intros path. rewrite in_flat_map. split.
      * intros ([[root dirs] files] & Hentry & Hin).
        apply in_map_iff in Hin as (name & <- & Hname).
        apply filter_In in Hname as [Hname Hpdf].
        now exists root, dirs, files, name.
      * intros (root & dirs & files & name & Hentry & Hname & Hpdf & ->).
        exists (root, dirs, files). split; [exact Hentry|].
        apply in_map. now apply filter_In.
  - apply process_file_first_event.
  - intros name Hbare Hpdf Hother.
    assert (Hname : OsPath.resolve (os_getcwd w) name =
                    OsPath.resolve (os_getcwd w) "." ++ [name]).
    { pose proof (resolve_join (os_getcwd w) "" name Hbare Hpdf) as H.
      unfold OsPath.join in H. rewrite (bare_name_relative name Hbare) in H. exact H. }
    pose proof (resolve_join (os_getcwd w) (arg_input_dir args) name Hbare Hpdf) as Hjoin.
    split; [exact Hname|]. split; [exact Hjoin|]. split.
    + rewrite Hname, Hjoin. intros Heq. apply app_inv_tail in Heq. congruence.
    + rewrite Hname, under_file_in. unfold OsPath.under. split.
      * intros Hpre. rewrite Hpre. simpl.
        destruct (Nat.eqb_spec (List.length (OsPath.resolve (os_getcwd w) "."))
                    (List.length (OsPath.resolve (os_getcwd w) (arg_input_dir args))))
          as [Hlen|Hlen]; [|reflexivity].
        exfalso. apply Hother. now apply is_prefix_same_length.
      * intros H. now apply andb_true_iff in H as [H _].
Qed.

Lemma nonrecursive_paths_are_bare_names_witness :
  pdf_files Scenario.deletion_fails (Scenario.args false false) [] =
    (Next ["report.pdf"], []) /\
  OsPath.resolve "/home/user" "report.pdf" = ["home"; "user"; "report.pdf"] /\
  OsPath.resolve "/home/user" (OsPath.join "/data/pdfs" "report.pdf") =
    ["data"; "pdfs"; "report.pdf"] /\
  (exists paths, pdf_files Scenario.deletion_fails (Scenario.args true false) [] =
                   (Next paths, []) /\ paths = ["/data/pdfs/report.pdf"]) /\
  (OsPath.under ["data"; "pdfs"] ["home"; "user"; "report.pdf"] = true <->
   OsPath.under ["data"; "pdfs"] ["home"; "user"] = true) /\
  (OsPath.under ["home"; "user"] ["home"; "user"; "work"; "a.pdf"] = true <->
   OsPath.under ["home"; "user"] ["home"; "user"; "work"] = true).
Proof.
  pose proof (nonrecursive_paths_are_bare_names Scenario.deletion_fails
                (Scenario.args false false)) as (Hflat & _ & _ & Hopen).
  pose proof (nonrecursive_paths_are_bare_names Scenario.deletion_fails
                (Scenario.args true false)) as (_ & Hrec & _).
  pose proof (nonrecursive_paths_are_bare_names Cases.started_below_input
                Cases.parent_directory) as (_ & _ & _ & Hbelow).
  split; [|split; [|split; [|split; [|split]]]].
  - apply (Hflat eq_refl ["report.pdf"] [] eq_refl).
  - apply (Hopen "report.pdf" eq_refl eq_refl). vm_compute. discriminate.
  - apply (Hopen "report.pdf" eq_refl eq_refl). vm_compute. discriminate.
  - destruct (Hrec eq_refl) as (paths & Hpaths & _).
    exists paths. split; [apply Hpaths|].
    specialize (Hpaths []). vm_compute in Hpaths. congruence.
  - apply (Hopen "report.pdf" eq_refl eq_refl). vm_compute. discriminate.
  - apply (Hbelow "a.pdf" eq_refl eq_refl). vm_compute. discriminate.
Defined.

(** The two modes of [main] on a directory that lists [report.pdf]. *)
Lemma main_opens_bare_name :
  In (GetSize "report.pdf")
    (fst (run_main Scenario.str Scenario.deletion_fails (Scenario.args false false))) /\
  In (GetSize "/data/pdfs/report.pdf")
    (fst (run_main Scenario.str Scenario.deletion_fails (Scenario.args true false))).
Proof. vm_compute. tauto. Qed.

(** ** The decoder and trailing whitespace *)

Section TrailingWhitespace.

Import JsonDecoder.

Lemma is_ws_cases (c : ascii) :
  is_ws c = true -> c = " "%char \/ c = "009"%char \/ c = "010"%char \/ c = "013"%char.
Proof.
  unfold is_ws, PyStr.code. intros H.
  rewrite <- (ascii_N_embedding c).
  repeat (apply orb_true_iff in H as [H|H]); apply N.eqb_eq in H; rewrite H; tauto.
Qed.

Ltac ws_cases H :=
  apply is_ws_cases in H as [H|[H|[H|H]]]; subst.

Lemma all_ws_cons (c : ascii) (t : string) :
  all_ws (String c t) = true -> is_ws c = true /\ all_ws t = true.
Proof. simpl. apply andb_true_iff. Qed.

Lemma skip_ws_all_ws (t : string) : all_ws t = true -> skip_ws t = "".
Proof.
  induction t as [|c t IH]; [reflexivity|]. intros H.
  apply all_ws_cons in H as [Hc Ht]. simpl. rewrite Hc. now apply IH.
Qed.

Lemma skip_ws_lead (lead s : string) :
  all_ws lead = true -> skip_ws (lead ++ s) = skip_ws s.
Proof.
  induction lead as [|c lead IH]; [reflexivity|]. intros H.
  apply all_ws_cons in H as [Hc Ht]. simpl. rewrite Hc. now apply IH.
Qed.

Lemma skip_ws_app (s t : string) :
  all_ws t = true ->
  skip_ws (s ++ t) =
    match skip_ws s with
    | EmptyString => EmptyString
    | String c r => String c (r ++ t)
    end.
Proof.
  intros Ht. induction s as [|c s IH]; simpl.
  - now apply skip_ws_all_ws.
  - destruct (is_ws c); [exact IH | reflexivity].
Qed.

Lemma skip_ws_length (s : string) : String.length (skip_ws s) <= String.length s.
Proof.
  induction s as [|c s IH]; simpl; [lia|]. destruct (is_ws c); simpl; lia.
Qed.

Lemma ws_not_digit (c : ascii) : is_ws c = true -> is_digit c = false.
Proof. intros H. ws_cases H; reflexivity. Qed.

Lemma span_digits_app (s t acc : string) :
  all_ws t = true ->
  span_digits (s ++ t) acc = (fst (span_digits s acc), (snd (span_digits s acc) ++ t)%string).
Proof.
  intros Ht. revert acc. induction s as [|c s IH]; intros acc; simpl.
  - destruct t as [|c t]; [reflexivity|].
    apply all_ws_cons in Ht as [Hc _]. simpl. now rewrite (ws_not_digit c Hc).
  - destruct (is_digit c); [apply IH | reflexivity].
Qed.

Lemma span_digits_length (s acc : string) :
  String.length (snd (span_digits s acc)) <= String.length s.
Proof.
  revert acc. induction s as [|c s IH]; intros acc; simpl; [lia|].
  destruct (is_digit c); simpl; [specialize (IH (String c acc)); lia | lia].
Qed.

Lemma drop_prefix_app (pat s t : string) :
  no_ws pat = true ->
  all_ws t = true ->
  drop_prefix pat (s ++ t) =
    match drop_prefix pat s with Some r => Some (r ++ t)%string | None => None end.
Proof.
  intros Hpat Ht. revert s. induction pat as [|a pat IH]; intros s; [reflexivity|].
  simpl in Hpat. apply andb_true_iff in Hpat as [Ha Hpat].
  destruct s as [|b s]; simpl.
  - destruct t as [|c t]; [reflexivity|].
    apply all_ws_cons in Ht as [Hc _]. simpl.
    destruct (Ascii.eqb_spec a c) as [->|]; [|reflexivity].
    now rewrite Hc in Ha.
  - destruct (a =? b)%char; [now apply IH | reflexivity].
Qed.

Lemma drop_prefix_length (pat s r : string) :
  drop_prefix pat s = Some r -> String.length s = String.length pat + String.length r.
Proof.
  revert s. induction pat as [|a pat IH]; intros s; simpl.
  - now intros [= ->].
  - destruct s as [|b s]; [discriminate|].
    destruct (a =? b)%char; [|discriminate]. intros H. apply IH in H. simpl. lia.
Qed.

(** *** Numbers *)

Lemma scan_sign_app (s t : string) :
  all_ws t = true ->
  scan_sign (s ++ t) = (fst (scan_sign s), (snd (scan_sign s) ++ t)%string).
Proof.
  intros Ht. destruct s as [|c s]; simpl.
  - destruct t as [|c t]; [reflexivity|].
    apply all_ws_cons in Ht as [Hc _]. simpl. ws_cases Hc; reflexivity.
  - destruct (c =? "-")%char; reflexivity.
Qed.

Lemma scan_int_app (s t : string) :
  all_ws t = true -> scan_int (s ++ t) = extend t (scan_int s).
Proof.
  intros Ht. destruct s as [|c s]; simpl.
  - destruct t as [|c t]; [reflexivity|].
    apply all_ws_cons in Ht as [Hc _]. simpl. now rewrite (ws_not_digit c Hc).
  - destruct (is_digit c) eqn:Ed; [|reflexivity].
    destruct (c =? "0")%char; [reflexivity|].
    pose proof (span_digits_app (String c s) t "" Ht) as H. simpl in H.
    rewrite Ed in H. rewrite H.
    simpl. now destruct (span_digits s (String c "")).
Qed.

Lemma scan_frac_app (s t : string) :
  all_ws t = true ->
  scan_frac (s ++ t) = (fst (scan_frac s), (snd (scan_frac s) ++ t)%string).
Proof.
  intros Ht. destruct s as [|c s]; simpl.
  - destruct t as [|c t]; [reflexivity|].
    apply all_ws_cons in Ht as [Hc _]. simpl. ws_cases Hc; reflexivity.
  - destruct (c =? ".")%char; [|reflexivity].
    rewrite span_digits_app by exact Ht.
    destruct (span_digits s "") as [ds r']. simpl.
    destruct (PyStr.nonempty ds); reflexivity.
Qed.

Lemma scan_exp_sign_app (s t : string) :
  all_ws t = true ->
  scan_exp_sign (s ++ t) = (fst (scan_exp_sign s), (snd (scan_exp_sign s) ++ t)%string).
Proof.
  intros Ht. destruct s as [|c s]; simpl.
  - destruct t as [|c t]; [reflexivity|].
    apply all_ws_cons in Ht as [Hc _]. simpl. ws_cases Hc; reflexivity.
  - destruct ((c =? "+")%char || (c =? "-")%char); reflexivity.
Qed.

Lemma scan_exp_app (s t : string) :
  all_ws t = true ->
  scan_exp (s ++ t) = (fst (scan_exp s), (snd (scan_exp s) ++ t)%string).
Proof.
  intros Ht. destruct s as [|c s]; simpl.
  - destruct t as [|c t]; [reflexivity|].
    apply all_ws_cons in Ht as [Hc _]. simpl. ws_cases Hc; reflexivity.
  - destruct ((c =? "e")%char || (c =? "E")%char); [|reflexivity].
    rewrite scan_exp_sign_app by exact Ht.
    destruct (scan_exp_sign s) as [esign r1]. simpl.
    rewrite span_digits_app by exact Ht.
    destruct (span_digits r1 "") as [ds r2]. simpl.
    destruct (PyStr.nonempty ds); reflexivity.
Qed.

Lemma scan_number_app (s t : string) :
  all_ws t = true -> scan_number (s ++ t) = extend t (scan_number s).
Proof.
  intros Ht. unfold scan_number.
  rewrite scan_sign_app by exact Ht.
  destruct (scan_sign s) as [sign s1]. simpl.
  rewrite scan_int_app by exact Ht.
  destruct (scan_int s1) as [[int_digits rest]|]; [|reflexivity]. simpl.
  rewrite scan_frac_app by exact Ht.
  destruct (scan_frac rest) as [frac rest1]. simpl.
  rewrite scan_exp_app by exact Ht.
  destruct (scan_exp rest1) as [exp rest2]. simpl.
  destruct (PyStr.nonempty frac || PyStr.nonempty exp); reflexivity.
Qed.

Lemma scan_sign_length (s : string) :
  String.length (snd (scan_sign s)) <= String.length s.
Proof.
  destruct s as [|c s]; simpl; [lia|]. destruct (c =? "-")%char; simpl; lia.
Qed.

Lemma scan_int_length (s digits r : string) :
  scan_int s = Some (digits, r) -> String.length r < String.length s.
Proof.
  destruct s as [|c s]; simpl; [discriminate|].
  destruct (is_digit c); [|discriminate].
  destruct (c =? "0")%char.
  - intros [= _ <-]. lia.
  - intros [= H]. pose proof (span_digits_length s (String c "")) as Hl.
    rewrite H in Hl. simpl in Hl. lia.
Qed.

Lemma scan_frac_length (s : string) :
  String.length (snd (scan_frac s)) <= String.length s.
Proof.
  destruct s as [|c s]; simpl; [lia|].
  destruct (c =? ".")%char; simpl; [|lia].
  pose proof (span_digits_length s "") as Hl.
  destruct (span_digits s "") as [ds r']. simpl in Hl.
  destruct (PyStr.nonempty ds); simpl; lia.
Qed.

Lemma scan_exp_sign_length (s : string) :
  String.length (snd (scan_exp_sign s)) <= String.length s.
Proof.
  destruct s as [|c s]; simpl; [lia|].
  destruct ((c =? "+")%char || (c =? "-")%char); simpl; lia.
Qed.

Lemma scan_exp_length (s : string) :
  String.length (snd (scan_exp s)) <= String.length s.
Proof.
  destruct s as [|c s]; simpl; [lia|].
  destruct ((c =? "e")%char || (c =? "E")%char); simpl; [|lia].
  pose proof (scan_exp_sign_length s) as H1.
  destruct (scan_exp_sign s) as [esign r1]. simpl in H1.
  pose proof (span_digits_length r1 "") as H2.
  destruct (span_digits r1 "") as [ds r2]. simpl in H2.
  destruct (PyStr.nonempty ds); simpl; lia.
Qed.

Lemma scan_number_length (s : string) (v : json) (r : string) :
  scan_number s = Some (v, r) -> String.length r < String.length s.
Proof.
  unfold scan_number.
  pose proof (scan_sign_length s) as H1.
  destruct (scan_sign s) as [sign s1]. simpl in H1.
  destruct (scan_int s1) as [[int_digits rest]|] eqn:Eint; [|discriminate].
  apply scan_int_length in Eint.
  pose proof (scan_frac_length rest) as H2.
  destruct (scan_frac rest) as [frac rest1]. simpl in H2.
  pose proof (scan_exp_length rest1) as H3.
  destruct (scan_exp rest1) as [exp rest2]. simpl in H3.
  destruct (PyStr.nonempty frac || PyStr.nonempty exp); intros [= _ <-]; lia.
Qed.

(** *** Strings *)

Lemma scan_string_ws (t : string) :
  all_ws t = true ->
  forall pending m acc, scan_string t pending m acc = None.
Proof.
  induction t as [|c t IH]; intros Ht pending m acc; [reflexivity|].
  apply all_ws_cons in Ht as [Hc Ht].
  ws_cases Hc; destruct m; simpl; try reflexivity; now apply IH.
Qed.

Lemma scan_string_app (s t : string) :
  all_ws t = true ->
  forall pending m acc,
    scan_string (s ++ t) pending m acc = extend t (scan_string s pending m acc).
Proof.
  intros Ht. induction s as [|c s IH]; intros pending m acc.
  - simpl. now apply scan_string_ws.
  - destruct m as [ | |todo v]; simpl.
    + destruct (c =? "\")%char; [apply IH|].
      destruct (c =? "034")%char; [reflexivity|].
      destruct (PyStr.code c <? 32)%N; [reflexivity | apply IH].
    + destruct (c =? "u")%char; [apply IH|].
      destruct (unescape c); [apply IH | reflexivity].
    + destruct (hex_digit c); [|reflexivity].
      destruct todo as [|[|todo]]; try apply IH.
      all: destruct (complete pending (v * 16 + n) acc); apply IH.
Qed.

Lemma scan_string_length (s : string) :
  forall pending m acc str r,
    scan_string s pending m acc = Some (str, r) -> String.length r < String.length s.
Proof.
  induction s as [|c s IH]; intros pending m acc str r; [discriminate|].
  assert (Hs : forall p' m' acc', scan_string s p' m' acc' = Some (str, r) ->
                                  String.length r < String.length (String c s)).
  { intros p' m' acc' H. apply IH in H. simpl. lia. }
  destruct m as [ | |todo v]; simpl.
  - destruct (c =? "\")%char; [apply Hs|].
    destruct (c =? "034")%char; [intros [= _ <-]; lia|].
    destruct (PyStr.code c <? 32)%N; [discriminate | apply Hs].
  - destruct (c =? "u")%char; [apply Hs|].
    destruct (unescape c); [apply Hs | discriminate].
  - destruct (hex_digit c); [|discriminate].
    destruct todo as [|[|todo]]; try apply Hs.
    all: destruct (complete pending (v * 16 + n) acc); apply Hs.
Qed.

(** *** Values *)

Lemma scan_once_ws (t : string) (fuel : nat) :
  all_ws t = true -> scan_once fuel t = None.
Proof.
  intros Ht. destruct fuel as [|fuel]; [reflexivity|].
  destruct t as [|c t]; [reflexivity|].
  apply all_ws_cons in Ht as [Hc _]. ws_cases Hc; reflexivity.
Qed.

Lemma scan_items_ws (t : string) (fuel : nat) (acc : list json) :
  all_ws t = true -> scan_items fuel t acc = None.
Proof.
  intros Ht. destruct fuel as [|fuel]; [reflexivity|].
  simpl. now rewrite scan_once_ws.
Qed.

Lemma skip_ws_app_cases (s t : string) :
  all_ws t = true ->
  (skip_ws s = "" /\ skip_ws (s ++ t) = "") \/
  (skip_ws s <> "" /\ skip_ws (s ++ t) = (skip_ws s ++ t)%string).
Proof.
  intros Ht. rewrite skip_ws_app by exact Ht.
  destruct (skip_ws s); [now left | right; split; [discriminate | reflexivity]].
Qed.

(** Whitespace after the input is left where it is, by all three
    scanners. *)
Lemma scan_app (t : string) (fuel : nat) :
  all_ws t = true ->
  (forall s, scan_once fuel (s ++ t) = extend t (scan_once fuel s)) /\
  (forall s acc, scan_items fuel (s ++ t) acc = extend t (scan_items fuel s acc)) /\
  (forall s acc, scan_members fuel (s ++ t) acc = extend t (scan_members fuel s acc)).
Proof.
  intros Ht. induction fuel as [|fuel (IHonce & IHitems & IHmembers)].
  - repeat split; reflexivity.
  - split; [|split].
    + intros [|c rest].
      * simpl append. now rewrite scan_once_ws.
      * change (String c rest ++ t)%string with (String c (rest ++ t)).
        cbn [scan_once].
        change (String c (rest ++ t)) with (String c rest ++ t)%string.
        rewrite !(drop_prefix_app _ (String c rest) t) by (reflexivity || exact Ht).
        rewrite scan_number_app by exact Ht.
        change (String c rest ++ t)%string with (String c (rest ++ t)).
        destruct (c =? "034")%char.
        { rewrite scan_string_app by exact Ht.
          now destruct (scan_string rest None Plain "") as [[str r]|]. }
        destruct (c =? "{")%char.
        { rewrite skip_ws_app by exact Ht.
          destruct (skip_ws rest) as [|c' r]; [reflexivity|].
          destruct (c' =? "}")%char; [reflexivity|].
          destruct (c' =? "034")%char; [apply IHmembers | reflexivity]. }
        destruct (c =? "[")%char.
        { rewrite skip_ws_app by exact Ht.
          destruct (skip_ws rest) as [|c' r]; [reflexivity|].
          destruct (c' =? "]")%char; [reflexivity|].
          apply (IHitems (String c' r)). }
        destruct (drop_prefix "null" (String c rest)); [reflexivity|].
        destruct (drop_prefix "true" (String c rest)); [reflexivity|].
        destruct (drop_prefix "false" (String c rest)); [reflexivity|].
        destruct (scan_number (String c rest)) as [[v r]|]; [reflexivity|].
        cbn [extend].
        destruct (drop_prefix "NaN" (String c rest)); [reflexivity|].
        destruct (drop_prefix "Infinity" (String c rest)); [reflexivity|].
        destruct (drop_prefix "-Infinity" (String c rest)); reflexivity.
    + intros s acc. cbn [scan_items]. rewrite IHonce.
      destruct (scan_once fuel s) as [[v r]|]; [|reflexivity]. cbn [extend].
      rewrite skip_ws_app by exact Ht.
      destruct (skip_ws r) as [|c r1]; [reflexivity|].
      destruct (c =? "]")%char; [reflexivity|].
      destruct (c =? ",")%char; [|reflexivity].
      destruct (skip_ws_app_cases r1 t Ht) as [[E1 E2]|[_ E2]]; rewrite E2.
      * rewrite E1. now rewrite !scan_items_ws.
      * apply IHitems.
    + intros s acc. cbn [scan_members]. rewrite scan_string_app by exact Ht.
      destruct (scan_string s None Plain "") as [[key r]|]; [|reflexivity].
      cbn [extend].
      rewrite skip_ws_app by exact Ht.
      destruct (skip_ws r) as [|c r1]; [reflexivity|].
      destruct (c =? ":")%char; [|reflexivity].
      assert (Hvalue : scan_once fuel (skip_ws (r1 ++ t)) =
                       extend t (scan_once fuel (skip_ws r1))).
      { destruct (skip_ws_app_cases r1 t Ht) as [[E1 E2]|[_ E2]]; rewrite E2.
        - rewrite E1. now rewrite !scan_once_ws.
        - apply IHonce. }
      rewrite Hvalue.
      destruct (scan_once fuel (skip_ws r1)) as [[v r2]|]; [|reflexivity].
      cbn [extend].
      rewrite skip_ws_app by exact Ht.
      destruct (skip_ws r2) as [|c' r3]; [reflexivity|].
      destruct (c' =? "}")%char; [reflexivity|].
      destruct (c' =? ",")%char; [|reflexivity].
      rewrite skip_ws_app by exact Ht.
      destruct (skip_ws r3) as [|c'' r4]; [reflexivity|].
      destruct (c'' =? "034")%char; [apply IHmembers | reflexivity].
Qed.

(** *** Fuel *)

Lemma skip_ws_cons_length (s r : string) (c : ascii) :
  skip_ws s = String c r -> String.length r < String.length s.
Proof.
  intros H. pose proof (skip_ws_length s) as Hl. rewrite H in Hl. simpl in Hl. lia.
Qed.

(** A scanner that returns has consumed input, and returns the same with
    any fuel that is twice the input it consumed. *)
Lemma scan_fuel (fuel : nat) :
  (forall s v r,
      scan_once fuel s = Some (v, r) ->
      String.length r < String.length s /\
      forall fuel', 2 * (String.length s - String.length r) <= fuel' ->
                    scan_once fuel' s = Some (v, r)) /\
  (forall s acc v r,
      scan_items fuel s acc = Some (v, r) ->
      String.length r < String.length s /\
      forall fuel', 2 * (String.length s - String.length r) <= fuel' ->
                    scan_items fuel' s acc = Some (v, r)) /\
  (forall s acc v r,
      scan_members fuel s acc = Some (v, r) ->
      String.length r < String.length s /\
      forall fuel', 2 * (String.length s - String.length r) <= fuel' ->
                    scan_members fuel' s acc = Some (v, r)).
Proof.
  induction fuel as [|fuel (IHonce & IHitems & IHmembers)].
  - repeat split; discriminate.
  - split; [|split].
    + intros [|c rest] v r; [discriminate|]. cbn [scan_once].
      destruct (c =? "034")%char eqn:Equote.
      { destruct (scan_string rest None Plain "") as [[str r']|] eqn:Estr; [|discriminate].
        intros [= <- <-]. apply scan_string_length in Estr as Hlen.
        split; [cbn [String.length] in *; lia|]. intros [|fuel'] Hfuel; [cbn [String.length] in *; lia|].
        cbn [scan_once]. now rewrite Equote, Estr. }
      destruct (c =? "{")%char eqn:Ebrace.
      { destruct (skip_ws rest) as [|c' r'] eqn:Eskip; [discriminate|].
        apply skip_ws_cons_length in Eskip as Hskip.
        destruct (c' =? "}")%char eqn:Eclose.
        { intros [= <- <-]. split; [cbn [String.length] in *; lia|].
          intros [|fuel'] Hfuel; [cbn [String.length] in *; lia|].
          cbn [scan_once]. now rewrite Equote, Ebrace, Eskip, Eclose. }
        destruct (c' =? "034")%char eqn:Ekey; [|discriminate].
        intros H. apply IHmembers in H as [Hlen Hmore].
        split; [cbn [String.length] in *; lia|]. intros [|fuel'] Hfuel; [cbn [String.length] in *; lia|].
        cbn [scan_once]. rewrite Equote, Ebrace, Eskip, Eclose, Ekey.
        apply Hmore. cbn [String.length] in *. lia. }
      destruct (c =? "[")%char eqn:Ebracket.
      { destruct (skip_ws rest) as [|c' r'] eqn:Eskip; [discriminate|].
        apply skip_ws_cons_length in Eskip as Hskip.
        destruct (c' =? "]")%char eqn:Eclose.
        { intros [= <- <-]. split; [cbn [String.length] in *; lia|].
          intros [|fuel'] Hfuel; [cbn [String.length] in *; lia|].
          cbn [scan_once]. now rewrite Equote, Ebrace, Ebracket, Eskip, Eclose. }
        intros H. apply IHitems in H as [Hlen Hmore]. cbn [String.length] in *.
        split; [cbn [String.length] in *; lia|]. intros [|fuel'] Hfuel; [cbn [String.length] in *; lia|].
        cbn [scan_once]. rewrite Equote, Ebrace, Ebracket, Eskip, Eclose.
        apply Hmore. cbn [String.length] in *. lia. }
      intros H.
      assert (Hlen : String.length r < String.length (String c rest)).
      { destruct (drop_prefix "null" (String c rest)) as [r0|] eqn:E1.
        { injection H as <- <-. apply drop_prefix_length in E1. cbn [String.length] in *. lia. }
        destruct (drop_prefix "true" (String c rest)) as [r0|] eqn:E2.
        { injection H as <- <-. apply drop_prefix_length in E2. cbn [String.length] in *. lia. }
        destruct (drop_prefix "false" (String c rest)) as [r0|] eqn:E3.
        { injection H as <- <-. apply drop_prefix_length in E3. cbn [String.length] in *. lia. }
        destruct (scan_number (String c rest)) as [[v0 r0]|] eqn:E4.
        { injection H as <- <-. now apply scan_number_length in E4. }
        destruct (drop_prefix "NaN" (String c rest)) as [r0|] eqn:E5.
        { injection H as <- <-. apply drop_prefix_length in E5. cbn [String.length] in *. lia. }
        destruct (drop_prefix "Infinity" (String c rest)) as [r0|] eqn:E6.
        { injection H as <- <-. apply drop_prefix_length in E6. cbn [String.length] in *. lia. }
        destruct (drop_prefix "-Infinity" (String c rest)) as [r0|] eqn:E7; [|discriminate].
        injection H as <- <-. apply drop_prefix_length in E7. cbn [String.length] in *. lia. }
      split; [exact Hlen|]. intros [|fuel'] Hfuel; [cbn [String.length] in *; lia|].
      cbn [scan_once]. rewrite Equote, Ebrace, Ebracket. exact H.
    + intros s acc v r. cbn [scan_items].
      destruct (scan_once fuel s) as [[v1 r1]|] eqn:Eonce; [|discriminate].
      apply IHonce in Eonce as [Hlen1 Hmore1].
      destruct (skip_ws r1) as [|c r2] eqn:Eskip; [discriminate|].
      apply skip_ws_cons_length in Eskip as Hskip.
      destruct (c =? "]")%char eqn:Eclose.
      { intros [= <- <-]. split; [lia|].
        intros [|fuel'] Hfuel; [lia|].
        cbn [scan_items]. rewrite Hmore1 by lia. now rewrite Eskip, Eclose. }
      destruct (c =? ",")%char eqn:Ecomma; [|discriminate].
      intros H. apply IHitems in H as [Hlen2 Hmore2].
      pose proof (skip_ws_length r2) as Hskip2.
      split; [lia|]. intros [|fuel'] Hfuel; [lia|].
      cbn [scan_items]. rewrite Hmore1 by lia. rewrite Eskip, Eclose, Ecomma.
      apply Hmore2. lia.
    + intros s acc v r. cbn [scan_members].
      destruct (scan_string s None Plain "") as [[key r0]|] eqn:Ekey; [|discriminate].
      apply scan_string_length in Ekey as Hkey.
      destruct (skip_ws r0) as [|c r1] eqn:Eskip; [discriminate|].
      apply skip_ws_cons_length in Eskip as Hskip.
      destruct (c =? ":")%char eqn:Ecolon; [|discriminate].
      pose proof (skip_ws_length r1) as Hskip1.
      destruct (scan_once fuel (skip_ws r1)) as [[v1 r2]|] eqn:Eonce; [|discriminate].
      apply IHonce in Eonce as [Hlen1 Hmore1].
      destruct (skip_ws r2) as [|c' r3] eqn:Eskip2; [discriminate|].
      apply skip_ws_cons_length in Eskip2 as Hskip2.
      destruct (c' =? "}")%char eqn:Eclose.
      { intros [= <- <-]. split; [lia|].
        intros [|fuel'] Hfuel; [lia|].
        cbn [scan_members]. rewrite Ekey, Eskip, Ecolon.
        rewrite Hmore1 by lia. now rewrite Eskip2, Eclose. }
      destruct (c' =? ",")%char eqn:Ecomma; [|discriminate].
      destruct (skip_ws r3) as [|c'' r4] eqn:Eskip3; [discriminate|].
      apply skip_ws_cons_length in Eskip3 as Hskip3.
      destruct (c'' =? "034")%char eqn:Enext; [|discriminate].
      intros H. apply IHmembers in H as [Hlen2 Hmore2].
      split; [lia|]. intros [|fuel'] Hfuel; [lia|].
      cbn [scan_members]. rewrite Ekey, Eskip, Ecolon.
      rewrite Hmore1 by lia. rewrite Eskip2, Eclose, Ecomma, Eskip3, Enext.
      apply Hmore2. lia.
Qed.

(** With fuel for twice the input, the result does not depend on the
    fuel. *)
Lemma scan_once_enough (s : string) (fuel fuel' : nat) :
  2 * String.length s <= fuel ->
  2 * String.length s <= fuel' ->
  scan_once fuel s = scan_once fuel' s.
Proof.
  intros Hf Hf'.
  destruct (scan_once fuel s) as [[v r]|] eqn:E.
  - destruct (proj1 (scan_fuel fuel) s v r E) as [Hlen Hmore].
    symmetry. apply Hmore. lia.
  - destruct (scan_once fuel' s) as [[v r]|] eqn:E'; [|reflexivity].
    destruct (proj1 (scan_fuel fuel') s v r E') as [Hlen Hmore].
    rewrite Hmore in E by lia. discriminate.
Qed.

(** The fuel [json.loads] gives is enough: more changes nothing. *)
Lemma json_loads_fuel (s : string) (fuel : nat) :
  2 * String.length s + 2 <= fuel ->
  scan_once fuel (skip_ws s) = scan_once (2 * String.length s + 2) (skip_ws s).
Proof.
  intros H. pose proof (skip_ws_length s) as Hskip.
  apply scan_once_enough; lia.
Qed.

(** *** [json.loads] *)

Lemma json_loads_ws (lead s trail : string) :
  all_ws lead = true ->
  all_ws trail = true ->
  json_loads (lead ++ s ++ trail) = json_loads s.
Proof.
  intros Hlead Htrail. unfold json_loads.
  rewrite skip_ws_lead by exact Hlead.
  rewrite !append_length.
  pose proof (skip_ws_length s) as Hskip.
  destruct (skip_ws_app_cases s trail Htrail) as [[E1 E2]|[_ E2]]; rewrite E2.
  - rewrite E1. now rewrite !scan_once_ws.
  - rewrite (proj1 (scan_app trail _ Htrail)).
    rewrite (scan_once_enough (skip_ws s) _ (2 * String.length s + 2)) by lia.
    destruct (scan_once (2 * String.length s + 2) (skip_ws s)) as [[v r]|]; [|reflexivity].
    cbn [extend]. rewrite skip_ws_app by exact Htrail.
    now destruct (skip_ws r).
Qed.

End TrailingWhitespace.

(** ** Removing the fence markers *)

Lemma startswith_app (pat s t : string) :
  PyStr.no_suffix_starts pat t = true ->
  PyStr.startswith (s ++ t) pat = PyStr.startswith s pat.
Proof.
  revert s. induction pat as [|a pat IH]; intros s H; [reflexivity|].
  cbn [PyStr.no_suffix_starts] in H. apply andb_true_iff in H as [Hhere Hlater].
  destruct s as [|b s].
  - simpl append. apply negb_true_iff in Hhere. rewrite Hhere. reflexivity.
  - simpl. now rewrite IH.
Qed.

Lemma startswith_app_true (pat s t : string) :
  PyStr.startswith s pat = true -> PyStr.startswith (s ++ t) pat = true.
Proof.
  revert s. induction pat as [|a pat IH]; intros s H; [reflexivity|].
  destruct s as [|b s]; [discriminate|]. simpl in *.
  apply andb_true_iff in H as [Hab Hrest]. rewrite Hab. now apply IH.
Qed.

Lemma startswith_length (pat s : string) :
  PyStr.startswith s pat = true -> String.length pat <= String.length s.
Proof.
  revert s. induction pat as [|a pat IH]; intros s H; [simpl; lia|].
  destruct s as [|b s]; [discriminate|]. simpl in *.
  apply andb_true_iff in H as [_ Hrest]. apply IH in Hrest. lia.
Qed.

(** Text that no occurrence can reach into, and that holds none, comes
    out as it is. *)
Lemma remove_from_app (pat s t : string) (k : nat) :
  PyStr.no_suffix_starts pat t = true ->
  PyStr.remove_from pat t 0 = t ->
  k <= String.length s ->
  PyStr.remove_from pat (s ++ t) k = (PyStr.remove_from pat s k ++ t)%string.
Proof.
  intros Hsuffix Hclean. revert k.
  induction s as [|a s IH]; intros k Hk.
  - simpl in Hk. replace k with 0 by lia. exact Hclean.
  - destruct k as [|k].
    + change (String a s ++ t)%string with (String a (s ++ t)).
      cbn [PyStr.remove_from].
      change (String a (s ++ t)) with (String a s ++ t)%string.
      rewrite startswith_app by exact Hsuffix.
      change (String a s ++ t)%string with (String a (s ++ t)).
      destruct (PyStr.startswith (String a s) pat) eqn:E.
      * apply startswith_length in E. cbn [String.length] in E.
        apply IH. lia.
      * cbn [append]. f_equal. apply IH. lia.
    + cbn [append PyStr.remove_from]. apply IH. cbn [String.length] in Hk. lia.
Qed.

Lemma remove_from_lead (pat lead s : string) :
  (forall c rest, JsonDecoder.is_ws c = true -> PyStr.startswith (String c rest) pat = false) ->
  JsonDecoder.all_ws lead = true ->
  PyStr.remove_from pat (lead ++ s) 0 = (lead ++ PyStr.remove_from pat s 0)%string.
Proof.
  intros Hpat. induction lead as [|c lead IH]; intros Hlead; [reflexivity|].
  simpl in Hlead. apply andb_true_iff in Hlead as [Hc Hlead].
  cbn [append PyStr.remove_from]. rewrite Hpat by exact Hc.
  f_equal. now apply IH.
Qed.

Lemma ws_not_backtick (c : ascii) (rest pat : string) :
  JsonDecoder.is_ws c = true -> PyStr.startswith (String c rest) (String "`" pat) = false.
Proof.
  intros H. apply is_ws_cases in H as [-> | [-> | [-> | ->]]]; reflexivity.
Qed.

Lemma no_suffix_starts_ws (pat t : string) :
  JsonDecoder.no_ws pat = true ->
  JsonDecoder.all_ws t = true ->
  PyStr.no_suffix_starts pat t = true.
Proof.
  intros Hpat Ht. induction pat as [|a pat IH]; [reflexivity|].
  simpl in Hpat. apply andb_true_iff in Hpat as [Ha Hpat].
  cbn [PyStr.no_suffix_starts]. rewrite IH by exact Hpat. rewrite andb_true_r.
  apply negb_true_iff. destruct t as [|c t]; [reflexivity|].
  simpl in Ht. apply andb_true_iff in Ht as [Hc _]. simpl.
  destruct (Ascii.eqb_spec a c) as [->|]; [|reflexivity].
  now rewrite Hc in Ha.
Qed.

Lemma remove_from_ws (pat t : string) :
  JsonDecoder.all_ws t = true ->
  PyStr.remove_from (String "`" pat) t 0 = t.
Proof.
  intros Ht. pose proof (remove_from_lead (String "`" pat) t "") as H.
  cbn [PyStr.remove_from] in H. rewrite !append_nil_r in H. apply H; [|exact Ht].
  intros c rest Hc. now apply ws_not_backtick.
Qed.

(** Whitespace around a text stays around it when a marker is removed. *)
Lemma remove_all_ws (pat lead s trail : string) :
  JsonDecoder.no_ws (String "`" pat) = true ->
  JsonDecoder.all_ws lead = true ->
  JsonDecoder.all_ws trail = true ->
  PyStr.remove_all (String "`" pat) (lead ++ s ++ trail) =
    (lead ++ PyStr.remove_all (String "`" pat) s ++ trail)%string.
Proof.
  intros Hpat Hlead Htrail. unfold PyStr.remove_all.
  rewrite remove_from_lead; [|intros; now apply ws_not_backtick | exact Hlead].
  rewrite remove_from_app; [reflexivity | | | lia].
  - now apply no_suffix_starts_ws.
  - now apply remove_from_ws.
Qed.

(** A closing fence after the text goes away with the other fences. *)
Lemma remove_closing_fence (d : string) (k : nat) :
  k <= String.length d ->
  PyStr.remove_from "```" (d ++ "```") k = PyStr.remove_from "```" d k.
Proof.
  revert k. induction d as [|a d IH]; intros k Hk.
  - simpl in Hk. replace k with 0 by lia. reflexivity.
  - destruct k as [|k].
    2:{ cbn [append PyStr.remove_from]. apply IH. cbn [String.length] in Hk. lia. }
    change (String a d ++ "```")%string with (String a (d ++ "```")).
    cbn [PyStr.remove_from].
    destruct (PyStr.startswith (String a d) "```") eqn:E.
    + change (String a (d ++ "```")) with (String a d ++ "```")%string.
      rewrite startswith_app_true by exact E.
      apply startswith_length in E. apply IH. cbn [String.length] in *. lia.
    + destruct (PyStr.startswith (String a (d ++ "```")) "```") eqn:E'.
      * (* the occurrence begins in [d] and ends in the closing fence *)
        simpl in E, E'.
        destruct d as [|b [|c d]]; simpl in E, E'.
        -- apply andb_true_iff in E' as [Ha _]. apply Ascii.eqb_eq in Ha. subst a.
           reflexivity.
        -- apply andb_true_iff in E' as [Ha E']. apply andb_true_iff in E' as [Hb _].
           apply Ascii.eqb_eq in Ha, Hb. subst a b. reflexivity.
        -- rewrite E' in E. discriminate.
      * f_equal. apply IH. lia.
Qed.

Lemma strip_fenced (content : string) :
  PyStr.strip (ResponseParser.fenced content) = ResponseParser.fenced content.
Proof.
  unfold PyStr.strip, PyStr.rstrip, ResponseParser.fenced.
  change (PyStr.lstrip ("```json" ++ content ++ "```"))
    with ("```json" ++ content ++ "```")%string.
  rewrite <- (rev_involutive ("```json" ++ content ++ "```")) at 2.
  f_equal.
  rewrite !rev_append.
  change (PyStr.rev "```") with "```".
  rewrite append_assoc. reflexivity.
Qed.

(** The clean-up of a fenced response removes the markers of the content
    too, and none of its whitespace. *)
Lemma clean_fenced (content : string) :
  ResponseParser.clean_response (ResponseParser.fenced content) =
    PyStr.remove_all "```" (PyStr.remove_all "```json" content).
Proof.
  unfold ResponseParser.clean_response. rewrite strip_fenced.
  unfold ResponseParser.fenced, PyStr.remove_all.
  change (PyStr.remove_from "```json" ("```json" ++ content ++ "```") 0)
    with (PyStr.remove_from "```json" (content ++ "```") 0).
  rewrite remove_from_app; [| reflexivity | reflexivity | lia].
  apply remove_closing_fence. lia.
Qed.

(** ** The brace block and whitespace *)

Lemma all_ws_app (a b : string) :
  JsonDecoder.all_ws (a ++ b) = JsonDecoder.all_ws a && JsonDecoder.all_ws b.
Proof.
  induction a as [|c a IH]; [reflexivity|]. simpl. now rewrite IH, andb_assoc.
Qed.

Lemma all_ws_rev (t : string) :
  JsonDecoder.all_ws t = true -> JsonDecoder.all_ws (PyStr.rev t) = true.
Proof.
  induction t as [|c t IH]; [reflexivity|]. simpl. intros H.
  apply andb_true_iff in H as [Hc Ht].
  rewrite rev_cons, all_ws_app, IH by exact Ht. simpl. now rewrite Hc.
Qed.

Lemma from_first_ws (c : ascii) (lead s : string) :
  JsonDecoder.is_ws c = false ->
  JsonDecoder.all_ws lead = true ->
  ResponseParser.from_first c (lead ++ s) = ResponseParser.from_first c s.
Proof.
  intros Hc. induction lead as [|a lead IH]; [reflexivity|]. simpl. intros H.
  apply andb_true_iff in H as [Ha Hlead].
  destruct (Ascii.eqb_spec a c) as [->|]; [congruence | now apply IH].
Qed.

Lemma from_first_app (c : ascii) (s t : string) :
  JsonDecoder.is_ws c = false ->
  JsonDecoder.all_ws t = true ->
  ResponseParser.from_first c (s ++ t) =
    match ResponseParser.from_first c s with
    | Some r => Some (r ++ t)%string
    | None => None
    end.
Proof.
  intros Hc Ht. induction s as [|a s IH]; simpl.
  - pose proof (from_first_ws c t "" Hc Ht) as H. now rewrite append_nil_r in H.
  - destruct (a =? c)%char; [reflexivity | exact IH].
Qed.

Lemma upto_last_app (c : ascii) (s t : string) :
  JsonDecoder.is_ws c = false ->
  JsonDecoder.all_ws t = true ->
  ResponseParser.upto_last c (s ++ t) = ResponseParser.upto_last c s.
Proof.
  intros Hc Ht. unfold ResponseParser.upto_last.
  rewrite rev_append, from_first_ws; [reflexivity | exact Hc | now apply all_ws_rev].
Qed.

Lemma from_first_head (c : ascii) (s r : string) :
  ResponseParser.from_first c s = Some r -> exists rest, r = String c rest.
Proof.
  induction s as [|a s IH]; simpl; [discriminate|].
  destruct (Ascii.eqb_spec a c) as [->|]; [|exact IH].
  intros [= <-]. now exists s.
Qed.

Lemma search_braces_ws (lead s trail : string) :
  JsonDecoder.all_ws lead = true ->
  JsonDecoder.all_ws trail = true ->
  ResponseParser.search_braces (lead ++ s ++ trail) = ResponseParser.search_braces s.
Proof.
  intros Hlead Htrail. unfold ResponseParser.search_braces.
  rewrite from_first_ws, from_first_app by (reflexivity || assumption).
  destruct (ResponseParser.from_first "{" s) as [r|] eqn:E; [|reflexivity].
  apply from_first_head in E as [rest ->]. cbn [append].
  now rewrite upto_last_app.
Qed.

Lemma decode_ws (lead s trail : string) :
  JsonDecoder.all_ws lead = true ->
  JsonDecoder.all_ws trail = true ->
  ResponseParser.decode (lead ++ s ++ trail) = ResponseParser.decode s.
Proof.
  intros Hlead Htrail. unfold ResponseParser.decode.
  now rewrite json_loads_ws, search_braces_ws.
Qed.

(** ** Fenced responses *)

(** C4, as the code has it: for every content from which [str.strip]
    removes only whitespace of the JSON decoder (spaces, tabs, line feeds,
    carriage returns), the response in a json fence parses to the same
    dict, or fails the same way, as the content. *)
Theorem fenced_response_parses_like_content (content : string) :
  ResponseParser.edges_are_json_ws content ->
  ResponseParser.parse (ResponseParser.fenced content) = ResponseParser.parse content.
Proof.
  intros (lead & trail & Hlead & Htrail & Hcontent).
  unfold ResponseParser.parse. rewrite clean_fenced.
  unfold ResponseParser.clean_response.
  remember (PyStr.strip content) as core eqn:Hcore. clear Hcore. subst content.
  rewrite !remove_all_ws by (reflexivity || assumption).
  now rewrite decode_ws.
Qed.

(** The usual fenced reply: the JSON text on a line of its own. *)
Lemma fenced_response_parses_like_content_witness :
  let content :=
    (String "010" "" ++ Scenario.title_reply ++ String "010" "")%string in
  ResponseParser.parse (ResponseParser.fenced content) = ResponseParser.parse content /\
  ResponseParser.parse content = inr [("title", JStr "T")].
Proof.
  split; [|vm_compute; reflexivity].
  apply fenced_response_parses_like_content.
  exists (String "010" ""), (String "010" "").
  repeat split; vm_compute; reflexivity.
Defined.

(** A form feed before the JSON text: [str.strip] removes it from the bare
    content, and [[]] parses to an empty dict; inside the fence it stays,
    the decoder refuses it and there is no brace block to fall back on. *)
Lemma fenced_form_feed_differs :
  let content := (Scenario.FF ++ "[]")%string in
  ResponseParser.parse content = inr [] /\
  ResponseParser.parse (ResponseParser.fenced content) = inl ResponseParser.NoJsonFound /\
  ResponseParser.parse (ResponseParser.fenced content) <> ResponseParser.parse content.
Proof. vm_compute. repeat split. discriminate. Qed.

(** The same two replies seen from [process_file]: the bare one gives a
    result, the fenced one loses the document. *)
Lemma fenced_form_feed_loses_document :
  fst (run_process_file (Scenario.form_feed_reply false) "article.pdf" Scenario.schema true)
    = Some [("filename", JStr "article.pdf"); ("processing_mode", JStr "text")] /\
  fst (run_process_file (Scenario.form_feed_reply true) "article.pdf" Scenario.schema true)
    = None /\
  In (Print (MsgNoJsonFound "article.pdf"))
    (snd (run_process_file (Scenario.form_feed_reply true) "article.pdf" Scenario.schema
            true)).
Proof. vm_compute. intuition. Qed.

(** * Further properties of the code *)

(** ** Computations and their traces *)

Lemma framed_ret {A : Type} (a : A) : framed (ret a).
Proof. intros tr. unfold ret. simpl. now rewrite app_nil_r. Qed.

Lemma framed_return {A : Type} (r : option dict) : framed (return_ (A := A) r).
Proof. intros tr. unfold return_. simpl. now rewrite app_nil_r. Qed.

Lemma framed_raise {A : Type} (e : exn) : framed (raise (A := A) e).
Proof. intros tr. unfold raise. simpl. now rewrite app_nil_r. Qed.

Lemma framed_emit (e : event) : framed (emit e).
Proof. intros tr. reflexivity. Qed.

Lemma framed_print (m : message) : framed (print m).
Proof. apply framed_emit. Qed.

Lemma framed_bind {A B : Type} (m : M A) (k : A -> M B) :
  framed m -> (forall a, framed (k a)) -> framed (bind m k).
Proof.
  intros Hm Hk tr. unfold bind.
  rewrite (Hm tr). destruct (m []) as [[a|r|e] t]; simpl.
  - rewrite (Hk a (tr ++ t)), (Hk a t). simpl. now rewrite app_assoc.
  - reflexivity.
  - reflexivity.
Qed.

Lemma framed_try_except {A : Type} (body : M A) (handler : exn -> M A) :
  framed body -> (forall e, framed (handler e)) -> framed (try_except body handler).
Proof.
  intros Hb Hh tr. unfold try_except.
  rewrite (Hb tr). destruct (body []) as [[a|r|e] t]; simpl; try reflexivity.
  rewrite (Hh e (tr ++ t)), (Hh e t). simpl. now rewrite app_assoc.
Qed.

Lemma framed_call {A : Type} (body : M A) : framed body -> framed (call body).
Proof.
  intros Hb tr. unfold call.
  rewrite (Hb tr). destruct (body []) as [[a|r|e] t]; reflexivity.
Qed.

Lemma framed_external {A : Type} (e : event) (result : option A) :
  framed (external e result).
Proof.
  unfold external. apply framed_bind; [apply framed_emit|].
  intros _. destruct result; [apply framed_ret | apply framed_raise].
Qed.

Lemma framed_external_os {A : Type} (e : event) (result : option A) (text : string) :
  framed (external_os e result text).
Proof.
  unfold external_os. apply framed_bind; [apply framed_emit|].
  intros _. destruct result; [apply framed_ret | apply framed_raise].
Qed.

Lemma framed_console_print (w : World) (markup : string) (m : message) :
  framed (console_print w markup m).
Proof.
  intros tr. unfold console_print.
  destruct (console_markup_error w markup); simpl; [now rewrite app_nil_r | reflexivity].
Qed.

Lemma framed_print_error (w : World) (markup : string -> string) (e : exn) (m : message) :
  framed (print_error w markup e m).
Proof.
  unfold print_error. destruct (exn_text e); [apply framed_console_print | apply framed_print].
Qed.

Lemma framed_get_all_text (pages : list (option string)) (text : string) :
  framed (get_all_text pages text).
Proof.
  revert text. induction pages as [|[page|] pages IH]; intros text; simpl.
  - apply framed_ret.
  - apply IH.
  - apply framed_raise.
Qed.

Create HintDb framed.
#[local] Hint Resolve framed_ret framed_return framed_raise framed_emit framed_print
  framed_external framed_external_os framed_console_print framed_print_error
  framed_get_all_text : framed.

Ltac framed_step :=
  match goal with
  | |- framed (bind _ _) => apply framed_bind; [|intros ?]
  | |- framed (try_except _ _) => apply framed_try_except; [|intros ?]
  | |- framed (call _) => apply framed_call
  | |- framed (if ?b then _ else _) => destruct b
  | |- framed (match ?x with _ => _ end) => destruct x
  | |- framed _ => solve [auto with framed]
  end.

Lemma framed_process_file (w : World) (file_path : string) (schema : dict)
    (text_mode : bool) :
  framed (process_file w file_path schema text_mode).
Proof.
  unfold process_file, file_mode, text_mode_, finish. repeat framed_step.
Qed.

Lemma framed_process_pdf (w : World) (subject_tree file_path : string) :
  framed (Ceeol.process_pdf w subject_tree file_path).
Proof.
  unfold Ceeol.process_pdf. repeat framed_step.
Qed.

(** ** One document *)




(** The model answers [no json [/x]] in text mode: the line that shows the
    reply is refused, and so is the line of the outer handler, which
    quotes the first error. *)
Example stray_closing_tag_ends_process_file :
  process_file Cases.stray_closing_tag "article.pdf" Scenario.schema true [] =
    (Raised (MarkupError "closing tag '[/x]' at position 68 doesn't match any open tag"),
     [OpenPdf "article.pdf";
      GenerateContent
        (TEXT_MODE_PROMPT "Title and text" (JStr "No specific context provided.")
           (JList [JDict [("name", JStr "title")]]))
        None;
      Print (MsgNoJsonFound "article.pdf")]) /\
  console_markup_error Cases.stray_closing_tag (Markup.raw_response 500 "no json [/x]") =
    Some "closing tag '[/x]' at position 33 doesn't match any open tag".
Proof. vm_compute. split; reflexivity. Qed.

(** X2: one document costs at most one upload, one model call and one
    deletion: nothing is tried twice. *)
Theorem one_call_per_document (w : World) (file_path : string) (schema : dict)
    (text_mode : bool) :
  let tr := snd (run_process_file w file_path schema text_mode) in
  count is_upload tr <= 1 /\ count is_generate tr <= 1 /\ count is_delete tr <= 1.
Proof.
  destruct text_mode; unfold_run; run_cases; unfold count; simpl; repeat split; lia.
Qed.

(** X6: the two modes do not mix: a text-mode run never asks for the file
    size, uploads or deletes, and a file-mode run never opens the PDF
    locally. *)
Theorem modes_do_not_mix (w : World) (file_path : string) (schema : dict) :
  forallb (fun e => negb (is_file_mode_event e))
    (snd (run_process_file w file_path schema true)) = true /\
  forallb (fun e => negb (is_text_mode_event e))
    (snd (run_process_file w file_path schema false)) = true.
Proof.
  split; unfold_run; run_cases; reflexivity.
Qed.

Ltac in_trace H :=
  simpl in H;
  repeat match type of H with
         | _ \/ _ => destruct H as [H|H]
         | False => destruct H
         | _ = _ => first [discriminate H | injection H; intros; subst; clear H]
         end.
(** X3: what reaches the model.  In file mode the prompt is the file
    template with the context and the fields of the schema (the default
    context when the schema has none), and the document goes beside it as
    the staged file the upload returned.  In text mode no file goes with
    the prompt; the prompt embeds the text of all pages, which is not
    blank. *)
Theorem model_call_contents (w : World) (file_path : string) (schema : dict)
    (prompt : prompt) (file : option string) :
  let context :=
    Dict.get_default schema "additional_context" (JStr "No specific context provided.") in
  let fields := Dict.get_default schema "fields" (JList []) in
  (In (GenerateContent prompt file) (snd (run_process_file w file_path schema false)) ->
   prompt = FILE_MODE_PROMPT context fields /\
   exists staged, genai_upload_file w file_path = Some staged /\ file = Some staged) /\
  (In (GenerateContent prompt file) (snd (run_process_file w file_path schema true)) ->
   file = None /\
   exists doc text,
     pymupdf_open w file_path = Some doc /\
     get_all_text (page_texts doc) "" [] = (Next text, []) /\
     PyStr.strip text <> "" /\
     prompt = TEXT_MODE_PROMPT text context fields).
Proof.
  intros context fields. split.
  - unfold_run. run_cases; intros H; in_trace H; split; eauto.
  - unfold_run.
    destruct (pymupdf_open w file_path) as [doc|] eqn:Hopen; simpl;
      [|run_cases; intros H; in_trace H].
    rewrite (framed_get_all_text (page_texts doc) "" [OpenPdf file_path]).
    destruct (get_all_text_signal (page_texts doc) "" []) as [[text Ht]|Ht];
      rewrite Ht; simpl; [|intros H; in_trace H].
    destruct (PyStr.strip text) eqn:Hstrip; simpl; [intros H; in_trace H|].
    run_cases; intros H; in_trace H; (split; [reflexivity|]);
      exists doc, text; rewrite Hstrip; repeat split;
      try assumption; try reflexivity; discriminate.
Qed.

Lemma model_call_contents_witness :
  (exists staged,
     genai_upload_file Scenario.model_guesses_filename "docs/paper.pdf" = Some staged /\
     Some "files/abc" = Some staged) /\
  (exists doc text,
     pymupdf_open Scenario.text_mode_ok "papers/article.pdf" = Some doc /\
     get_all_text (page_texts doc) "" [] = (Next text, []) /\
     PyStr.strip text <> "" /\
     TEXT_MODE_PROMPT "Title and text" (JStr "No specific context provided.")
       (JList [JDict [("name", JStr "title")]]) =
     TEXT_MODE_PROMPT text (JStr "No specific context provided.")
       (JList [JDict [("name", JStr "title")]])).
Proof.
  split.
  - apply (proj1 (model_call_contents Scenario.model_guesses_filename "docs/paper.pdf"
                    Scenario.schema
                    (FILE_MODE_PROMPT (JStr "No specific context provided.")
                       (JList [JDict [("name", JStr "title")]]))
                    (Some "files/abc"))).
    vm_compute. tauto.
  - apply (proj2 (model_call_contents Scenario.text_mode_ok "papers/article.pdf"
                    Scenario.schema
                    (TEXT_MODE_PROMPT "Title and text" (JStr "No specific context provided.")
                       (JList [JDict [("name", JStr "title")]]))
                    None)).
    vm_compute. tauto.
Defined.





(** X7: the size limit is inclusive: in file mode the document is
    uploaded exactly when its size is at most 50 * 1024 * 1024 bytes. *)
Theorem upload_iff_within_limit (w : World) (file_path : string) (schema : dict)
    (size : Z) :
  os_path_getsize w file_path = Some size ->
  (In (UploadFile file_path) (snd (run_process_file w file_path schema false)) <->
   (size <= 52428800)%Z).
Proof.
  intros Hsize. unfold_run. rewrite Hsize. simpl.
  destruct (size >? GEMINI_MAX_FILE_SIZE_BYTES)%Z eqn:Hgt; simpl.
  - apply Z.gtb_lt in Hgt. unfold GEMINI_MAX_FILE_SIZE_BYTES, GEMINI_MAX_FILE_SIZE_MB in Hgt.
    split; [intros H; in_trace H | lia].
  - rewrite Z.gtb_ltb in Hgt. apply Z.ltb_ge in Hgt.
    unfold GEMINI_MAX_FILE_SIZE_BYTES, GEMINI_MAX_FILE_SIZE_MB in Hgt.
    split; [lia|]. intros _. run_cases; tauto.
Qed.

Lemma upload_iff_within_limit_witness :
  In (UploadFile "big.pdf")
    (snd (run_process_file Cases.at_the_limit "big.pdf" Scenario.schema false)).
Proof.
  apply (upload_iff_within_limit Cases.at_the_limit "big.pdf" Scenario.schema 52428800).
  - reflexivity.
  - lia.
Defined.

(** X9: in file mode a path that [os.path.getsize] refuses (no such file)
    ends the document at once, without an upload.  The outer handler
    prints the text of the error, which quotes the path: when that line
    renders, a processing error is printed and [None] is returned; when
    Rich refuses it, the [MarkupError] leaves [process_file]. *)
Theorem missing_file_is_a_processing_error (w : World) (file_path : string)
    (schema : dict) :
  os_path_getsize w file_path = None ->
  process_file w file_path schema false [] =
    match console_markup_error w
            (Markup.processing_error (OsPath.basename file_path)
               (getsize_error w file_path)) with
    | None =>
        (Next None,
         [GetSize file_path; Print (MsgProcessingError (OsPath.basename file_path))])
    | Some text => (Raised (MarkupError text), [GetSize file_path])
    end.
Proof.
  intros Hsize. unfold_run. rewrite Hsize. simpl.
  destruct (console_markup_error w _); reflexivity.
Qed.

(** The path [x[/b].pdf] does not exist: the error quotes it, and the
    line of the handler is refused. *)
Lemma missing_file_is_a_processing_error_witness :
  process_file Cases.missing_file "x[/b].pdf" Scenario.schema false [] =
    (Raised (MarkupError "closing tag '[/b]' at position 89 doesn't match any open tag"),
     [GetSize "x[/b].pdf"]) /\
  process_file Cases.missing_file "report.pdf" Scenario.schema false [] =
    (Next None, [GetSize "report.pdf"; Print (MsgProcessingError "report.pdf")]).
Proof.
  split.
  - rewrite (missing_file_is_a_processing_error Cases.missing_file "x[/b].pdf"
               Scenario.schema eq_refl).
    vm_compute. reflexivity.
  - rewrite (missing_file_is_a_processing_error Cases.missing_file "report.pdf"
               Scenario.schema eq_refl).
    vm_compute. reflexivity.
Defined.
(** ** What the decoder builds *)

Lemma distinct_NoDup (l : list string) : distinct l = true <-> NoDup l.
Proof.
  induction l as [|x l IH]; simpl.
  - split; [constructor | reflexivity].
  - rewrite andb_true_iff, negb_true_iff, IH. split.
    + intros [Hx Hl]. constructor; [|exact Hl].
      intros Hin. apply mem_in in Hin. congruence.
    + intros H. inversion H as [|? ? Hx Hl]; subst. split; [|exact Hl].
      destruct (StrSet.mem x l) eqn:E; [|reflexivity]. apply mem_in in E. contradiction.
Qed.

Lemma well_formed_of_items (items : list (string * json)) :
  forallb (fun kv => well_formed (snd kv)) items = true ->
  well_formed (JDict (Dict.of_items items)) = true.
Proof.
  intros H. simpl. apply andb_true_iff. split.
  - apply distinct_NoDup. apply (NoDup_keys_update items []). constructor.
  - apply forallb_forall. intros kv Hin.
    apply in_update in Hin as [[]|Hin].
    rewrite forallb_forall in H. now apply H.
Qed.

Lemma forallb_rev {A : Type} (f : A -> bool) (l : list A) :
  forallb f l = true -> forallb f (rev l) = true.
Proof.
  rewrite !forallb_forall. intros H x Hin. apply H. now apply in_rev.
Qed.

Lemma scan_number_well_formed (s : string) (v : json) (r : string) :
  JsonDecoder.scan_number s = Some (v, r) -> well_formed v = true.
Proof.
  unfold JsonDecoder.scan_number.
  destruct (JsonDecoder.scan_sign s) as [sign s1].
  destruct (JsonDecoder.scan_int s1) as [[int_digits rest]|]; [|discriminate].
  destruct (JsonDecoder.scan_frac rest) as [frac rest1].
  destruct (JsonDecoder.scan_exp rest1) as [exp rest2].
  destruct (PyStr.nonempty frac || PyStr.nonempty exp); intros [= <- _]; reflexivity.
Qed.

(** Every value the scanners return is well formed, given that the values
    read so far are. *)
Lemma scan_well_formed (fuel : nat) :
  (forall s v r, JsonDecoder.scan_once fuel s = Some (v, r) -> well_formed v = true) /\
  (forall s acc v r,
      JsonDecoder.scan_items fuel s acc = Some (v, r) ->
      forallb well_formed acc = true -> well_formed v = true) /\
  (forall s acc v r,
      JsonDecoder.scan_members fuel s acc = Some (v, r) ->
      forallb (fun kv => well_formed (snd kv)) acc = true -> well_formed v = true).
Proof.
  induction fuel as [|fuel (IHonce & IHitems & IHmembers)].
  - repeat split; discriminate.
  - split; [|split].
    + intros [|c rest] v r; [discriminate|]. cbn [JsonDecoder.scan_once].
      destruct (c =? "034")%char.
      { destruct (JsonDecoder.scan_string rest None JsonDecoder.Plain "") as [[str r']|];
          [|discriminate]. now intros [= <- _]. }
      destruct (c =? "{")%char.
      { destruct (JsonDecoder.skip_ws rest) as [|c' r']; [discriminate|].
        destruct (c' =? "}")%char; [now intros [= <- _]|].
        destruct (c' =? "034")%char; [|discriminate].
        intros H. now apply IHmembers in H. }
      destruct (c =? "[")%char.
      { destruct (JsonDecoder.skip_ws rest) as [|c' r']; [discriminate|].
        destruct (c' =? "]")%char; [now intros [= <- _]|].
        intros H. now apply IHitems in H. }
      destruct (JsonDecoder.drop_prefix "null" (String c rest)); [now intros [= <- _]|].
      destruct (JsonDecoder.drop_prefix "true" (String c rest)); [now intros [= <- _]|].
      destruct (JsonDecoder.drop_prefix "false" (String c rest)); [now intros [= <- _]|].
      destruct (JsonDecoder.scan_number (String c rest)) as [[v0 r0]|] eqn:E.
      { intros [= <- _]. now apply scan_number_well_formed in E. }
      destruct (JsonDecoder.drop_prefix "NaN" (String c rest)); [now intros [= <- _]|].
      destruct (JsonDecoder.drop_prefix "Infinity" (String c rest)); [now intros [= <- _]|].
      destruct (JsonDecoder.drop_prefix "-Infinity" (String c rest)); [|discriminate].
      now intros [= <- _].
    + intros s acc v r. cbn [JsonDecoder.scan_items].
      destruct (JsonDecoder.scan_once fuel s) as [[v1 r1]|] eqn:Eonce; [|discriminate].
      apply IHonce in Eonce.
      destruct (JsonDecoder.skip_ws r1) as [|c r2]; [discriminate|].
      destruct (c =? "]")%char.
      { intros [= <- _] Hacc. cbn [well_formed].
        apply (forallb_rev well_formed (v1 :: acc)). simpl. now rewrite Eonce. }
      destruct (c =? ",")%char; [|discriminate].
      intros H Hacc. apply IHitems in H; [exact H|]. simpl. now rewrite Eonce.
    + intros s acc v r. cbn [JsonDecoder.scan_members].
      destruct (JsonDecoder.scan_string s None JsonDecoder.Plain "") as [[key r0]|];
        [|discriminate].
      destruct (JsonDecoder.skip_ws r0) as [|c r1]; [discriminate|].
      destruct (c =? ":")%char; [|discriminate].
      destruct (JsonDecoder.scan_once fuel (JsonDecoder.skip_ws r1)) as [[v1 r2]|] eqn:Eonce;
        [|discriminate].
      apply IHonce in Eonce.
      destruct (JsonDecoder.skip_ws r2) as [|c' r3]; [discriminate|].
      destruct (c' =? "}")%char.
      { intros [= <- _] Hacc. apply well_formed_of_items.
        apply (forallb_rev (fun kv => well_formed (snd kv)) ((key, v1) :: acc)).
        simpl. now rewrite Eonce. }
      destruct (c' =? ",")%char; [|discriminate].
      destruct (JsonDecoder.skip_ws r3) as [|c'' r4]; [discriminate|].
      destruct (c'' =? "034")%char; [|discriminate].
      intros H Hacc. apply IHmembers in H; [exact H|]. simpl. now rewrite Eonce.
Qed.

Lemma json_loads_well_formed (s : string) (v : json) :
  JsonDecoder.json_loads s = Some v -> well_formed v = true.
Proof.
  unfold JsonDecoder.json_loads.
  destruct (JsonDecoder.scan_once _ _) as [[v0 r]|] eqn:E; [|discriminate].
  destruct (JsonDecoder.skip_ws r); [|discriminate].
  intros [= <-]. now apply (proj1 (scan_well_formed _)) in E.
Qed.

Lemma parse_well_formed (text : string) (extracted : dict) :
  ResponseParser.parse text = inr extracted -> NoDup (Dict.keys extracted).
Proof.
  unfold ResponseParser.parse, ResponseParser.decode.
  assert (Hdict : forall v, well_formed v = true ->
            ResponseParser.expect_dict (ResponseParser.unwrap_list v) = inr extracted ->
            NoDup (Dict.keys extracted)).
  { intros v Hv H.
    assert (Hu : well_formed (ResponseParser.unwrap_list v) = true).
    { destruct v as [ | | | | |[|first items]|]; try exact Hv.
      simpl in Hv. now apply andb_true_iff in Hv as [Hfirst _]. }
    destruct (ResponseParser.unwrap_list v); try discriminate.
    injection H as <-. simpl in Hu. apply andb_true_iff in Hu as [Hu _].
    now apply distinct_NoDup. }
  destruct (JsonDecoder.json_loads (ResponseParser.clean_response text)) as [v|] eqn:E.
  - apply Hdict. now apply json_loads_well_formed in E.
  - destruct (ResponseParser.search_braces _) as [block|]; [|discriminate].
    destruct (JsonDecoder.json_loads block) as [v|] eqn:E'; [|discriminate].
    apply Hdict. now apply json_loads_well_formed in E'.
Qed.

(** A document that succeeds returns what was parsed from the text of
    the reply that the model gave to the one call of the run. *)
Lemma process_file_reply (w : World) (file_path : string) (schema : dict)
    (text_mode : bool) (r : dict) (tr : list event) :
  run_process_file w file_path schema text_mode = (Some r, tr) ->
  exists prompt file text extracted,
    In (GenerateContent prompt file) tr /\
    generate_content w prompt file = Some (Some text) /\
    ResponseParser.parse text = inr extracted /\
    r = Dict.update extracted
          (file_metadata (OsPath.basename file_path) (if text_mode then "text" else "file")).
Proof.
  unfold run_process_file, process_file, call, try_except, bind.
  intros H.
  destruct text_mode; simpl in H.
  - unfold text_mode_, finish, bind, try_except, external, external_os, bind, emit, ret,
      raise, return_, print_error, console_print, print, emit in H. simpl in H.
    destruct (pymupdf_open w file_path) as [doc|]; simpl in H; [|repeat run_step].
    destruct (get_all_text_signal (page_texts doc) "" [OpenPdf file_path])
      as [[t Ht]|Ht]; rewrite Ht in H; simpl in H; [|discriminate].
    repeat run_step.
    all: simpl in *; subst.
    all: do 4 eexists; (split; [|split; [eassumption|split; [eassumption|reflexivity]]]).
    all: simpl; tauto.
  - unfold file_mode, finish, bind, try_except, external, external_os, bind, emit, ret,
      raise, return_, print_error, console_print, print, emit in H. simpl in H.
    repeat run_step.
    all: simpl in *; subst.
    all: do 4 eexists; (split; [|split; [eassumption|split; [eassumption|reflexivity]]]).
    all: simpl; tauto.
Qed.

(** X8: a returned result comes from the reply of the model: the run
    holds a call of the model, the model answered it with a text, and the
    result is what that text parses to, with distinct keys, holding every
    key of the parsed answer with its value, whether the schema names it
    or not, apart from [filename] and [processing_mode]; when the answer
    has neither, the result is the answer in its order followed by the
    two. *)
Theorem result_keeps_model_keys (w : World) (file_path : string) (schema : dict)
    (text_mode : bool) (r : dict) (tr : list event) :
  run_process_file w file_path schema text_mode = (Some r, tr) ->
  exists prompt file text extracted,
    In (GenerateContent prompt file) tr /\
    generate_content w prompt file = Some (Some text) /\
    ResponseParser.parse text = inr extracted /\
    NoDup (Dict.keys r) /\
    Dict.get r "filename" = Some (JStr (OsPath.basename file_path)) /\
    Dict.get r "processing_mode" = Some (JStr (if text_mode then "text" else "file")) /\
    (forall k, k <> "filename" -> k <> "processing_mode" ->
               Dict.get r k = Dict.get extracted k) /\
    (Dict.get extracted "filename" = None ->
     Dict.get extracted "processing_mode" = None ->
     r = extracted ++
           file_metadata (OsPath.basename file_path) (if text_mode then "text" else "file")).
Proof.
  intros Hrun.
  apply process_file_reply in Hrun
    as (prompt & file & text & extracted & Hcall & Hreply & Hparse & ->).
  pose proof (parse_well_formed text extracted Hparse) as Hnd.
  exists prompt, file, text, extracted.
  split; [exact Hcall|]. split; [exact Hreply|]. split; [exact Hparse|].
  split; [|split; [|split; [|split]]].
  - now apply NoDup_keys_update.
  - apply get_update_present; [|reflexivity].
    repeat constructor; simpl; intuition discriminate.
  - apply get_update_present; [|reflexivity].
    repeat constructor; simpl; intuition discriminate.
  - intros k H1 H2. apply get_update_absent. simpl. intuition congruence.
  - intros H1 H2. apply update_fresh.
    apply get_none_keys in H1, H2.
    apply NoDup_app; [exact Hnd | repeat constructor; simpl; intuition discriminate |].
    intros k Hin [<-|[<-|[]]]; contradiction.
Qed.

Lemma result_keeps_model_keys_witness :
  exists prompt file text extracted,
    In (GenerateContent prompt file)
      (snd (run_process_file Scenario.text_mode_ok "papers/article.pdf" Scenario.schema
              true)) /\
    generate_content Scenario.text_mode_ok prompt file = Some (Some text) /\
    ResponseParser.parse text = inr extracted /\
    NoDup (Dict.keys [("title", JStr "T"); ("filename", JStr "article.pdf");
                      ("processing_mode", JStr "text")]) /\
    Dict.get [("title", JStr "T"); ("filename", JStr "article.pdf");
              ("processing_mode", JStr "text")] "filename" =
      Some (JStr (OsPath.basename "papers/article.pdf")) /\
    Dict.get [("title", JStr "T"); ("filename", JStr "article.pdf");
              ("processing_mode", JStr "text")] "processing_mode" = Some (JStr "text") /\
    (forall k, k <> "filename" -> k <> "processing_mode" ->
               Dict.get [("title", JStr "T"); ("filename", JStr "article.pdf");
                         ("processing_mode", JStr "text")] k = Dict.get extracted k) /\
    (Dict.get extracted "filename" = None ->
     Dict.get extracted "processing_mode" = None ->
     [("title", JStr "T"); ("filename", JStr "article.pdf");
      ("processing_mode", JStr "text")] =
       extracted ++ file_metadata (OsPath.basename "papers/article.pdf") "text").
Proof.
  apply (result_keeps_model_keys Scenario.text_mode_ok "papers/article.pdf" Scenario.schema
           true _
           (snd (run_process_file Scenario.text_mode_ok "papers/article.pdf"
                   Scenario.schema true))).
  vm_compute. reflexivity.
Defined.

(** ** The results of a run *)

Lemma run_trace (w : World) (file_path : string) (schema : dict) (text_mode : bool) :
  snd (run_process_file w file_path schema text_mode) =
    snd (process_file w file_path schema text_mode []).
Proof.
  unfold run_process_file.
  now destruct (process_file w file_path schema text_mode []) as [[r|r|e] t].
Qed.




(** What the events of one document can be. *)
Lemma process_file_events (w : World) (file_path : string) (schema : dict)
    (text_mode : bool) (e : event) :
  In e (snd (run_process_file w file_path schema text_mode)) ->
  is_write e = false /\ is_success e = false /\ is_failed e = false /\
  (forall path, document_path e = Some path -> path = file_path).
Proof.
  destruct text_mode; unfold_run; run_cases; intros H; simpl in H;
    repeat (destruct H as [<-|H]); try destruct H; simpl; repeat split; congruence.
Qed.

(** Whatever the documents do, the loop writes nothing and asks only for
    the paths it was given. *)
Lemma process_all_events (w : World) (schema : dict) (text_mode : bool)
    (files : list string) :
  forall acc tr,
  exists outcome done,
    process_all w schema text_mode files acc tr = (outcome, tr ++ done) /\
    forall e,
      In e done ->
      is_write e = false /\
      (forall path, document_path e = Some path -> In path files).
Proof.
  induction files as [|path files IH]; intros acc tr.
  - exists (Next acc), []. split; [simpl; unfold ret; now rewrite app_nil_r|].
    intros e [].
  - cbn [process_all]. unfold bind at 1.
    rewrite (framed_process_file w path schema text_mode tr).
    pose proof (process_file_events w path schema text_mode) as He.
    rewrite run_trace in He.
    destruct (process_file w path schema text_mode []) as [[r|r|x] t]; cbn [fst snd] in *.
    + set (line := match r with
                   | Some (_ :: _) => MsgSuccess (OsPath.basename path)
                   | _ => MsgFailed (OsPath.basename path)
                   end).
      set (kept := match r with
                   | Some (entry :: entries) => acc ++ [entry :: entries]
                   | _ => acc
                   end).
      destruct (IH kept ((tr ++ t) ++ [Print line])) as (outcome & done & Hrun & Hdone).
      exists outcome, (t ++ [Print line] ++ done). split.
      * assert (Hstep : bind
                  match r with
                  | Some (entry :: entries) =>
                      bind (print (MsgSuccess (OsPath.basename path)))
                        (fun _ => ret (acc ++ [entry :: entries]))
                  | _ => bind (print (MsgFailed (OsPath.basename path)))
                           (fun _ => ret acc)
                  end
                  (fun all_results' => process_all w schema text_mode files all_results')
                  (tr ++ t)
                = process_all w schema text_mode files kept ((tr ++ t) ++ [Print line])).
        { unfold kept, line. destruct r as [[|entry entries]|]; reflexivity. }
        rewrite Hstep, Hrun. now rewrite <- !app_assoc.
      * intros e Hin.
        apply in_app_or in Hin as [Hin|[<-|Hin]].
        -- destruct (He e Hin) as (Hw & _ & _ & Hpath).
           split; [exact Hw|]. intros p Hp. left. symmetry. now apply Hpath.
        -- split; [reflexivity | discriminate].
        -- destruct (Hdone e Hin) as [Hw Hpath].
           split; [exact Hw|]. intros p Hp. right. now apply Hpath.
    + exists (Returned r), t. split; [reflexivity|].
      intros e Hin. destruct (He e Hin) as (Hw & _ & _ & Hpath).
      split; [exact Hw|]. intros p Hp. left. symmetry. now apply Hpath.
    + exists (Raised x), t. split; [reflexivity|].
      intros e Hin. destruct (He e Hin) as (Hw & _ & _ & Hpath).
      split; [exact Hw|]. intros p Hp. left. symmetry. now apply Hpath.
Qed.

Lemma framed_configure (w : World) : framed (configure_gemini w).
Proof.
  unfold configure_gemini.
  destruct (env_GEMINI_API_KEY w) as [[|c key]|]; repeat framed_step.
Qed.

Lemma framed_load_schema (w : World) (path : string) :
  framed (load_extraction_schema w path).
Proof.
  unfold load_extraction_schema.
  destruct (read_text w path) as [ |text|content];
    [| |destruct (JsonDecoder.json_loads content)]; repeat framed_step.
Qed.

Lemma framed_pdf_files (w : World) (args : Args) : framed (pdf_files w args).
Proof.
  unfold pdf_files.
  destruct (arg_recursive args); [|destruct (os_listdir w (arg_input_dir args))];
    repeat framed_step.
Qed.

Lemma configure_silent (w : World) :
  fst (configure_gemini w []) = Next true -> snd (configure_gemini w []) = [].
Proof.
  unfold configure_gemini.
  destruct (env_GEMINI_API_KEY w) as [[|c key]|]; try discriminate.
  destruct (genai_configure w (String c key)); [reflexivity | discriminate].
Qed.

Lemma load_schema_silent (w : World) (path : string) (schema : json) :
  fst (load_extraction_schema w path []) = Next (Some schema) ->
  snd (load_extraction_schema w path []) = [].
Proof.
  unfold load_extraction_schema, console_print, bind, ret.
  destruct (read_text w path) as [ |text|content].
  - destruct (console_markup_error w _); discriminate.
  - destruct (console_markup_error w _); discriminate.
  - destruct (JsonDecoder.json_loads content); [reflexivity | discriminate].
Qed.

Lemma pdf_files_silent (w : World) (args : Args) : snd (pdf_files w args []) = [].
Proof.
  unfold pdf_files.
  destruct (arg_recursive args); [|destruct (os_listdir w (arg_input_dir args))];
    reflexivity.
Qed.



Ltac main_step :=
  cbv [bind print emit ret return_ raise negb console_print]; cbn [app].

Lemma prints_touch_nothing (l : list event) :
  forallb is_print l = true ->
  count is_write l = 0 /\ existsb touches_document l = false /\
  (forall e path, In e l -> document_path e = Some path -> False).
Proof.
  induction l as [|e l IH]; simpl; [repeat split; intros ? ? []|].
  intros H. apply andb_true_iff in H as [He Hl].
  destruct (IH Hl) as (Hw & Ht & Hp).
  destruct e; try discriminate. repeat split; try assumption.
  intros e path [<-|Hin]; [discriminate | now apply Hp].
Qed.

(** The shape of every run: it only prints, or it started, went through
    some of the loop, and ended with at most a write and a line. *)
Lemma main_shape (str : json -> string) (w : World) (args : Args) :
  forallb is_print (snd (main str w args [])) = true \/
  exists schema_dict files done tail,
    starts w args schema_dict files /\
    snd (main str w args []) =
      [Print MsgBanner; Print (MsgFound (List.length files) (arg_input_dir args))]
        ++ done ++ tail /\
    (forall e, In e done ->
               is_write e = false /\
               forall path, document_path e = Some path -> In path files) /\
    forallb (fun e => is_print e || is_write e) tail = true /\
    List.length tail <= 2 /\
    count is_write tail <= 1.
Proof.
  unfold main, configure_gemini, load_extraction_schema.
  destruct (env_GEMINI_API_KEY w) as [[|c key]|] eqn:Hkey; try (left; reflexivity).
  destruct (genai_configure w (String c key)) eqn:Hconf; [|left; reflexivity].
  main_step.
  destruct (os_path_isdir w (arg_input_dir args)) eqn:Hdir;
    [|left; destruct (console_markup_error w _); reflexivity].
  destruct (read_text w (arg_schema args)) as [ |text|content] eqn:Hread;
    try (left; destruct (console_markup_error w _); reflexivity).
  destruct (JsonDecoder.json_loads content) as [schema|] eqn:Hload; [|left; reflexivity].
  main_step.
  destruct (Truth.truthy schema) eqn:Htruthy; [|left; reflexivity].
  destruct schema as [ | | | | | |schema_dict]; try (left; reflexivity).
  destruct (Truth.truthy (Dict.get_default schema_dict "fields" JNull)) eqn:Hfields;
    [|left; reflexivity].
  rewrite (framed_pdf_files w args [Print MsgBanner]), pdf_files_silent.
  destruct (fst (pdf_files w args [])) as [[|path files]|r|e] eqn:Hfiles;
    try (left; reflexivity);
    [left; destruct (console_markup_error w _); reflexivity|].
  cbn [fst snd app].
  destruct (console_markup_error w
              (Markup.found (List.length (path :: files)) (arg_input_dir args)));
    [left; reflexivity|].
  destruct (process_all_events w schema_dict (arg_text_mode args) (path :: files) []
              [Print MsgBanner;
               Print (MsgFound (List.length (path :: files)) (arg_input_dir args))])
    as (outcome & done & Hrun & Hdone).
  assert (Hstarts : starts w args schema_dict (path :: files)).
  { unfold starts, configure_gemini, load_extraction_schema.
    rewrite Hkey, Hconf, Hdir, Hread, Hload.
    repeat split; try reflexivity; try assumption; discriminate. }
  right. exists schema_dict, (path :: files), done.
  cbn [app] in Hrun |- *. rewrite Hrun.
  unfold try_except, save_to_csv, call, external_os, print_error, exn_text.
  main_step.
  destruct outcome as [[|r results]|r|x];
    [| destruct (arg_format args); destruct (write_file w (arg_output args));
       repeat match goal with
              | |- context [console_markup_error ?w ?m] =>
                  destruct (console_markup_error w m)
              end | |];
    cbn [fst snd].
  all: try (eexists; (split; [exact Hstarts|]);
            (split; [rewrite <- ?app_assoc; cbn [app]; reflexivity|]);
            (split; [exact Hdone|]); repeat split; unfold count; simpl; lia).
  all: exists []; rewrite app_nil_r; (split; [exact Hstarts|]);
    (split; [reflexivity|]); (split; [exact Hdone|]);
    repeat split; unfold count; simpl; lia.
Qed.
(** ** The loop and the output *)

Lemma count_app (f : event -> bool) (a b : list event) :
  count f (a ++ b) = count f a + count f b.
Proof. unfold count. now rewrite filter_app, length_app. Qed.

Lemma count_none (f : event -> bool) (l : list event) :
  (forall e, In e l -> f e = false) -> count f l = 0.
Proof.
  unfold count. induction l as [|e l IH]; intros H; [reflexivity|].
  simpl. rewrite (H e (or_introl eq_refl)). apply IH. intros e' He'. apply H. now right.
Qed.





(** A command line whose input directory holds a closing tag: the line
    of the count is refused and the run ends there, by the exception. *)
Example closing_tag_in_input_directory :
  run_main Scenario.str Scenario.text_mode_ok
    (mkArgs "extraction_results.json" "x[/b]" false "extraction_schema.json" true
       FormatJson) = ([Print MsgBanner], true).
Proof. vm_compute. reflexivity. Qed.

Lemma run_main_trace (str : json -> string) (w : World) (args : Args) :
  fst (run_main str w args) = snd (main str w args []).
Proof. unfold run_main. now destruct (main str w args []) as [[ | | ] tr]. Qed.

Lemma output_touches_nothing (tail : list event) :
  forallb (fun e => is_print e || is_write e) tail = true ->
  existsb touches_document tail = false /\
  forall e path, In e tail -> document_path e = Some path -> False.
Proof.
  induction tail as [|e tail IH]; simpl; [split; [reflexivity | intros ? ? []]|].
  intros H. apply andb_true_iff in H as [He Htail].
  destruct (IH Htail) as [Ht Hp].
  destruct e; try discriminate; (split; [exact Ht|]);
    intros e0 p0 [<-|Hin]; try discriminate; now apply (Hp e0 p0).
Qed.

(** X12: the output is written at most once, and after the write no
    document is touched: the trace of any run is some work that writes
    nothing, followed by at most two events that touch no document and
    hold at most one write. *)
Theorem output_written_at_most_once (str : json -> string) (w : World) (args : Args) :
  exists work tail,
    fst (run_main str w args) = work ++ tail /\
    count is_write work = 0 /\
    existsb touches_document tail = false /\
    List.length tail <= 2 /\
    count is_write tail <= 1.
Proof.
  rewrite run_main_trace.
  destruct (main_shape str w args)
    as [H|(schema_dict & files & done & tail & _ & Htrace & Hdone & Htail & Hlen & Hwrite)].
  - exists (snd (main str w args [])), []. rewrite app_nil_r.
    apply prints_touch_nothing in H as (Hw & _ & _).
    repeat split; unfold count; simpl; try assumption; lia.
  - exists ([Print MsgBanner; Print (MsgFound (List.length files) (arg_input_dir args))]
              ++ done), tail.
    split; [now rewrite Htrace, <- app_assoc|]. split.
    { rewrite count_app. rewrite (count_none is_write done); [reflexivity|].
      intros e He. now apply Hdone in He. }
    split; [now apply output_touches_nothing|]. split; assumption.
Qed.

(** X13: no document is touched (opened, uploaded, sent to the model, or
    a staged copy deleted) unless the whole start succeeded: the API key is
    set and accepted, the input directory exists, the schema file holds an
    object with a truthy [fields], and at least one path was listed. *)
Theorem documents_need_complete_startup (str : json -> string) (w : World) (args : Args) :
  existsb touches_document (fst (run_main str w args)) = true ->
  exists schema_dict files, starts w args schema_dict files.
Proof.
  intros Htouch. rewrite run_main_trace in Htouch.
  destruct (main_shape str w args)
    as [H|(schema_dict & files & done & tail & Hstarts & _)].
  - apply prints_touch_nothing in H as (_ & Ht & _). congruence.
  - now exists schema_dict, files.
Qed.

Lemma documents_need_complete_startup_witness :
  exists schema_dict files,
    starts Scenario.text_mode_ok (Scenario.args false true) schema_dict files.
Proof.
  apply (documents_need_complete_startup Scenario.str).
  vm_compute. reflexivity.
Defined.
(** ** Which files are read *)

Lemma lower_append (a b : string) :
  PyStr.lower (a ++ b) = (PyStr.lower a ++ PyStr.lower b)%string.
Proof. induction a as [|c a IH]; simpl; [reflexivity | now rewrite IH]. Qed.

Lemma endswith_append (a b pat : string) :
  PyStr.endswith b pat = true -> PyStr.endswith (a ++ b) pat = true.
Proof.
  unfold PyStr.endswith. intros H. rewrite rev_append. now apply startswith_app_true.
Qed.

Lemma is_pdf_append (a name : string) : is_pdf name = true -> is_pdf (a ++ name) = true.
Proof.
  unfold is_pdf. intros H. rewrite lower_append. now apply endswith_append.
Qed.

Lemma is_pdf_join (root name : string) :
  is_pdf name = true -> is_pdf (OsPath.join root name) = true.
Proof.
  intros H. unfold OsPath.join.
  destruct (PyStr.startswith name "/"); [exact H|].
  destruct (negb (PyStr.nonempty root) || PyStr.endswith root "/").
  - now apply is_pdf_append.
  - rewrite <- append_assoc. now apply is_pdf_append.
Qed.

Lemma pdf_files_are_pdf (w : World) (args : Args) (files : list string) (path : string) :
  fst (pdf_files w args []) = Next files -> In path files -> is_pdf path = true.
Proof.
  unfold pdf_files. destruct (arg_recursive args).
  - intros [= <-] H. apply in_flat_map in H as ([[root dirs] names] & _ & H).
    apply in_map_iff in H as (name & <- & H). apply filter_In in H as [_ H].
    now apply is_pdf_join.
  - destruct (os_listdir w (arg_input_dir args)) as [names|]; [|discriminate].
    intros [= <-] H. now apply filter_In in H as [_ H].
Qed.

(** X14: whatever the directory holds, a run asks for the size of, uploads
    or opens only paths that were listed, and each of them ends in [.pdf]
    in some spelling of the letters. *)
Theorem only_pdf_names_are_read (str : json -> string) (w : World) (args : Args)
    (e : event) (path : string) :
  In e (fst (run_main str w args)) ->
  document_path e = Some path ->
  (exists files, fst (pdf_files w args []) = Next files /\ In path files) /\
  is_pdf path = true.
Proof.
  intros Hin Hpath. rewrite run_main_trace in Hin.
  destruct (main_shape str w args)
    as [H|(schema_dict & files & done & tail & Hstarts & Htrace & Hdone & Htail & _)].
  - exfalso. apply prints_touch_nothing in H as (_ & _ & H). now apply (H e path).
  - rewrite Htrace in Hin.
    destruct Hstarts as (_ & _ & _ & _ & Hfiles & _).
    assert (Hlisted : In path files).
    { apply in_app_or in Hin as [Hin|Hin].
      - destruct Hin as [<-|[<-|[]]]; discriminate.
      - apply in_app_or in Hin as [Hin|Hin].
        + now apply (Hdone e Hin).
        + exfalso. apply output_touches_nothing in Htail as [_ Htail].
          now apply (Htail e path). }
    split; [now exists files|]. now apply (pdf_files_are_pdf w args files).
Qed.

Lemma only_pdf_names_are_read_witness :
  (exists files,
      fst (pdf_files Scenario.text_mode_ok (Scenario.args true true) []) = Next files /\
      In "/data/pdfs/article.pdf" files) /\
  is_pdf "/data/pdfs/article.pdf" = true.
Proof.
  apply (only_pdf_names_are_read Scenario.str Scenario.text_mode_ok
           (Scenario.args true true) (OpenPdf "/data/pdfs/article.pdf")).
  - vm_compute. right. right. left. reflexivity.
  - reflexivity.
Defined.

(** ** Failures at the start *)

(** X15: a schema file that holds JSON which is not an object stops the
    run right after the banner: silently when the value is falsy ([null],
    [false], [0], an empty string or list), and by an exception nobody
    catches when it is truthy, since [get] is called on it. *)
Theorem non_object_schema_ends_the_run (str : json -> string) (w : World) (args : Args)
    (schema : json) :
  fst (configure_gemini w []) = Next true ->
  os_path_isdir w (arg_input_dir args) = true ->
  fst (load_extraction_schema w (arg_schema args) []) = Next (Some schema) ->
  is_dict schema = false ->
  run_main str w args = ([Print MsgBanner], Truth.truthy schema).
Proof.
  intros Hc Hdir Hs Hshape.
  unfold run_main, main. unfold bind at 1. unfold print at 1, emit at 1.
  unfold bind at 1. rewrite framed_configure, Hc. cbn [negb fst snd].
  rewrite Hdir. cbn [negb].
  unfold bind at 1. rewrite framed_load_schema, Hs. cbn [fst snd].
  rewrite (configure_silent _ Hc), (load_schema_silent _ _ _ Hs). cbn [app].
  destruct (Truth.truthy schema); cbn [negb]; [|reflexivity].
  destruct schema; try reflexivity. discriminate.
Qed.

Lemma non_object_schema_ends_the_run_witness :
  run_main Scenario.str
    (Scenario.world 1024 None None true None "[1]" ["article.pdf"])
    (Scenario.args false true) = ([Print MsgBanner], true).
Proof.
  apply (non_object_schema_ends_the_run Scenario.str
           (Scenario.world 1024 None None true None "[1]" ["article.pdf"])
           (Scenario.args false true) (JList [JInt 1]));
    vm_compute; reflexivity.
Defined.

(** X16: without an API key the run stops after the banner and the two
    lines about the key; an empty key counts as no key.  Neither the input
    directory nor the schema file decides anything then. *)
Theorem no_key_no_run (str : json -> string) (w : World) (args : Args) :
  env_GEMINI_API_KEY w = None \/ env_GEMINI_API_KEY w = Some "" ->
  run_main str w args = ([Print MsgBanner; Print MsgNoApiKey; Print MsgSetApiKey], false).
Proof.
  intros H. unfold run_main, main, configure_gemini.
  destruct H as [-> | ->]; reflexivity.
Qed.

Lemma no_key_no_run_witness :
  run_main Scenario.str
    {| os_getcwd := "/home/user";
       env_GEMINI_API_KEY := Some "";
       os_path_isdir := fun _ => false;
       os_listdir := fun _ => None;
       os_walk := fun _ => [];
       os_path_getsize := fun _ => None;
       getsize_error := Scenario.no_such_file;
       read_text := fun _ => FileNotFound;
       write_file := fun _ => false;
       write_error := Scenario.permission_denied;
       genai_configure := fun _ => true;
       genai_upload_file := fun _ => None;
       generate_content := fun _ _ => None;
       genai_delete_file := fun _ => false;
       pymupdf_open := fun _ => None;
       pymupdf_error := fun _ => "";
       console_markup_error := Rich.markup_error |}
    (Scenario.args false false)
  = ([Print MsgBanner; Print MsgNoApiKey; Print MsgSetApiKey], false).
Proof.
  apply no_key_no_run. right. reflexivity.
Defined.

(** X17: when the schema file is missing, unreadable or not JSON the run
    stops after one line that names the cause.  For a file that is not
    JSON the line is fixed.
    For a missing file the line quotes the path of the command line, and
    for another error it quotes the text of the error: when Rich renders
    the line the run ends there, and when Rich refuses it the run ends by
    the [MarkupError], which nothing catches, with the banner alone. *)
Theorem unreadable_schema_stops_run (str : json -> string) (w : World) (args : Args) :
  fst (configure_gemini w []) = Next true ->
  os_path_isdir w (arg_input_dir args) = true ->
  (forall content,
      read_text w (arg_schema args) = FileText content ->
      JsonDecoder.json_loads content = None) ->
  run_main str w args =
    match read_text w (arg_schema args) with
    | FileNotFound =>
        match console_markup_error w (Markup.schema_not_found (arg_schema args)) with
        | None => ([Print MsgBanner; Print (MsgSchemaNotFound (arg_schema args))], false)
        | Some _ => ([Print MsgBanner], true)
        end
    | ReadFailed text =>
        match console_markup_error w (Markup.schema_read_error text) with
        | None => ([Print MsgBanner; Print MsgSchemaReadError], false)
        | Some _ => ([Print MsgBanner], true)
        end
    | FileText _ => ([Print MsgBanner; Print MsgSchemaInvalidJson], false)
    end.
Proof.
  intros Hc Hdir Hjson.
  unfold run_main, main. unfold bind at 1. unfold print at 1, emit at 1.
  unfold bind at 1. rewrite framed_configure, Hc. cbn [negb fst snd].
  rewrite Hdir. cbn [negb].
  rewrite (configure_silent _ Hc). cbn [app].
  unfold load_extraction_schema, console_print, print, emit, bind, ret.
  destruct (read_text w (arg_schema args)) as [ |text|content] eqn:Hread.
  - destruct (console_markup_error w _); reflexivity.
  - destruct (console_markup_error w _); reflexivity.
  - rewrite (Hjson content eq_refl). reflexivity.
Qed.

(** The schema path [x[/b]] names no file: the line that says so is
    refused.  A schema file that is not JSON is reported. *)
Lemma unreadable_schema_stops_run_witness :
  run_main Scenario.str Cases.no_schema_file
    (mkArgs "extraction_results.json" "/data/pdfs" false "x[/b]" true FormatJson)
    = ([Print MsgBanner], true) /\
  run_main Scenario.str Cases.no_schema_file (Scenario.args false true)
    = ([Print MsgBanner; Print (MsgSchemaNotFound "extraction_schema.json")], false) /\
  run_main Scenario.str
    (Scenario.world 1024 None None true None "{fields}" ["article.pdf"])
    (Scenario.args false true) = ([Print MsgBanner; Print MsgSchemaInvalidJson], false).
Proof.
  split; [|split].
  - rewrite (unreadable_schema_stops_run Scenario.str Cases.no_schema_file
               (mkArgs "extraction_results.json" "/data/pdfs" false "x[/b]" true FormatJson)
               eq_refl eq_refl ltac:(discriminate)).
    vm_compute. reflexivity.
  - rewrite (unreadable_schema_stops_run Scenario.str Cases.no_schema_file
               (Scenario.args false true) eq_refl eq_refl ltac:(discriminate)).
    vm_compute. reflexivity.
  - rewrite (unreadable_schema_stops_run Scenario.str
               (Scenario.world 1024 None None true None "{fields}" ["article.pdf"])
               (Scenario.args false true) eq_refl eq_refl
               ltac:(intros content [= <-]; vm_compute; reflexivity)).
    vm_compute. reflexivity.
Defined.

(** ** File names *)

Lemma startswith_spec (s pat : string) :
  PyStr.startswith s pat = true <-> exists rest, s = (pat ++ rest)%string.
Proof.
  revert s. induction pat as [|a pat IH]; intros s.
  - split; [intros _; now exists s | reflexivity].
  - destruct s as [|b s]; simpl.
    + split; [discriminate | intros [rest H]; discriminate].
    + rewrite andb_true_iff, IH. split.
      * intros [Hab [rest ->]]. apply Ascii.eqb_eq in Hab. subst. now exists rest.
      * intros [rest [= -> ->]]. split; [apply Ascii.eqb_refl | now exists rest].
Qed.

Lemma endswith_spec (s pat : string) :
  PyStr.endswith s pat = true <-> exists stem, s = (stem ++ pat)%string.
Proof.
  unfold PyStr.endswith. rewrite startswith_spec. split.
  - intros [rest H]. exists (PyStr.rev rest).
    rewrite <- (rev_involutive s), H, rev_append. now rewrite rev_involutive.
  - intros [stem ->]. exists (PyStr.rev stem). apply rev_append.
Qed.

Lemma lower_split (s a b : string) :
  PyStr.lower s = (a ++ b)%string ->
  exists s1 s2, s = (s1 ++ s2)%string /\ PyStr.lower s1 = a /\ PyStr.lower s2 = b.
Proof.
  revert s. induction a as [|c a IH]; intros s H.
  - now exists "", s.
  - destruct s as [|d s]; [discriminate|]. simpl in H. injection H as Hc H.
    destruct (IH s H) as (s1 & s2 & -> & <- & <-).
    exists (String d s1), s2. simpl. now rewrite Hc.
Qed.

(** X18: a name passes the test of [main] exactly when it ends in an
    extension that lowers to [.pdf]; what stands before the extension,
    directories included, plays no part. *)
Theorem is_pdf_spec (name : string) :
  is_pdf name = true <->
  exists stem ext, name = (stem ++ ext)%string /\ PyStr.lower ext = ".pdf".
Proof.
  unfold is_pdf. rewrite endswith_spec. split.
  - intros [x H]. apply lower_split in H as (stem & ext & -> & _ & H).
    now exists stem, ext.
  - intros (stem & ext & -> & H). exists (PyStr.lower stem).
    now rewrite lower_append, H.
Qed.

Lemma contains_char_append (c : ascii) (a b : string) :
  PyStr.contains_char c (a ++ b) = PyStr.contains_char c a || PyStr.contains_char c b.
Proof.
  induction a as [|d a IH]; simpl; [reflexivity|]. now rewrite IH, orb_assoc.
Qed.

Lemma basename_bare (name : string) :
  PyStr.contains_char OsPath.sep name = false -> OsPath.basename name = name.
Proof.
  destruct name as [|c name]; [reflexivity|]. cbn [OsPath.basename PyStr.contains_char].
  intros H. apply orb_false_iff in H as [Hc Hname]. now rewrite Hname, Hc.
Qed.

Lemma basename_below (a name : string) :
  PyStr.contains_char OsPath.sep name = false ->
  OsPath.basename (a ++ "/" ++ name) = name.
Proof.
  intros Hname. induction a as [|c a IH].
  - cbn [append OsPath.basename]. rewrite Hname. reflexivity.
  - cbn [append OsPath.basename].
    rewrite contains_char_append. cbn [append PyStr.contains_char].
    unfold OsPath.sep at 2. rewrite Ascii.eqb_refl, orb_true_r. exact IH.
Qed.

Lemma basename_join (root name : string) :
  PyStr.contains_char OsPath.sep name = false ->
  OsPath.basename (OsPath.join root name) = name.
Proof.
  intros Hname. unfold OsPath.join.
  rewrite (bare_name_relative name Hname).
  destruct root as [|c root]; [now apply basename_bare|]. cbn [PyStr.nonempty negb orb].
  destruct (PyStr.endswith (String c root) "/") eqn:E.
  - apply endswith_slash in E as [a ->]. rewrite append_assoc.
    now apply basename_below.
  - now apply basename_below.
Qed.

(** X19: in a recursive run a path is the directory joined with a name of
    the listing, and the [filename] of the result is that name again,
    without the directory, in both modes. *)
Theorem listed_name_is_the_filename (w : World) (root name : string) (schema : dict)
    (text_mode : bool) (r : dict) (tr : list event) :
  PyStr.contains_char OsPath.sep name = false ->
  run_process_file w (OsPath.join root name) schema text_mode = (Some r, tr) ->
  Dict.get r "filename" = Some (JStr name).
Proof.
  intros Hname Hrun.
  apply process_file_success in Hrun as (text & extracted & _ & ->).
  rewrite (basename_join root name Hname).
  apply get_update_present; [|reflexivity].
  repeat constructor; simpl; intuition discriminate.
Qed.

Lemma listed_name_is_the_filename_witness :
  Dict.get [("title", JStr "T"); ("filename", JStr "article.pdf");
            ("processing_mode", JStr "text")] "filename" = Some (JStr "article.pdf").
Proof.
  apply (listed_name_is_the_filename Scenario.text_mode_ok "/data/pdfs/2024" "article.pdf"
           Scenario.schema true _
           (snd (run_process_file Scenario.text_mode_ok
                   (OsPath.join "/data/pdfs/2024" "article.pdf") Scenario.schema true)));
    vm_compute; reflexivity.
Defined.
(** ** The CSV table *)

(** X20: the table handed to the CSV writer is rectangular: one row per
    result, and in every row one cell per column of the header; it goes to
    the output file that was asked for. *)
Theorem csv_table_is_rectangular (str : json -> string) (w : World) (data : list dict)
    (output_file path : string) (header : list string) (rows : list (list json)) :
  In (WriteCsv path header rows) (snd (save_to_csv str w data output_file [])) ->
  path = output_file /\
  List.length rows = List.length data /\
  Forall (fun row => List.length row = List.length header) rows.
Proof.
  unfold save_to_csv, external_os, console_print, bind, print, emit, ret, raise.
  destruct data as [|item data]; [intros H; in_trace H|].
  destruct (write_file w output_file);
    [destruct (console_markup_error w (Markup.csv_saved output_file))|];
    intros H; in_trace H.
  all: split; [reflexivity|]; split; [simpl; now rewrite ?length_map|].
  all: apply Forall_forall; intros row Hrow; simpl in Hrow;
    destruct Hrow as [<-|Hrow]; [|apply in_map_iff in Hrow as (flat & <- & _)];
    unfold csv_row; now rewrite length_map.
Qed.

Lemma csv_table_is_rectangular_witness :
  "out.csv" = "out.csv" /\
  List.length [[JInt 1; JStr ""]; [JStr ""; JInt 2]] = List.length Scenario.disjoint_results /\
  Forall (fun row => List.length row = List.length ["x"; "y"])
    [[JInt 1; JStr ""]; [JStr ""; JInt 2]].
Proof.
  apply (csv_table_is_rectangular Scenario.str Scenario.text_mode_ok
           Scenario.disjoint_results "out.csv").
  vm_compute. left. reflexivity.
Defined.

Lemma get_in_keys (d : dict) (k : string) (v : json) :
  Dict.get d k = Some v -> In k (Dict.keys d).
Proof.
  intros H. destruct (in_dec string_dec k (Dict.keys d)) as [Hin|Hout]; [exact Hin|].
  apply get_none_keys in Hout. congruence.
Qed.

Lemma get_combine_map (f : string -> json) (columns : list string) (k : string) :
  In k columns -> Dict.get (combine columns (map f columns)) k = Some (f k).
Proof.
  induction columns as [|c columns IH]; [intros []|]. simpl.
  destruct (String.eqb_spec c k) as [->|Hne]; [reflexivity|].
  intros [H|H]; [contradiction | now apply IH].
Qed.

Lemma in_csv_columns (flattened : list dict) (k : string) :
  In k (csv_columns flattened) <->
  exists item, In item flattened /\ In k (Dict.keys item).
Proof.
  unfold csv_columns. rewrite <- (proj2 (all_columns_spec flattened) k).
  split; apply Permutation_in; [apply Permutation_sym|]; apply sorted_perm.
Qed.

(** X21: nothing of a flattened result is lost in its row: read under the
    header, the row gives back the value of every key of the flattened
    result. *)
Theorem csv_row_keeps_every_value (str : json -> string) (data : list dict) (item : dict)
    (k : string) (v : json) :
  In item data ->
  Dict.get (flatten str item) k = Some v ->
  let header := csv_columns (map (flatten str) data) in
  Dict.get (combine header (csv_row header (flatten str item))) k = Some v.
Proof.
  intros Hitem Hget header. unfold csv_row.
  rewrite get_combine_map.
  - unfold Dict.get_default. now rewrite Hget.
  - apply in_csv_columns. exists (flatten str item). split; [now apply in_map|].
    now apply get_in_keys in Hget.
Qed.

Lemma csv_row_keeps_every_value_witness :
  Dict.get
    (combine (csv_columns (map (flatten Scenario.str) [Scenario.nested_result; [("x", JInt 1)]]))
       (csv_row (csv_columns (map (flatten Scenario.str) [Scenario.nested_result; [("x", JInt 1)]]))
          (flatten Scenario.str Scenario.nested_result)))
    "a_b" = Some (JInt 1).
Proof.
  apply (csv_row_keeps_every_value Scenario.str
           [Scenario.nested_result; [("x", JInt 1)]] Scenario.nested_result "a_b" (JInt 1)).
  - left. reflexivity.
  - reflexivity.
Defined.

Lemma lt_irrefl (a : string) : ~ PySort.lt a a.
Proof.
  unfold PySort.lt, String.ltb. intros H.
  pose proof (String.compare_antisym a a) as Hs.
  destruct (String.compare a a); discriminate.
Qed.

(** Two strictly increasing lists with the same members are equal. *)
Lemma increasing_unique (l1 l2 : list string) :
  StronglySorted PySort.lt l1 ->
  StronglySorted PySort.lt l2 ->
  (forall x, In x l1 <-> In x l2) ->
  l1 = l2.
Proof.
  intros H1. revert l2. induction H1 as [|x l1 H1 IH Hx]; intros l2 H2 Hsame.
  - destruct l2 as [|y l2]; [reflexivity|]. destruct (proj2 (Hsame y)). now left.
  - destruct H2 as [|y l2 H2 Hy].
    { destruct (proj1 (Hsame x)). now left. }
    rewrite Forall_forall in Hx, Hy.
    assert (Hxy : x = y).
    { destruct (proj1 (Hsame x) (or_introl eq_refl)) as [E|Hin]; [now symmetry|].
      destruct (proj2 (Hsame y) (or_introl eq_refl)) as [E|Hin']; [exact E|].
      exfalso. apply (lt_irrefl x). apply (lt_trans x y x); auto. }
    subst y. f_equal. apply IH; [exact H2|].
    intros z. split; intros Hz.
    + destruct (proj1 (Hsame z) (or_intror Hz)) as [E|Hin]; [|exact Hin].
      subst z. exfalso. apply (lt_irrefl x). now apply Hx.
    + destruct (proj2 (Hsame z) (or_intror Hz)) as [E|Hin]; [|exact Hin].
      subst z. exfalso. apply (lt_irrefl x). now apply Hy.
Qed.

(** X22: the header does not depend on the order of the results, nor on
    how often a result occurs: result sets with the same members give the
    same header. *)
Theorem csv_header_ignores_order (str : json -> string) (data data' : list dict) :
  (forall item, In item data <-> In item data') ->
  csv_columns (map (flatten str) data) = csv_columns (map (flatten str) data').
Proof.
  intros Hsame. apply increasing_unique.
  - apply sorted_increasing. apply all_columns_spec.
  - apply sorted_increasing. apply all_columns_spec.
  - intros k. rewrite !in_csv_columns.
    split; intros (flat & Hflat & Hk); apply in_map_iff in Hflat as (item & <- & Hitem);
      exists (flatten str item); (split; [apply in_map; now apply Hsame | exact Hk]).
Qed.

Lemma csv_header_ignores_order_witness :
  csv_columns (map (flatten Scenario.str) [[("x", JInt 1)]; [("y", JInt 2)]]) =
  csv_columns (map (flatten Scenario.str) [[("y", JInt 2)]; [("x", JInt 1)]; [("y", JInt 2)]]).
Proof.
  apply (csv_header_ignores_order Scenario.str).
  intros item. simpl. tauto.
Defined.
(** ** Flattened results *)

(** X23: whatever the parent key and the separator, a flattened dict is
    flat and its keys are distinct: no value is a dict or a list. *)
Theorem flattened_result_is_flat (str : json -> string) (data : dict)
    (parent_key sep : string) :
  let flat := flatten_json_to_csv str data parent_key sep in
  NoDup (Dict.keys flat) /\
  forall k v, In (k, v) flat -> is_dict v = false /\ is_list v = false.
Proof.
  split; [apply flatten_keys_NoDup|].
  intros k v Hin.
  pose proof (flatten_values str data parent_key sep) as H.
  rewrite Forall_forall in H. specialize (H (k, v) Hin). simpl in H.
  unfold is_scalar in H. apply negb_true_iff, orb_false_iff in H. exact H.
Qed.

Lemma startswith_prefix (s a b : string) :
  PyStr.startswith s (a ++ b) = true -> PyStr.startswith s a = true.
Proof.
  rewrite !startswith_spec. intros [rest ->]. exists (b ++ rest)%string.
  apply append_assoc.
Qed.

(** Every key an entry contributes starts with the new key of the entry. *)
Lemma flatten_entry_prefix (str : json -> string) (v : json) :
  forall parent_key sep k kv,
    In kv (flatten_entry str parent_key sep k v) ->
    PyStr.startswith (fst kv)
      (if PyStr.nonempty parent_key then (parent_key ++ sep ++ k)%string else k) = true.
Proof.
  induction v as [ |b|n|lexeme|s|items _|entries IH] using json_ind;
    intros parent_key sep k kv;
    try (intros [<-|[]]; apply startswith_spec; exists ""; symmetry; apply append_nil_r).
  rewrite flatten_entry_dict. unfold flatten_json_to_csv, Dict.of_items.
  set (new_key := if PyStr.nonempty parent_key then _ else _). clearbody new_key.
  intros Hin. apply in_update in Hin as [[]|Hin].
  apply in_flat_map in Hin as (entry & Hentry & Hin).
  rewrite Forall_forall in IH.
  specialize (IH entry Hentry new_key sep (fst entry) kv Hin).
  destruct new_key as [|c new_key]; [reflexivity|].
  cbn [PyStr.nonempty] in IH. now apply startswith_prefix in IH.
Qed.

(** X24: called with a parent key that is not empty, flattening gives
    only keys that start with the parent key and the separator. *)
Theorem flattened_keys_carry_the_parent (str : json -> string) (data : dict)
    (parent_key sep k : string) :
  parent_key <> "" ->
  In k (Dict.keys (flatten_json_to_csv str data parent_key sep)) ->
  PyStr.startswith k (parent_key ++ sep) = true.
Proof.
  intros Hparent Hin. apply in_map_iff in Hin as (kv & <- & Hin).
  unfold flatten_json_to_csv, Dict.of_items in Hin.
  apply in_update in Hin as [[]|Hin].
  apply in_flat_map in Hin as (entry & _ & Hin).
  apply flatten_entry_prefix in Hin.
  destruct parent_key as [|c parent_key]; [contradiction|].
  cbn [PyStr.nonempty] in Hin.
  rewrite <- append_assoc in Hin. now apply startswith_prefix in Hin.
Qed.

Lemma flattened_keys_carry_the_parent_witness :
  PyStr.startswith "doc.a.b" ("doc" ++ ".") = true.
Proof.
  apply (flattened_keys_carry_the_parent Scenario.str Scenario.nested_result "doc" ".").
  - discriminate.
  - vm_compute. left. reflexivity.
Defined.
(** ** The brace block *)

Lemma from_first_spec (c : ascii) (s r : string) :
  ResponseParser.from_first c s = Some r <->
  exists pre rest,
    s = (pre ++ r)%string /\ r = String c rest /\ PyStr.contains_char c pre = false.
Proof.
  split.
  - revert r. induction s as [|a s IH]; intros r; simpl; [discriminate|].
    destruct (Ascii.eqb_spec a c) as [->|Hne].
    + intros [= <-]. now exists "", s.
    + intros H. destruct (IH r H) as (pre & rest & -> & -> & Hpre).
      exists (String a pre), rest. repeat split. simpl.
      apply Ascii.eqb_neq in Hne. now rewrite Hne.
  - intros (pre & rest & -> & -> & Hpre).
    induction pre as [|a pre IH]; simpl in *.
    + now rewrite Ascii.eqb_refl.
    + apply orb_false_iff in Hpre as [Ha Hpre]. rewrite Ha. now apply IH.
Qed.

Lemma contains_char_rev (c : ascii) (s : string) :
  PyStr.contains_char c (PyStr.rev s) = PyStr.contains_char c s.
Proof.
  induction s as [|a s IH]; [reflexivity|].
  rewrite rev_cons, contains_char_append, IH. simpl.
  rewrite orb_false_r. apply orb_comm.
Qed.

Lemma upto_last_spec (c : ascii) (s b : string) :
  ResponseParser.upto_last c s = Some b <->
  exists body post,
    s = (body ++ String c post)%string /\ b = (body ++ String c "")%string /\
    PyStr.contains_char c post = false.
Proof.
  unfold ResponseParser.upto_last. split.
  - destruct (ResponseParser.from_first c (PyStr.rev s)) as [r|] eqn:E; [|discriminate].
    intros [= <-]. apply from_first_spec in E as (pre & rest & Hs & -> & Hpre).
    exists (PyStr.rev rest), (PyStr.rev pre). split; [|split].
    + rewrite <- (rev_involutive s), Hs, rev_append, rev_cons, append_assoc. reflexivity.
    + apply rev_cons.
    + now rewrite contains_char_rev.
  - intros (body & post & -> & -> & Hpost).
    assert (E : ResponseParser.from_first c (PyStr.rev (body ++ String c post))
                = Some (String c (PyStr.rev body))).
    { apply from_first_spec. exists (PyStr.rev post), (PyStr.rev body).
      split; [|split; [reflexivity|now rewrite contains_char_rev]].
      rewrite rev_append, rev_cons, append_assoc. reflexivity. }
    rewrite E. now rewrite rev_cons, rev_involutive.
Qed.

(** X25: the brace block of a text is what stands between its first
    opening brace and its last closing brace, both included, provided the
    closing one comes later; there is no other block, and none when the
    text has no such pair. *)
Theorem brace_block_spec (s block : string) :
  ResponseParser.search_braces s = Some block <->
  exists pre body post,
    s = (pre ++ "{" ++ body ++ "}" ++ post)%string /\
    block = ("{" ++ body ++ "}")%string /\
    PyStr.contains_char "{" pre = false /\
    PyStr.contains_char "}" post = false.
Proof.
  unfold ResponseParser.search_braces. split.
  - destruct (ResponseParser.from_first "{" s) as [r|] eqn:E; [|discriminate].
    apply from_first_spec in E as (pre & rest & -> & -> & Hpre).
    destruct (ResponseParser.upto_last "}" rest) as [b|] eqn:E'; [|discriminate].
    intros [= <-]. apply upto_last_spec in E' as (body & post & -> & -> & Hpost).
    exists pre, body, post. repeat split; assumption.
  - intros (pre & body & post & -> & -> & Hpre & Hpost).
    assert (E : ResponseParser.from_first "{" (pre ++ "{" ++ body ++ "}" ++ post)
                = Some (String "{" (body ++ "}" ++ post))).
    { apply from_first_spec. now exists pre, (body ++ "}" ++ post)%string. }
    rewrite E.
    assert (E' : ResponseParser.upto_last "}" (body ++ "}" ++ post)
                 = Some (body ++ "}")%string).
    { apply upto_last_spec. now exists body, post. }
    now rewrite E'.
Qed.

Lemma scan_members_dict (fuel : nat) :
  forall s acc v r,
    JsonDecoder.scan_members fuel s acc = Some (v, r) -> is_dict v = true.
Proof.
  induction fuel as [|fuel IH]; intros s acc v r; [discriminate|].
  cbn [JsonDecoder.scan_members].
  destruct (JsonDecoder.scan_string s None JsonDecoder.Plain "") as [[key r0]|];
    [|discriminate].
  destruct (JsonDecoder.skip_ws r0) as [|c r1]; [discriminate|].
  destruct (c =? ":")%char; [|discriminate].
  destruct (JsonDecoder.scan_once fuel (JsonDecoder.skip_ws r1)) as [[v1 r2]|];
    [|discriminate].
  destruct (JsonDecoder.skip_ws r2) as [|c' r3]; [discriminate|].
  destruct (c' =? "}")%char; [now intros [= <- _]|].
  destruct (c' =? ",")%char; [|discriminate].
  destruct (JsonDecoder.skip_ws r3) as [|c'' r4]; [discriminate|].
  destruct (c'' =? "034")%char; [|discriminate].
  apply IH.
Qed.

Lemma loads_brace_dict (rest : string) (v : json) :
  JsonDecoder.json_loads (String "{" rest) = Some v -> is_dict v = true.
Proof.
  unfold JsonDecoder.json_loads.
  change (JsonDecoder.skip_ws (String "{" rest)) with (String "{" rest).
  destruct (2 * String.length (String "{" rest) + 2) as [|fuel]; [discriminate|].
  cbn [JsonDecoder.scan_once].
  change ("{" =? "034")%char with false. change ("{" =? "{")%char with true. cbv iota.
  destruct (JsonDecoder.skip_ws rest) as [|c r]; [discriminate|].
  destruct (c =? "}")%char.
  { destruct (JsonDecoder.skip_ws r); [|discriminate]. now intros [= <-]. }
  destruct (c =? "034")%char; [|discriminate].
  destruct (JsonDecoder.scan_members fuel r []) as [[v0 r0]|] eqn:E; [|discriminate].
  apply scan_members_dict in E.
  destruct (JsonDecoder.skip_ws r0); [|discriminate]. now intros [= <-].
Qed.

(** X26: the brace block is read only when the cleaned text as a whole is
    not JSON, and what is recovered from it is always an object: a list
    or a scalar is accepted only when the whole text is one. *)
Theorem recovered_value_is_an_object (cleaned : string) (v : json) :
  JsonDecoder.json_loads cleaned = None ->
  ResponseParser.decode cleaned = inr v ->
  is_dict v = true /\
  exists block,
    ResponseParser.search_braces cleaned = Some block /\
    JsonDecoder.json_loads block = Some v.
Proof.
  intros Hwhole. unfold ResponseParser.decode. rewrite Hwhole.
  destruct (ResponseParser.search_braces cleaned) as [block|] eqn:E; [|discriminate].
  destruct (JsonDecoder.json_loads block) as [v0|] eqn:E'; [|discriminate].
  intros [= <-]. split; [|now exists block].
  unfold ResponseParser.search_braces in E.
  destruct (ResponseParser.from_first "{" cleaned) as [r|] eqn:Efirst; [|discriminate].
  apply from_first_head in Efirst as [rest ->].
  destruct (ResponseParser.upto_last "}" rest) as [body|]; [|discriminate].
  injection E as <-. now apply loads_brace_dict in E'.
Qed.

Lemma recovered_value_is_an_object_witness :
  is_dict (JDict [("a", JInt 1)]) = true /\
  exists block,
    ResponseParser.search_braces ("Here: {" ++ Scenario.Q ++ "a" ++ Scenario.Q ++ ": 1} ok")
      = Some block /\
    JsonDecoder.json_loads block = Some (JDict [("a", JInt 1)]).
Proof.
  apply (recovered_value_is_an_object
           ("Here: {" ++ Scenario.Q ++ "a" ++ Scenario.Q ++ ": 1} ok")
           (JDict [("a", JInt 1)])); vm_compute; reflexivity.
Defined.

(** ** Fences *)

Lemma no_pair_after_removal (s : string) :
  PyStr.startswith s "``" = false ->
  PyStr.startswith (PyStr.remove_from "```" s 0) "``" = false.
Proof.
  destruct s as [|a s]; [reflexivity|]. simpl.
  destruct ("`" =? a)%char eqn:Ea; simpl; [|now rewrite Ea].
  destruct s as [|b s]; simpl; [now rewrite Ea|].
  destruct ("`" =? b)%char eqn:Eb; simpl; [discriminate|].
  intros _. now rewrite Ea, Eb.
Qed.

Lemma no_fence_after_removal (s : string) (skip : nat) :
  contains (PyStr.remove_from "```" s skip) "```" = false.
Proof.
  revert skip. induction s as [|c s IH]; intros skip; [reflexivity|].
  cbn [PyStr.remove_from]. destruct skip as [|k]; [|apply IH].
  destruct (PyStr.startswith (String c s) "```") eqn:E; [apply IH|].
  cbn [contains]. rewrite IH, orb_false_r.
  cbn [PyStr.startswith] in *.
  destruct ("`" =? c)%char; [|reflexivity]. cbn [andb] in *.
  now apply no_pair_after_removal.
Qed.

(** X27: no fence marker is left in the text handed to the decoder:
    after the two replacements the cleaned text holds no run of three
    back-quotes. *)
Theorem cleaned_response_has_no_fence (text : string) :
  contains (ResponseParser.clean_response text) "```" = false.
Proof. unfold ResponseParser.clean_response. apply no_fence_after_removal. Qed.
(** ** The prototype *)

Ltac unfold_pdf_run :=
  unfold Ceeol.run_process_pdf, Ceeol.process_pdf, call, try_except, external,
    external_os, print_error, console_print, bind, print, emit, ret, raise, return_;
  simpl.

(** X28: a result of the prototype comes from the reply of the model to
    the prompt with the text of the pages: it is the object that the
    cleaned text of that reply decodes to as it stands, with the base name
    of the path under [filename] and the number of pages of the opened
    document under [page_count], whatever the reply said under these
    keys; [main.py] reads the same reply to the same object. *)
Theorem prototype_result_shape (w : World) (subject_tree file_path : string) (r : dict)
    (tr : list event) :
  Ceeol.run_process_pdf w subject_tree file_path = (Some r, tr) ->
  exists doc pages reply extracted,
    pymupdf_open w file_path = Some doc /\
    get_all_text (page_texts doc) "" [] = (Next pages, []) /\
    In (GenerateContent (LLM_PROMPT pages subject_tree) None) tr /\
    generate_content w (LLM_PROMPT pages subject_tree) None = Some (Some reply) /\
    JsonDecoder.json_loads (ResponseParser.clean_response reply) = Some (JDict extracted) /\
    ResponseParser.parse reply = inr extracted /\
    r = Dict.set (Dict.set extracted "filename" (JStr (OsPath.basename file_path)))
          "page_count" (JInt (page_count doc)) /\
    Dict.get r "filename" = Some (JStr (OsPath.basename file_path)) /\
    Dict.get r "page_count" = Some (JInt (page_count doc)).
Proof.
  unfold_pdf_run.
  destruct (pymupdf_open w file_path) as [doc|] eqn:Hopen; simpl.
  2: { destruct (console_markup_error w _); discriminate. }
  rewrite (framed_get_all_text (page_texts doc) "" [OpenPdf file_path]).
  destruct (get_all_text_signal (page_texts doc) "" []) as [[pages Ht]|Ht];
    rewrite Ht; simpl; [|discriminate].
  destruct (PyStr.nonempty (PyStr.strip pages)); simpl; [|discriminate].
  destruct (generate_content w (LLM_PROMPT pages subject_tree) None) as [[reply|]|] eqn:Hreply;
    simpl; try discriminate.
  destruct (JsonDecoder.json_loads (ResponseParser.clean_response reply)) as [v|] eqn:Hloads;
    simpl.
  2: { destruct (console_markup_error w _); discriminate. }
  destruct v as [ | | | | | |extracted]; simpl; try discriminate.
  intros [= <- <-]. exists doc, pages, reply, extracted.
  split; [reflexivity|]. split; [exact Ht|]. split; [simpl; tauto|].
  split; [exact Hreply|]. split; [exact Hloads|].
  split; [|split; [reflexivity|split]].
  - unfold ResponseParser.parse, ResponseParser.decode. now rewrite Hloads.
  - rewrite get_set_other by discriminate. apply get_set_same.
  - apply get_set_same.
Qed.

Lemma prototype_result_shape_witness :
  exists doc pages reply extracted,
    pymupdf_open Scenario.text_mode_ok "papers/article.pdf" = Some doc /\
    get_all_text (page_texts doc) "" [] = (Next pages, []) /\
    In (GenerateContent (LLM_PROMPT pages "tree") None)
      (snd (Ceeol.run_process_pdf Scenario.text_mode_ok "tree" "papers/article.pdf")) /\
    generate_content Scenario.text_mode_ok (LLM_PROMPT pages "tree") None
      = Some (Some reply) /\
    JsonDecoder.json_loads (ResponseParser.clean_response reply) = Some (JDict extracted) /\
    ResponseParser.parse reply = inr extracted /\
    [("title", JStr "T"); ("filename", JStr "article.pdf"); ("page_count", JInt 2)] =
      Dict.set (Dict.set extracted "filename" (JStr (OsPath.basename "papers/article.pdf")))
        "page_count" (JInt (page_count doc)) /\
    Dict.get [("title", JStr "T"); ("filename", JStr "article.pdf"); ("page_count", JInt 2)]
      "filename" = Some (JStr (OsPath.basename "papers/article.pdf")) /\
    Dict.get [("title", JStr "T"); ("filename", JStr "article.pdf"); ("page_count", JInt 2)]
      "page_count" = Some (JInt (page_count doc)).
Proof.
  apply (prototype_result_shape Scenario.text_mode_ok "tree" "papers/article.pdf" _
           (snd (Ceeol.run_process_pdf Scenario.text_mode_ok "tree" "papers/article.pdf"))).
  vm_compute. reflexivity.
Defined.

Lemma get_all_text_raises (pages : list (option string)) (text : string)
    (tr : list event) :
  In None pages -> get_all_text pages text tr = (Raised OtherException, tr).
Proof.
  revert text. induction pages as [|[page|] pages IH]; intros text; simpl.
  - intros [].
  - intros [H|H]; [discriminate | now apply IH].
  - reflexivity.
Qed.

(** X29: in the prototype a page whose text cannot be read ends the whole
    loop by an exception: the remaining names are not tried and the
    results collected so far are not returned. *)
Theorem prototype_page_error_ends_the_loop (w : World)
    (subject_tree input_directory filename : string) (rest : list string)
    (all_results : list dict) (tr : list event) (doc : document) :
  pymupdf_open w (OsPath.join input_directory filename) = Some doc ->
  In None (page_texts doc) ->
  CeeolDriver.process_all w subject_tree input_directory (filename :: rest) all_results tr =
    (Raised OtherException, tr ++ [OpenPdf (OsPath.join input_directory filename)]).
Proof.
  intros Hopen Hpage. cbn [CeeolDriver.process_all].
  unfold bind at 1. rewrite (framed_process_pdf w subject_tree _ tr).
  unfold Ceeol.process_pdf, call, try_except, external_os, bind, emit, ret.
  rewrite Hopen. simpl. now rewrite get_all_text_raises.
Qed.

Lemma prototype_page_error_ends_the_loop_witness :
  CeeolDriver.process_all
    (Scenario.world 1024 None (Some (Some Scenario.title_reply)) true
       (Some (mkDocument 2 [Some "Title"; None])) Scenario.schema_text ["a.pdf"; "b.pdf"])
    "tree" "/data/pdfs" ["a.pdf"; "b.pdf"] [[("title", JStr "T")]] [Print MsgBanner] =
    (Raised OtherException, [Print MsgBanner] ++ [OpenPdf (OsPath.join "/data/pdfs" "a.pdf")]).
Proof.
  apply (prototype_page_error_ends_the_loop _ "tree" "/data/pdfs" "a.pdf" ["b.pdf"]
           [[("title", JStr "T")]] [Print MsgBanner] (mkDocument 2 [Some "Title"; None])).
  - reflexivity.
  - right. left. reflexivity.
Defined.

Lemma process_pdf_events (w : World) (subject_tree file_path : string) (e : event) :
  In e (snd (Ceeol.process_pdf w subject_tree file_path [])) ->
  forall path, document_path e = Some path -> path = file_path.
Proof.
  unfold_pdf_run. run_cases.
  all: repeat match goal with
         | |- context [JsonDecoder.json_loads ?t] =>
             destruct (JsonDecoder.json_loads t) as [[]|]; simpl
         | |- context [console_markup_error ?w ?m] =>
             destruct (console_markup_error w m); simpl
         end.
  all: intros H; simpl in H; repeat (destruct H as [<-|H]); try destruct H;
    simpl; congruence.
Qed.

Lemma prototype_loop_events (w : World) (subject_tree input_directory : string)
    (names : list string) :
  forall all_results tr,
  exists outcome done,
    CeeolDriver.process_all w subject_tree input_directory names all_results tr =
      (outcome, tr ++ done) /\
    forall e path,
      In e done -> document_path e = Some path ->
      exists name, In name names /\ path = OsPath.join input_directory name.
Proof.
  induction names as [|name names IH]; intros all_results tr.
  - exists (Next all_results), []. split; [simpl; unfold ret; now rewrite app_nil_r|].
    intros e path [].
  - cbn [CeeolDriver.process_all]. unfold bind at 1.
    rewrite (framed_process_pdf w subject_tree _ tr).
    pose proof (process_pdf_events w subject_tree (OsPath.join input_directory name)) as He.
    destruct (Ceeol.process_pdf w subject_tree (OsPath.join input_directory name) [])
      as [[r|r|x] t]; cbn [fst snd] in *.
    + set (line := match r with
                   | Some (_ :: _) => MsgSuccess name
                   | _ => MsgFailed name
                   end).
      set (kept := match r with
                   | Some (entry :: entries) => all_results ++ [entry :: entries]
                   | _ => all_results
                   end).
      destruct (IH kept ((tr ++ t) ++ [Print line])) as (outcome & done & Hrun & Hdone).
      exists outcome, (t ++ [Print line] ++ done). split.
      * assert (Hstep : bind
                  match r with
                  | Some (entry :: entries) =>
                      bind (print (MsgSuccess name))
                        (fun _ => ret (all_results ++ [entry :: entries]))
                  | _ => bind (print (MsgFailed name)) (fun _ => ret all_results)
                  end
                  (fun all_results' =>
                     CeeolDriver.process_all w subject_tree input_directory names
                       all_results') (tr ++ t)
                = CeeolDriver.process_all w subject_tree input_directory names kept
                    ((tr ++ t) ++ [Print line])).
        { unfold kept, line. destruct r as [[|entry entries]|]; reflexivity. }
        rewrite Hstep, Hrun. now rewrite <- !app_assoc.
      * intros e path Hin Hpath.
        apply in_app_or in Hin as [Hin|[<-|Hin]].
        -- exists name. split; [now left|]. now apply (He e Hin).
        -- discriminate.
        -- destruct (Hdone e path Hin Hpath) as (name' & Hname' & ->).
           exists name'. split; [now right | reflexivity].
    + exists (Returned r), t. split; [reflexivity|].
      intros e path Hin Hpath. exists name. split; [now left|]. now apply (He e Hin).
    + exists (Raised x), t. split; [reflexivity|].
      intros e path Hin Hpath. exists name. split; [now left|]. now apply (He e Hin).
Qed.
(** X30: the prototype opens only files of the input directory: every
    path it opens is the directory joined with a listed name that ends in
    [.pdf], so the run does not depend on the working directory. *)
Theorem prototype_opens_joined_paths (w : World) (args : Args) (e : event)
    (path : string) :
  In e (fst (CeeolDriver.run w args)) ->
  document_path e = Some path ->
  exists names name,
    os_listdir w (arg_input_dir args) = Some names /\
    In name names /\ is_pdf name = true /\
    path = OsPath.join (arg_input_dir args) name.
Proof.
  unfold CeeolDriver.run.
  destruct (read_text w "subject_tree.md") as [ |text|subject_tree]; try (intros []).
  unfold CeeolDriver.main, configure_gemini.
  assert (Hprint : forall (l : list event),
             forallb is_print l = true -> In e l -> document_path e = Some path -> False).
  { intros l Hl Hin Hpath. apply prints_touch_nothing in Hl as (_ & _ & Hl).
    now apply (Hl e path). }
  destruct (env_GEMINI_API_KEY w) as [[|c key]|];
    try (intros Hin Hpath; exfalso; revert Hin Hpath; now apply Hprint).
  destruct (genai_configure w (String c key));
    [|intros Hin Hpath; exfalso; revert Hin Hpath; now apply Hprint].
  main_step.
  destruct (os_path_isdir w (arg_input_dir args)); cbn [negb].
  2: { destruct (console_markup_error w _);
       intros Hin Hpath; exfalso; revert Hin Hpath; now apply Hprint. }
  destruct (os_listdir w (arg_input_dir args)) as [names|];
    [|intros Hin Hpath; exfalso; revert Hin Hpath; now apply Hprint].
  destruct (filter is_pdf names) as [|first others] eqn:Hfiles.
  { destruct (console_markup_error w _);
      intros Hin Hpath; exfalso; revert Hin Hpath; now apply Hprint. }
  destruct (console_markup_error w _);
    [intros Hin Hpath; exfalso; revert Hin Hpath; now apply Hprint|].
  destruct (prototype_loop_events w subject_tree (arg_input_dir args) (first :: others) []
              [Print MsgBanner;
               Print (MsgFound (List.length (first :: others)) (arg_input_dir args))])
    as (outcome & done & Hrun & Hdone).
  cbn [app]. rewrite Hrun.
  unfold try_except, external_os, print_error, console_print, bind, emit, ret, raise.
  assert (Hloop : In e done -> document_path e = Some path ->
                  exists names0 name,
                    Some names = Some names0 /\ In name names0 /\ is_pdf name = true /\
                    path = OsPath.join (arg_input_dir args) name).
  { intros Hin Hpath. destruct (Hdone e path Hin Hpath) as (name & Hname & ->).
    rewrite <- Hfiles in Hname. apply filter_In in Hname as [Hname Hpdf].
    now exists names, name. }
  destruct outcome as [[|r results]|r|x]; try destruct (write_file w (arg_output args));
    cbn [exn_text]; try destruct (console_markup_error w _);
    cbn [exn_text]; try destruct (console_markup_error w _);
    cbn [fst snd]; intros Hin Hpath.
  all: repeat match type of Hin with
       | In _ (_ ++ _) => apply in_app_or in Hin as [Hin|Hin]
       | In _ (_ :: _) => destruct Hin as [Hin|Hin]; [subst e; discriminate Hpath|]
       | In _ [] => destruct Hin
       end.
  all: now apply Hloop.
Qed.

Lemma prototype_opens_joined_paths_witness :
  exists names name,
    os_listdir Scenario.text_mode_ok (arg_input_dir (Scenario.args false true)) = Some names /\
    In name names /\ is_pdf name = true /\
    "/data/pdfs/article.pdf" = OsPath.join (arg_input_dir (Scenario.args false true)) name.
Proof.
  apply (prototype_opens_joined_paths Scenario.text_mode_ok (Scenario.args false true)
           (OpenPdf "/data/pdfs/article.pdf")).
  - vm_compute. right. right. left. reflexivity.
  - reflexivity.
Defined.
